(** * Shallow embedding of the DSMR P1 telegram parser of SMR-Multi (v6.2.0)

    The C source keeps its state in two structs, [dsmr_parser_t] (line
    buffer, CRC accumulator, frame flags) and [dsmr_data_t] (the decoded
    telegram record).  Here both are Rocq records, each C function becomes a
    function that returns the updated structs, bytes are [Z] values in
    [0, 255], and the fixed-width integer arithmetic of the source is written
    out with its two's-complement wrap-around. *)

From Stdlib Require Import ZArith String Ascii List Bool Lia.
Import ListNotations.
Open Scope Z_scope.

(* ------------------------------------------------------------------------- *)
(** ** Bytes, C strings and integer widths *)

(** A byte string built from a Rocq string literal. *)
Definition bytes_of (s : string) : list Z :=
  map (fun a => Z.of_nat (nat_of_ascii a)) (list_ascii_of_string s).

Arguments bytes_of s%_string_scope.

(** The characters of a [char] array up to its first NUL, i.e. the C string
    the array holds. *)
Fixpoint cstr (l : list Z) : list Z :=
  match l with
  | [] => []
  | c :: l' => if c =? 0 then [] else c :: cstr l'
  end.

(** [strchr] on a C string, as the index of the first occurrence. *)
Fixpoint index_of (c : Z) (l : list Z) : option nat :=
  match l with
  | [] => None
  | x :: l' => if x =? c then Some O else option_map S (index_of c l')
  end.

(** [strncpy(dst, src, n)]: copy at most [n] characters of the C string
    [src], pad with NUL up to [n]; bytes of [dst] from index [n] on are not
    written. *)
Definition strncpy (dst src : list Z) (n : nat) : list Z :=
  let s := cstr src in
  firstn n s ++ repeat 0 (n - length s) ++ skipn n dst.

Definition wrap_signed (w : Z) (x : Z) : Z :=
  let r := x mod 2 ^ w in
  if 2 ^ (w - 1) <=? r then r - 2 ^ w else r.

Definition to_int64 (x : Z) : Z := wrap_signed 64 x.
Definition to_int32 (x : Z) : Z := wrap_signed 32 x.
Definition to_int16 (x : Z) : Z := wrap_signed 16 x.
Definition to_uint64 (x : Z) : Z := x mod 2 ^ 64.
Definition to_uint16 (x : Z) : Z := x mod 2 ^ 16.

Definition is_digit (c : Z) : bool := (48 <=? c) && (c <=? 57).
Definition is_upper (c : Z) : bool := (65 <=? c) && (c <=? 90).

(* ------------------------------------------------------------------------- *)
(** ** [crc16_update]: CRC16/IBM, reflected polynomial 0xA001 *)

(** One iteration of the inner loop:
    [if (crc & 1) crc = (crc >> 1) ^ 0xA001; else crc >>= 1;] *)
Definition crc_bit_step (crc : Z) : Z :=
  if Z.odd crc then Z.lxor (Z.shiftr crc 1) 0xA001 else Z.shiftr crc 1.

Definition crc16_update (crc : Z) (byte : Z) : Z :=
  Nat.iter 8 crc_bit_step (Z.lxor crc byte).

(** The CRC of a byte sequence from a given accumulator value. *)
Definition crc16_from (init : Z) (l : list Z) : Z := fold_left crc16_update l init.

Definition crc16 (l : list Z) : Z := crc16_from 0 l.

(* ------------------------------------------------------------------------- *)
(** ** [ascii_to_fixed] *)

Record a2f_state := mk_a2f {
  result : Z;
  fraction : Z;
  decimal_seen : bool;
  frac_digits : Z
}.

(** The body of the scanning loop of [ascii_to_fixed] for one character. *)
Definition a2f_char (st : a2f_state) (c : Z) : a2f_state :=
  if c =? 46 then mk_a2f (result st) (fraction st) true (frac_digits st)
  else if is_digit c then
    if negb (decimal_seen st) then
      mk_a2f (to_int64 (result st * 10 + (c - 48))) (fraction st)
             (decimal_seen st) (frac_digits st)
    else if frac_digits st <? 6 then
      mk_a2f (result st) (to_int64 (fraction st * 10 + (c - 48)))
             (decimal_seen st) (frac_digits st + 1)
    else st
  else st.

(** The scanning loop, which stops at the terminating NUL. *)
Fixpoint a2f_scan (st : a2f_state) (s : list Z) : a2f_state :=
  match s with
  | [] => st
  | c :: s' => if c =? 0 then st else a2f_scan (a2f_char st c) s'
  end.

Definition a2f_init : a2f_state := mk_a2f 0 0 false 0.

(** [while (frac_digits < 6) { fraction *= 10; frac_digits++; }] *)
Definition pad_fraction (st : a2f_state) : Z :=
  Nat.iter (Z.to_nat (6 - frac_digits st)) (fun f => to_int64 (f * 10)) (fraction st).

(** What follows the scanning loop: the padding of the fraction, the
    combination, the rescaling and the sign. *)
Definition a2f_finish (st : a2f_state) (scale sign : Z) : Z :=
  let fr := pad_fraction st in
  let r := to_int64 (result st * 1000000 + fr) in
  let r := if scale =? 2 then Z.quot r 10000
           else if scale =? 3 then Z.quot r 1000
           else r in
  to_int64 (r * sign).

(** [if ( *str == '-') { sign = -1; str++; }], the loop, then the rest. *)
Definition ascii_to_fixed (s : list Z) (scale : Z) : Z :=
  match s with
  | c :: t =>
      if c =? 45 then a2f_finish (a2f_scan a2f_init t) scale (-1)
      else a2f_finish (a2f_scan a2f_init s) scale 1
  | [] => a2f_finish (a2f_scan a2f_init s) scale 1
  end.

(* ------------------------------------------------------------------------- *)
(** ** [extract_value] *)

(** Returns the copy written into the static [value_buf[80]], or [None] for
    the [NULL] result. *)
Definition extract_value (line : list Z) : option (list Z) :=
  match index_of 40 line with
  | None => None
  | Some i =>
      let start := skipn (S i) line in
      let len :=
        match index_of 42 start, index_of 41 start with
        | Some u, None => Some u
        | Some u, Some e => if (u <? e)%nat then Some u else Some e
        | None, Some e => Some e
        | None, None => None
        end in
      match len with
      | None => None
      | Some n => Some (firstn (Nat.min n 79) start)
      end
  end.

(* ------------------------------------------------------------------------- *)
(** ** OBIS table and [match_obis_code] *)

Definition OBIS_ID_NONE := 0.
Definition OBIS_ID_METER_ID := 1.
Definition OBIS_ID_TIMESTAMP := 2.
Definition OBIS_ID_POWER_LIMIT := 3.
Definition OBIS_ID_ENERGY_DEL_LOW := 4.
Definition OBIS_ID_ENERGY_DEL_HIGH := 5.
Definition OBIS_ID_ENERGY_PROD_LOW := 6.
Definition OBIS_ID_ENERGY_PROD_HIGH := 7.
Definition OBIS_ID_CURRENT_POWER := 8.
Definition OBIS_ID_CURRENT_RETURN := 9.
Definition OBIS_ID_POWER_L1 := 10.
Definition OBIS_ID_POWER_L2 := 11.
Definition OBIS_ID_POWER_L3 := 12.
Definition OBIS_ID_RETURN_L1 := 13.
Definition OBIS_ID_RETURN_L2 := 14.
Definition OBIS_ID_RETURN_L3 := 15.
Definition OBIS_ID_VOLTAGE_L1 := 16.
Definition OBIS_ID_VOLTAGE_L2 := 17.
Definition OBIS_ID_VOLTAGE_L3 := 18.
Definition OBIS_ID_CURRENT_L1 := 19.
Definition OBIS_ID_CURRENT_L2 := 20.
Definition OBIS_ID_CURRENT_L3 := 21.
Definition OBIS_ID_PF_TOTAL := 22.
Definition OBIS_ID_PF_L1 := 23.
Definition OBIS_ID_PF_L2 := 24.
Definition OBIS_ID_PF_L3 := 25.

Definition OBIS_TABLE : list (string * Z) :=
  [ ("0-0:96.1.1"%string, OBIS_ID_METER_ID);
    ("0-0:1.0.0"%string, OBIS_ID_TIMESTAMP);
    ("0-0:17.0.0"%string, OBIS_ID_POWER_LIMIT);
    ("1-0:1.8.1"%string, OBIS_ID_ENERGY_DEL_LOW);
    ("1-0:1.8.2"%string, OBIS_ID_ENERGY_DEL_HIGH);
    ("1-0:2.8.1"%string, OBIS_ID_ENERGY_PROD_LOW);
    ("1-0:2.8.2"%string, OBIS_ID_ENERGY_PROD_HIGH);
    ("1-0:1.7.0"%string, OBIS_ID_CURRENT_POWER);
    ("1-0:2.7.0"%string, OBIS_ID_CURRENT_RETURN);
    ("1-0:21.7.0"%string, OBIS_ID_POWER_L1);
    ("1-0:41.7.0"%string, OBIS_ID_POWER_L2);
    ("1-0:61.7.0"%string, OBIS_ID_POWER_L3);
    ("1-0:22.7.0"%string, OBIS_ID_RETURN_L1);
    ("1-0:42.7.0"%string, OBIS_ID_RETURN_L2);
    ("1-0:62.7.0"%string, OBIS_ID_RETURN_L3);
    ("1-0:32.7.0"%string, OBIS_ID_VOLTAGE_L1);
    ("1-0:52.7.0"%string, OBIS_ID_VOLTAGE_L2);
    ("1-0:72.7.0"%string, OBIS_ID_VOLTAGE_L3);
    ("1-0:31.7.0"%string, OBIS_ID_CURRENT_L1);
    ("1-0:51.7.0"%string, OBIS_ID_CURRENT_L2);
    ("1-0:71.7.0"%string, OBIS_ID_CURRENT_L3);
    ("1-0:13.7.0"%string, OBIS_ID_PF_TOTAL);
    ("1-0:33.7.0"%string, OBIS_ID_PF_L1);
    ("1-0:53.7.0"%string, OBIS_ID_PF_L2);
    ("1-0:73.7.0"%string, OBIS_ID_PF_L3) ].

(** [strcmp_P_safe]: true exactly when both C strings are equal. *)
Fixpoint strcmp_P_safe (s p : list Z) : bool :=
  match s, p with
  | [], [] => true
  | c1 :: s', c2 :: p' => (c1 =? c2) && strcmp_P_safe s' p'
  | _, _ => false
  end.

Fixpoint match_obis_in (obis : list Z) (tbl : list (string * Z)) : Z :=
  match tbl with
  | [] => OBIS_ID_NONE
  | (s, id) :: tbl' =>
      if strcmp_P_safe obis (bytes_of s) then id else match_obis_in obis tbl'
  end.

Definition match_obis_code (obis : list Z) : Z := match_obis_in obis OBIS_TABLE.

(* ------------------------------------------------------------------------- *)
(** ** The telegram record [dsmr_data_t] *)

(** The numeric members of [dsmr_data_t]. *)
Inductive num_field :=
| energy_delivered_low | energy_delivered_high
| energy_produced_low | energy_produced_high
| current_power | current_return
| power_l1 | power_l2 | power_l3
| return_l1 | return_l2 | return_l3
| voltage_l1 | voltage_l2 | voltage_l3
| current_l1 | current_l2 | current_l3
| pf_total | pf_l1 | pf_l2 | pf_l3
| power_limit.

Scheme Equality for num_field.

(** The struct: its numeric members are read through [nums]; the three
    [char] arrays are lists of exactly 33, 14 and 33 bytes. *)
Record dsmr_data_t := mk_data {
  nums : num_field -> Z;
  meter_id : list Z;
  timestamp : list Z;
  equipment_id : list Z;
  is_3phase : bool;
  frame_complete : bool;
  has_pf_data : bool
}.

Definition METER_ID_SIZE : nat := 33.
Definition TIMESTAMP_SIZE : nat := 14.
Definition EQUIPMENT_ID_SIZE : nat := 33.

(** [memset(data, 0, sizeof(dsmr_data_t))] *)
Definition zero_data : dsmr_data_t :=
  mk_data (fun _ => 0) (repeat 0 METER_ID_SIZE) (repeat 0 TIMESTAMP_SIZE)
          (repeat 0 EQUIPMENT_ID_SIZE) false false false.

Definition set_num (d : dsmr_data_t) (f : num_field) (v : Z) : dsmr_data_t :=
  mk_data (fun g => if num_field_beq g f then v else nums d g)
          (meter_id d) (timestamp d) (equipment_id d)
          (is_3phase d) (frame_complete d) (has_pf_data d).

Definition set_meter_id (d : dsmr_data_t) (v : list Z) : dsmr_data_t :=
  mk_data (nums d) v (timestamp d) (equipment_id d)
          (is_3phase d) (frame_complete d) (has_pf_data d).

Definition set_timestamp (d : dsmr_data_t) (v : list Z) : dsmr_data_t :=
  mk_data (nums d) (meter_id d) v (equipment_id d)
          (is_3phase d) (frame_complete d) (has_pf_data d).

Definition set_equipment_id (d : dsmr_data_t) (v : list Z) : dsmr_data_t :=
  mk_data (nums d) (meter_id d) (timestamp d) v
          (is_3phase d) (frame_complete d) (has_pf_data d).

Definition set_is_3phase (d : dsmr_data_t) : dsmr_data_t :=
  mk_data (nums d) (meter_id d) (timestamp d) (equipment_id d)
          true (frame_complete d) (has_pf_data d).

Definition set_frame_complete (d : dsmr_data_t) : dsmr_data_t :=
  mk_data (nums d) (meter_id d) (timestamp d) (equipment_id d)
          (is_3phase d) true (has_pf_data d).

Definition set_has_pf_data (d : dsmr_data_t) : dsmr_data_t :=
  mk_data (nums d) (meter_id d) (timestamp d) (equipment_id d)
          (is_3phase d) (frame_complete d) true.

(* ------------------------------------------------------------------------- *)
(** ** [store_value] *)

(** The [switch (obis_type)] of [store_value]: the member written, the cast
    of the assignment, and whether the case also sets [is_3phase]. *)
Definition store_target (obis_type : Z) : option (num_field * (Z -> Z) * bool) :=
  match obis_type with
  | 3 => Some (power_limit, to_int32, false)
  | 4 => Some (energy_delivered_low, to_uint64, false)
  | 5 => Some (energy_delivered_high, to_uint64, false)
  | 6 => Some (energy_produced_low, to_uint64, false)
  | 7 => Some (energy_produced_high, to_uint64, false)
  | 8 => Some (current_power, to_int32, false)
  | 9 => Some (current_return, to_int32, false)
  | 10 => Some (power_l1, to_int32, false)
  | 11 => Some (power_l2, to_int32, true)
  | 12 => Some (power_l3, to_int32, true)
  | 13 => Some (return_l1, to_int32, false)
  | 14 => Some (return_l2, to_int32, false)
  | 15 => Some (return_l3, to_int32, false)
  | 16 => Some (voltage_l1, to_int16, false)
  | 17 => Some (voltage_l2, to_int16, true)
  | 18 => Some (voltage_l3, to_int16, true)
  | 19 => Some (current_l1, to_int16, false)
  | 20 => Some (current_l2, to_int16, true)
  | 21 => Some (current_l3, to_int16, true)
  | 22 => Some (pf_total, to_int32, false)
  | 23 => Some (pf_l1, to_int32, false)
  | 24 => Some (pf_l2, to_int32, false)
  | 25 => Some (pf_l3, to_int32, false)
  | _ => None
  end.

Definition in_range (lo hi x : Z) : bool := (lo <=? x) && (x <=? hi).

Definition store_value (d : dsmr_data_t) (obis_type : Z) (value_str : list Z)
  : dsmr_data_t :=
  if obis_type =? OBIS_ID_METER_ID then
    set_meter_id d (strncpy (meter_id d) value_str (METER_ID_SIZE - 1))
  else if obis_type =? OBIS_ID_TIMESTAMP then
    set_timestamp d (strncpy (timestamp d) value_str (TIMESTAMP_SIZE - 1))
  else
    let '(value, d1) :=
      if in_range OBIS_ID_VOLTAGE_L1 OBIS_ID_VOLTAGE_L3 obis_type then
        (ascii_to_fixed value_str 2, d)
      else if in_range OBIS_ID_CURRENT_L1 OBIS_ID_CURRENT_L3 obis_type then
        (ascii_to_fixed value_str 3, d)
      else if in_range OBIS_ID_PF_TOTAL OBIS_ID_PF_L3 obis_type then
        (Z.quot (ascii_to_fixed value_str 6) 100, set_has_pf_data d)
      else (ascii_to_fixed value_str 6, d) in
    match store_target obis_type with
    | None => d1
    | Some (f, cast, three) =>
        let d2 := set_num d1 f (cast value) in
        if three then set_is_3phase d2 else d2
    end.

(* ------------------------------------------------------------------------- *)
(** ** [strtol(hex, NULL, 16)] *)

Definition is_space (c : Z) : bool := (c =? 32) || in_range 9 13 c.

Definition hex_digit_val (c : Z) : option Z :=
  if in_range 48 57 c then Some (c - 48)
  else if in_range 97 102 c then Some (c - 87)
  else if in_range 65 70 c then Some (c - 55)
  else None.

Definition is_hex (c : Z) : bool :=
  match hex_digit_val c with Some _ => true | None => false end.

Fixpoint skip_spaces (l : list Z) : list Z :=
  match l with
  | c :: l' => if is_space c then skip_spaces l' else l
  | [] => []
  end.

Fixpoint hex_digits_val (acc : Z) (l : list Z) : Z :=
  match l with
  | c :: l' =>
      match hex_digit_val c with
      | Some v => hex_digits_val (acc * 16 + v) l'
      | None => acc
      end
  | [] => acc
  end.

(** Leading white space, an optional sign, an optional [0x]/[0X] prefix,
    then the longest run of hex digits (0 when there is none). *)
Definition strtol16 (l : list Z) : Z :=
  let l1 := skip_spaces l in
  let '(neg, l2) := match l1 with
                    | c :: t => if c =? 45 then (true, t)
                                else if c =? 43 then (false, t)
                                else (false, l1)
                    | [] => (false, l1)
                    end in
  let l3 := match l2 with
            | c0 :: x :: ((c :: _) as t) =>
                if (c0 =? 48) && ((x =? 120) || (x =? 88)) && is_hex c then t else l2
            | _ => l2
            end in
  let v := hex_digits_val 0 l3 in
  if neg then - v else v.

(* ------------------------------------------------------------------------- *)
(** ** The parser state [dsmr_parser_t] *)

(** [line_buffer] holds the bytes written at the indices below
    [line_index], so [line_index] is its length; the bytes of the C array
    from [line_index] on are never read, since a NUL is stored there before
    the line is processed.  The [data] pointer is the [dsmr_data_t] passed
    next to the parser. *)
Record dsmr_parser_t := mk_parser {
  line_buffer : list Z;
  frame_active : bool;
  crc_calculated : Z;
  crc_done : bool
}.

Definition LINE_BUFFER_SIZE : nat := 80.

Definition init_parser : dsmr_parser_t := mk_parser [] false 0 false.

Definition clear_frame_active (p : dsmr_parser_t) : dsmr_parser_t :=
  mk_parser (line_buffer p) false (crc_calculated p) (crc_done p).

(** [process_line(parser, line)], where [line] is the C string of the line
    buffer. *)
Definition process_line (p : dsmr_parser_t) (d : dsmr_data_t) (line : list Z)
  : dsmr_parser_t * dsmr_data_t :=
  match line with
  | [] => (p, d)
  | c0 :: rest =>
      if c0 =? 13 then (p, d)
      else if ((c0 =? 47) || is_upper c0) && negb (existsb (Z.eqb 58) line) then
        (p, set_equipment_id d (strncpy (equipment_id d) line (EQUIPMENT_ID_SIZE - 1)))
      else if c0 =? 33 then
        let p' := clear_frame_active p in
        if (5 <=? length line)%nat then
          let received_crc := to_uint16 (strtol16 (firstn 4 rest)) in
          if received_crc =? crc_calculated p then (p', set_frame_complete d)
          else (p', d)
        else (p', set_frame_complete d)
      else
        match index_of 40 line with
        | None => (p, d)
        | Some i =>
            let obis_type := match_obis_code (firstn i line) in
            if obis_type =? OBIS_ID_NONE then (p, d)
            else match extract_value line with
                 | Some v => (p, store_value d obis_type v)
                 | None => (p, d)
                 end
        end
  end.

Definition is_frame_start (c : Z) : bool := (c =? 47) || is_upper c || is_digit c.

(** [dsmr_parse_byte]: the new parser and record, and the returned value. *)
Definition dsmr_parse_byte (p : dsmr_parser_t) (d : dsmr_data_t) (c : Z)
  : dsmr_parser_t * dsmr_data_t * Z :=
  if negb (frame_active p) then
    if is_frame_start c then (mk_parser [c] true (crc16_update 0 c) false, d, 0)
    else (p, d, 0)
  else
    let p1 := if crc_done p then p
              else mk_parser (line_buffer p) (frame_active p)
                             (crc16_update (crc_calculated p) c) (c =? 33) in
    if c =? 10 then
      let '(p2, d2) := process_line p1 d (cstr (line_buffer p1)) in
      (mk_parser [] (frame_active p2) (crc_calculated p2) (crc_done p2), d2,
       if frame_complete d2 then 1 else 0)
    else if c =? 13 then (p1, d, 0)
    else if (length (line_buffer p1) <? LINE_BUFFER_SIZE - 1)%nat then
      (mk_parser (line_buffer p1 ++ [c]) (frame_active p1)
                 (crc_calculated p1) (crc_done p1), d, 0)
    else (p1, d, 0).

(** Feeding a byte sequence, with the list of returned values. *)
Fixpoint feed (p : dsmr_parser_t) (d : dsmr_data_t) (bs : list Z)
  : dsmr_parser_t * dsmr_data_t * list Z :=
  match bs with
  | [] => (p, d, [])
  | c :: bs' =>
      let '(p1, d1, r) := dsmr_parse_byte p d c in
      let '(p2, d2, rs) := feed p1 d1 bs' in
      (p2, d2, r :: rs)
  end.

Definition feed_data (bs : list Z) : dsmr_data_t :=
  let '(_, d, _) := feed init_parser zero_data bs in d.

Definition feed_returns (bs : list Z) : list Z :=
  let '(_, _, rs) := feed init_parser zero_data bs in rs.

(* ------------------------------------------------------------------------- *)
(** ** [processDataByte]: the application globals *)

Record globals := mk_globals {
  dsmr_parser : dsmr_parser_t;
  dsmr_data : dsmr_data_t;
  dsmr_last_good : dsmr_data_t
}.

Definition init_globals : globals := mk_globals init_parser zero_data zero_data.

(** The parser part of [processDataByte]; the forwarding to TCP clients
    that follows does not touch these globals. *)
Definition processDataByte (g : globals) (c : Z) : globals :=
  let '(p1, d1, r) := dsmr_parse_byte (dsmr_parser g) (dsmr_data g) c in
  if r =? 0 then mk_globals p1 d1 (dsmr_last_good g)
  else
    let lg := if negb (nth 0 (meter_id d1) 0 =? 0) && frame_complete d1 then d1
              else dsmr_last_good g in
    mk_globals init_parser zero_data lg.

Definition run_globals (g : globals) (bs : list Z) : globals :=
  fold_left processDataByte bs g.

(* ------------------------------------------------------------------------- *)
(** ** Building telegrams *)

Definition hex_char (n : Z) : Z := if n <? 10 then 48 + n else 55 + n.

(** Four upper-case hex digits of a 16-bit value. *)
Definition hex4 (v : Z) : list Z :=
  [hex_char (Z.shiftr v 12 mod 16); hex_char (Z.shiftr v 8 mod 16);
   hex_char (Z.shiftr v 4 mod 16); hex_char (v mod 16)].

Definition CRLF : list Z := [13; 10].

(** A telegram: [body] from the leading ['/'], then ['!'], the four hex
    digits of the CRC16 of [body] and ['!'], and CR LF. *)
Definition telegram (body : list Z) : list Z :=
  body ++ [33] ++ hex4 (crc16 (body ++ [33])) ++ CRLF.

Definition sample_body : list Z :=
  bytes_of "/ISk5\2MT382-1000" ++ CRLF ++
  bytes_of "1-0:1.7.0(00.424*kW)" ++ CRLF ++
  bytes_of "1-0:2.7.0(00.000*kW)" ++ CRLF.

Definition sample_telegram : list Z := telegram sample_body.

(** Flipping bit [k] of the byte at index [i]. *)
Definition flip_bit (l : list Z) (i : nat) (k : Z) : list Z :=
  firstn i l ++ map (fun b => Z.lxor b (2 ^ k)) (firstn 1 (skipn i l)) ++ skipn (S i) l.

(** The value of a run of decimal digits, accumulated as [x * 10 + digit]. *)
Fixpoint dec_val (acc : Z) (l : list Z) : Z :=
  match l with
  | [] => acc
  | c :: l' => dec_val (acc * 10 + (c - 48)) l'
  end.

(** A text field of [size] bytes whose last byte is the NUL that keeps its
    C string inside the array. *)
Definition field_ok (l : list Z) (size : nat) : Prop :=
  length l = size /\ nth (size - 1) l 0 = 0.

(* ------------------------------------------------------------------------- *)
(** ** The RAW frame capture of [processDataByte] *)

Definition MAX_FRAME_SIZE : nat := 1500.

(** The globals of the RAW capture, which the second half of
    [processDataByte] (after the forwarding to TCP clients) reads and
    writes; it touches none of the parser's globals. *)
Record raw_state := mk_raw {
  tempBuffer : list Z;
  tempOverflowed : bool;
  frameEndDetected : bool;
  lastFrameBuffer : list Z
}.

Definition init_raw : raw_state :=
  mk_raw [] false false (bytes_of "Waiting for P1 Data...").

Definition raw_step (s : raw_state) (c : Z) : raw_state :=
  (* if (c == '/') { tempBuffer = ""; tempOverflowed = false; frameEndDetected = false; } *)
  let s1 := if c =? 47 then mk_raw [] false false (lastFrameBuffer s) else s in
  (* if (tempBuffer.length() >= MAX_FRAME_SIZE) { ...; tempOverflowed = true; ... } *)
  let s2 := if (MAX_FRAME_SIZE <=? length (tempBuffer s1))%nat
            then mk_raw [] true false (lastFrameBuffer s1) else s1 in
  (* tempBuffer += c; *)
  let s3 := mk_raw (tempBuffer s2 ++ [c]) (tempOverflowed s2)
                   (frameEndDetected s2) (lastFrameBuffer s2) in
  (* if (c == '!') frameEndDetected = true; *)
  let s4 := if c =? 33 then mk_raw (tempBuffer s3) (tempOverflowed s3) true
                                   (lastFrameBuffer s3)
            else s3 in
  (* if (frameEndDetected && c == '\n') { if (!tempOverflowed) lastFrameBuffer = tempBuffer; ... } *)
  if frameEndDetected s4 && (c =? 10) then
    mk_raw [] false false
           (if tempOverflowed s4 then lastFrameBuffer s4 else tempBuffer s4)
  else s4.

Definition run_raw (s : raw_state) (bs : list Z) : raw_state := fold_left raw_step bs s.

(** The serial loop of the older v5.7.0 sketch appended to the same file:
    [tempBuffer] and [lastFrameBuffer]. *)
Definition raw57_step (s : list Z * list Z) (c : Z) : list Z * list Z :=
  let '(tb, lfb) := s in
  let tb1 := if (MAX_FRAME_SIZE <=? length tb)%nat then [] else tb in
  let tb2 := tb1 ++ [c] in
  if c =? 33 then ([], tb2) else (tb2, lfb).

Definition run_raw57 (s : list Z * list Z) (bs : list Z) : list Z * list Z :=
  fold_left raw57_step bs s.

(* ------------------------------------------------------------------------- *)
(** ** The software watchdog of [loop] *)

(** [unsigned long] is 32 bits wide; [millis()] and the differences of
    timestamps are taken modulo [2^32]. *)
Definition ulong (x : Z) : Z := x mod 2 ^ 32.

Definition WATCHDOG_TIMEOUT : Z := 600000.
Definition WIFI_TIMEOUT : Z := 300000.
Definition BOOT_GRACE_PERIOD : Z := 300000.

Record wd_timers := mk_timers {
  bootTime : Z;
  lastWiFiCheck : Z;
  lastDataReceived : Z;
  lastClientCheck : Z
}.

Inductive wd_reason := wifi_lost | no_data | no_clients.

(** The [if (!apMode) { ... }] block of [loop] at time [now]: the reason of
    the [ESP.restart()] it reaches, if any, and the timers it leaves. *)
Definition watchdog (now : Z) (wifi_connected : bool) (activeClients : Z)
  (w : wd_timers) : option wd_reason * wd_timers :=
  let bootGracePassed := BOOT_GRACE_PERIOD <? ulong (now - bootTime w) in
  let wifi :=
    if bootGracePassed && negb wifi_connected then
      if WIFI_TIMEOUT <? ulong (now - lastWiFiCheck w) then Some wifi_lost else None
    else None in
  let w1 := if bootGracePassed && negb wifi_connected then w
            else mk_timers (bootTime w) now (lastDataReceived w) (lastClientCheck w) in
  match wifi with
  | Some r => (Some r, w1)
  | None =>
      if WATCHDOG_TIMEOUT <? ulong (now - lastDataReceived w1) then (Some no_data, w1)
      else if (activeClients =? 0) && (WATCHDOG_TIMEOUT <? ulong (now - lastClientCheck w1))
      then (Some no_clients, w1)
      else (None, if 0 <? activeClients
                  then mk_timers (bootTime w1) (lastWiFiCheck w1) (lastDataReceived w1) now
                  else w1)
  end.

(* ------------------------------------------------------------------------- *)
(** ** [formatUptime] *)

(** [String(unsigned long)]: the decimal digits, most significant first,
    ["0"] for zero ([fuel] bounds the number of digits). *)
Fixpoint dec_digits (fuel : nat) (n : Z) (acc : list Z) : list Z :=
  match fuel with
  | O => acc
  | S f =>
      let acc' := (48 + n mod 10) :: acc in
      if n <? 10 then acc' else dec_digits f (n / 10) acc'
  end.

Definition dec_string (n : Z) : list Z := dec_digits 20 n [].

(** The four numbers shown, from [s = millis() / 1000]. *)
Definition uptime_parts (ms : Z) : Z * Z * Z * Z :=
  let s := ms / 1000 in
  (s / 86400, (s mod 86400) / 3600, (s mod 3600) / 60, s mod 60).

Definition formatUptime (ms : Z) : list Z :=
  let '(d, h, m, s) := uptime_parts ms in
  dec_string d ++ bytes_of "d " ++ dec_string h ++ bytes_of "h " ++
  dec_string m ++ bytes_of "m " ++ dec_string s ++ bytes_of "s".

(* ------------------------------------------------------------------------- *)
(** ** [customUrlEncode] *)

(** [isalnum] of the C locale; the characters of the [String] are bytes. *)
Definition is_lower (c : Z) : bool := (97 <=? c) && (c <=? 122).
Definition is_alnum (c : Z) : bool := is_digit c || is_upper c || is_lower c.

(** ['%'] and [sprintf(b, "%02X", (unsigned char)c)]. *)
Definition url_escape (c : Z) : list Z :=
  let b := c mod 256 in [37; hex_char (b / 16); hex_char (b mod 16)].

Definition customUrlEncode (str : list Z) : list Z :=
  flat_map (fun c => if is_alnum c then [c] else url_escape c) str.

(* ------------------------------------------------------------------------- *)
(** ** The configuration and its web handlers *)

Record AppConfig := mk_config {
  wifiSsid : list Z;
  wifiPass : list Z;
  wwwUser : list Z;
  wwwPass : list Z;
  dhcpMode : bool;
  staticIP : list Z;
  gateway : list Z;
  subnet : list Z;
  useTcpDataSource : bool;
  dataSourceHost : list Z;
  dataSourcePort : Z;
  tcpServerPort : Z
}.

(** [strcpy(dst, src)]: the C string of [src] and its NUL. *)
Definition strcpy (dst src : list Z) : list Z :=
  let s := cstr src in s ++ [0] ++ skipn (S (length s)) dst.

(** [memset(&config, 0, sizeof(AppConfig))] and the defaults of [setup]. *)
Definition factory_config : AppConfig :=
  mk_config (repeat 0 33) (repeat 0 64)
    (strcpy (repeat 0 33) (bytes_of "admin")) (strcpy (repeat 0 33) (bytes_of "admin"))
    true
    (strcpy (repeat 0 16) (bytes_of "192.168.4.1"))
    (strcpy (repeat 0 16) (bytes_of "192.168.4.1"))
    (strcpy (repeat 0 16) (bytes_of "255.255.255.0"))
    false (strcpy (repeat 0 64) []) 2001 2001.

(** [String::toInt()], i.e. [atol] on the C string: [strtol] in base 10,
    saturated to the 32-bit [long]. *)
Fixpoint dec_digits_val (acc : Z) (l : list Z) : Z :=
  match l with
  | c :: l' => if is_digit c then dec_digits_val (acc * 10 + (c - 48)) l' else acc
  | [] => acc
  end.

Definition toInt (l : list Z) : Z :=
  let l1 := skip_spaces (cstr l) in
  let '(neg, l2) := match l1 with
                    | c :: t => if c =? 45 then (true, t)
                                else if c =? 43 then (false, t)
                                else (false, l1)
                    | [] => (false, l1)
                    end in
  let v := dec_digits_val 0 l2 in
  Z.max (- 2 ^ 31) (Z.min (2 ^ 31 - 1) (if neg then - v else v)).

(** [String == "1"]: equality of the C strings. *)
Definition arg_is_1 (a : list Z) : bool := strcmp_P_safe (cstr a) (bytes_of "1").

(** The POST handlers that write [config]; [arg] is [webServer.arg] and
    [auth] the result of [webServer.authenticate]. *)
Inductive request :=
| SaveConfig (arg : string -> list Z)
| SavePass (auth : bool) (arg : string -> list Z)
| SaveSource (auth : bool) (arg : string -> list Z).

Definition handle_request (cfg : AppConfig) (rq : request) : AppConfig :=
  match rq with
  | SaveConfig arg =>
      let port := to_uint16 (toInt (arg "srv_port"%string)) in
      mk_config (strncpy (wifiSsid cfg) (arg "ssid"%string) 32)
                (strncpy (wifiPass cfg) (arg "pass"%string) 63)
                (wwwUser cfg) (wwwPass cfg)
                (arg_is_1 (arg "dhcp"%string))
                (strncpy (staticIP cfg) (arg "ip"%string) 15)
                (strncpy (gateway cfg) (arg "gw"%string) 15)
                (strncpy (subnet cfg) (arg "sn"%string) 15)
                (useTcpDataSource cfg) (dataSourceHost cfg) (dataSourcePort cfg)
                (if port =? 0 then 2001 else port)
  | SavePass auth arg =>
      if negb auth then cfg
      else
        mk_config (wifiSsid cfg) (wifiPass cfg)
                  (strncpy (wwwUser cfg) (arg "user"%string) 32)
                  (if (0 <? length (arg "pass"%string))%nat
                   then strncpy (wwwPass cfg) (arg "pass"%string) 32 else wwwPass cfg)
                  (dhcpMode cfg) (staticIP cfg) (gateway cfg) (subnet cfg)
                  (useTcpDataSource cfg) (dataSourceHost cfg) (dataSourcePort cfg)
                  (tcpServerPort cfg)
  | SaveSource auth arg =>
      if negb auth then cfg
      else
        mk_config (wifiSsid cfg) (wifiPass cfg) (wwwUser cfg) (wwwPass cfg)
                  (dhcpMode cfg) (staticIP cfg) (gateway cfg) (subnet cfg)
                  (arg_is_1 (arg "source_mode"%string))
                  (strncpy (dataSourceHost cfg) (arg "host"%string) (64 - 1))
                  (to_uint16 (toInt (arg "port"%string)))
                  (tcpServerPort cfg)
  end.

(** Every [char] array of the configuration has its size and a NUL in its
    last byte. *)
Definition config_ok (cfg : AppConfig) : Prop :=
  field_ok (wifiSsid cfg) 33 /\ field_ok (wifiPass cfg) 64 /\
  field_ok (wwwUser cfg) 33 /\ field_ok (wwwPass cfg) 33 /\
  field_ok (staticIP cfg) 16 /\ field_ok (gateway cfg) 16 /\
  field_ok (subnet cfg) 16 /\ field_ok (dataSourceHost cfg) 64.

(* ========================================================================= *)
(** * Properties *)

(** ** The sample telegram of the spec *)

(** C1 (counterexample): on the sample telegram the equipment id stored is
    not ["ISk5\2MT382-1000"]: the whole identification line, with its
    leading ['/'], is copied. *)
Lemma sample_equipment_id_keeps_slash :
  cstr (equipment_id (feed_data sample_telegram)) <> bytes_of "ISk5\2MT382-1000".
Proof. vm_compute. discriminate. Qed.

(** C1 (amended): fed to a freshly initialised parser, the sample telegram
    (with its correct CRC16) makes [dsmr_parse_byte] return 1 exactly once,
    on the final ['\n'], and leaves [current_power = 424000],
    [current_return = 0] and the equipment id ["/ISk5\2MT382-1000"]. *)
Theorem sample_telegram_decoded :
  feed_returns sample_telegram = repeat 0 (length sample_telegram - 1) ++ [1] /\
  nums (feed_data sample_telegram) current_power = 424000 /\
  nums (feed_data sample_telegram) current_return = 0 /\
  cstr (equipment_id (feed_data sample_telegram)) = bytes_of "/ISk5\2MT382-1000".
Proof. vm_compute. repeat split. Qed.

(** ** Fixed-width arithmetic *)

Lemma pow_half (w : Z) : 0 < w -> 2 ^ w = 2 * 2 ^ (w - 1).
Proof. intros Hw. rewrite <- Z.pow_succ_r by lia. f_equal. lia. Qed.

Lemma wrap_signed_range (w x : Z) :
  0 < w -> - 2 ^ (w - 1) <= wrap_signed w x < 2 ^ (w - 1).
Proof.
  intros Hw. unfold wrap_signed. pose proof (pow_half w Hw) as Hp.
  assert (0 < 2 ^ (w - 1)) by (apply Z.pow_pos_nonneg; lia).
  pose proof (Z.mod_pos_bound x (2 ^ w) ltac:(lia)).
  destruct (Z.leb_spec (2 ^ (w - 1)) (x mod 2 ^ w)); lia.
Qed.

Lemma wrap_signed_id (w x : Z) :
  0 < w -> - 2 ^ (w - 1) <= x < 2 ^ (w - 1) -> wrap_signed w x = x.
Proof.
  intros Hw Hx. unfold wrap_signed. pose proof (pow_half w Hw) as Hp.
  destruct (Z.leb_spec 0 x).
  - rewrite Z.mod_small by lia.
    destruct (Z.leb_spec (2 ^ (w - 1)) x); lia.
  - assert (E : x mod 2 ^ w = x + 2 ^ w).
    { rewrite <- (Z.mod_add x 1 (2 ^ w)) by lia. rewrite Z.mul_1_l.
      apply Z.mod_small. lia. }
    rewrite E. destruct (Z.leb_spec (2 ^ (w - 1)) (x + 2 ^ w)); lia.
Qed.

Lemma to_int64_range (x : Z) : - 2 ^ 63 <= to_int64 x < 2 ^ 63.
Proof. exact (wrap_signed_range 64 x ltac:(lia)). Qed.

Lemma to_int64_id (x : Z) : - 2 ^ 63 <= x < 2 ^ 63 -> to_int64 x = x.
Proof. intros H. exact (wrap_signed_id 64 x ltac:(lia) H). Qed.

(** ** The scanning loop of [ascii_to_fixed] *)

Lemma is_digit_bounds (c : Z) : is_digit c = true -> 48 <= c <= 57.
Proof.
  unfold is_digit. intros H. apply andb_true_iff in H as [H1 H2].
  apply Z.leb_le in H1. apply Z.leb_le in H2. lia.
Qed.

Lemma a2f_char_ignored (st : a2f_state) (c : Z) :
  is_digit c = false -> c <> 46 -> a2f_char st c = st.
Proof.
  intros Hd Hdot. unfold a2f_char. rewrite Hd.
  destruct (Z.eqb_spec c 46); [contradiction | reflexivity].
Qed.

Lemma a2f_scan_app (st : a2f_state) (s1 s2 : list Z) :
  ~ In 0 s1 -> a2f_scan st (s1 ++ s2) = a2f_scan (a2f_scan st s1) s2.
Proof.
  revert st. induction s1 as [|c s1 IH]; intros st Hn; [reflexivity|].
  simpl. destruct (Z.eqb_spec c 0) as [E|E].
  - exfalso. apply Hn. left. congruence.
  - apply IH. intros H. apply Hn. right. exact H.
Qed.

Lemma a2f_scan_no_digits (ds : bool) (s : list Z) :
  forallb (fun c => negb (is_digit c)) s = true ->
  exists ds', a2f_scan (mk_a2f 0 0 ds 0) s = mk_a2f 0 0 ds' 0.
Proof.
  revert ds. induction s as [|c s IH]; intros ds H; simpl in H |- *.
  - eauto.
  - apply andb_true_iff in H as [Hc Hs]. apply negb_true_iff in Hc.
    destruct (c =? 0); [eauto|].
    unfold a2f_char. rewrite Hc. destruct (c =? 46); simpl; apply IH; exact Hs.
Qed.

Lemma pad_zero (n : nat) : Nat.iter n (fun f => to_int64 (f * 10)) 0 = 0.
Proof. induction n as [|n IH]; simpl; [reflexivity | rewrite IH; reflexivity]. Qed.

Lemma ascii_to_fixed_sign (s : list Z) (scale : Z) :
  exists sign s', ascii_to_fixed s scale = a2f_finish (a2f_scan a2f_init s') scale sign
    /\ (s' = s \/ exists c, s = c :: s').
Proof.
  unfold ascii_to_fixed. destruct s as [|c t].
  - exists 1, []. split; [reflexivity | left; reflexivity].
  - destruct (c =? 45).
    + exists (-1), t. split; [reflexivity | right; eauto].
    + exists 1, (c :: t). split; [reflexivity | left; reflexivity].
Qed.

Lemma a2f_scan_skip (st : a2f_state) (s1 : list Z) (c : Z) (s2 : list Z) :
  ~ In 0 s1 -> c <> 0 -> is_digit c = false -> c <> 46 ->
  a2f_scan st (s1 ++ c :: s2) = a2f_scan st (s1 ++ s2).
Proof.
  intros Hn H0 Hd Hdot. rewrite !a2f_scan_app by exact Hn. simpl.
  apply Z.eqb_neq in H0. rewrite H0. rewrite a2f_char_ignored by assumption.
  reflexivity.
Qed.

(** C6: [ascii_to_fixed] always returns a value of [int64_t]; on a string
    without digits it returns 0 whatever the scale; and a character that is
    neither a digit nor ['.'] leaves the scanning loop where it was, so
    removing it after the first position (where ['-'] is the sign) does not
    change the result. *)
Theorem ascii_to_fixed_total_tolerant :
  (forall s scale, - 2 ^ 63 <= ascii_to_fixed s scale < 2 ^ 63) /\
  (forall s scale, forallb (fun c => negb (is_digit c)) s = true ->
     ascii_to_fixed s scale = 0) /\
  (forall st c s, c <> 0 -> is_digit c = false -> c <> 46 ->
     a2f_scan st (c :: s) = a2f_scan st s) /\
  (forall s1 c s2 scale, s1 <> [] -> ~ In 0 s1 -> c <> 0 ->
     is_digit c = false -> c <> 46 ->
     ascii_to_fixed (s1 ++ c :: s2) scale = ascii_to_fixed (s1 ++ s2) scale).
Proof.
  split; [|split; [|split]].
  - intros s scale. destruct (ascii_to_fixed_sign s scale) as (sign & s' & -> & _).
    apply to_int64_range.
  - intros s scale H.
    destruct (ascii_to_fixed_sign s scale) as (sign & s' & -> & Hs).
    assert (H' : forallb (fun c => negb (is_digit c)) s' = true).
    { destruct Hs as [-> | [c ->]]; [exact H|].
      simpl in H. apply andb_true_iff in H. tauto. }
    destruct (a2f_scan_no_digits false s' H') as [ds E]. unfold a2f_init. rewrite E.
    unfold a2f_finish, pad_fraction. cbn [result fraction frac_digits]. rewrite pad_zero.
    destruct (scale =? 2), (scale =? 3); reflexivity.
  - intros st c s H0 Hd Hdot. simpl. apply Z.eqb_neq in H0. rewrite H0.
    rewrite a2f_char_ignored by assumption. reflexivity.
  - intros s1 c s2 scale Hne Hn H0 Hd Hdot.
    destruct s1 as [|c1 s1]; [congruence|].
    assert (Hn' : ~ In 0 s1) by (intros HI; apply Hn; right; exact HI).
    unfold ascii_to_fixed. cbn [app].
    destruct (c1 =? 45).
    + rewrite (a2f_scan_skip _ s1 c s2 Hn' H0 Hd Hdot). reflexivity.
    + rewrite (a2f_scan_skip _ (c1 :: s1) c s2 Hn H0 Hd Hdot). reflexivity.
Qed.

Lemma dec_val_ge (acc : Z) (l : list Z) :
  0 <= acc -> forallb is_digit l = true -> acc <= dec_val acc l.
Proof.
  revert acc. induction l as [|c l IH]; intros acc Ha Hl; simpl in *; [lia|].
  apply andb_true_iff in Hl as [Hc Hl]. apply is_digit_bounds in Hc.
  specialize (IH (acc * 10 + (c - 48)) ltac:(lia) Hl). lia.
Qed.

Lemma dec_val_lt (acc : Z) (l : list Z) (k : Z) :
  0 <= acc < 10 ^ k -> 0 <= k -> forallb is_digit l = true ->
  dec_val acc l < 10 ^ (k + Z.of_nat (length l)).
Proof.
  revert acc k. induction l as [|c l IH]; intros acc k Ha Hk Hl;
    cbn [dec_val length forallb] in *.
  - rewrite Z.add_0_r. lia.
  - apply andb_true_iff in Hl as [Hc Hl]. apply is_digit_bounds in Hc.
    replace (k + Z.of_nat (S (length l))) with ((k + 1) + Z.of_nat (length l)) by lia.
    apply IH; [|lia|exact Hl].
    rewrite Z.pow_add_r by lia. lia.
Qed.

Lemma scan_int (r fr fd : Z) (d : list Z) :
  0 <= r -> forallb is_digit d = true -> dec_val r d < 2 ^ 63 ->
  a2f_scan (mk_a2f r fr false fd) d = mk_a2f (dec_val r d) fr false fd.
Proof.
  revert r. induction d as [|c d IH]; intros r Hr Hd Hb;
    cbn [a2f_scan dec_val forallb] in *; [reflexivity|].
  apply andb_true_iff in Hd as [Hc Hd].
  pose proof (is_digit_bounds c Hc) as Hcb.
  replace (c =? 0) with false by (symmetry; apply Z.eqb_neq; lia).
  unfold a2f_char. replace (c =? 46) with false by (symmetry; apply Z.eqb_neq; lia).
  rewrite Hc. cbn [negb decimal_seen result fraction frac_digits].
  pose proof (dec_val_ge (r * 10 + (c - 48)) d ltac:(lia) Hd).
  assert (0 < 2 ^ 63) by (apply Z.pow_pos_nonneg; lia).
  rewrite to_int64_id by lia. apply IH; [lia | exact Hd | exact Hb].
Qed.

Lemma scan_frac (r fr k : Z) (f : list Z) :
  0 <= fr < 10 ^ k -> 0 <= k -> forallb is_digit f = true ->
  k + Z.of_nat (length f) <= 6 ->
  a2f_scan (mk_a2f r fr true k) f = mk_a2f r (dec_val fr f) true (k + Z.of_nat (length f)).
Proof.
  revert fr k. induction f as [|c f IH]; intros fr k Hfr Hk Hf Hlen;
    cbn [a2f_scan dec_val forallb length] in *.
  - rewrite Z.add_0_r. reflexivity.
  - apply andb_true_iff in Hf as [Hc Hf].
    pose proof (is_digit_bounds c Hc) as Hcb.
    replace (c =? 0) with false by (symmetry; apply Z.eqb_neq; lia).
    unfold a2f_char. replace (c =? 46) with false by (symmetry; apply Z.eqb_neq; lia).
    rewrite Hc. cbn [negb decimal_seen result fraction frac_digits].
    replace (k <? 6) with true by (symmetry; apply Z.ltb_lt; lia).
    assert (Hp : 10 ^ (k + 1) <= 10 ^ 6) by (apply Z.pow_le_mono_r; lia).
    assert (Hs : 10 ^ (k + 1) = 10 ^ k * 10) by (rewrite Z.pow_add_r; lia).
    rewrite to_int64_id by lia.
    rewrite IH by (first [exact Hf | lia]).
    f_equal. lia.
Qed.

Lemma pad_iter (n : nat) (v : Z) :
  0 <= v -> v * 10 ^ Z.of_nat n < 2 ^ 63 ->
  Nat.iter n (fun f => to_int64 (f * 10)) v = v * 10 ^ Z.of_nat n.
Proof.
  induction n as [|n IH]; intros Hv Hb.
  - simpl. lia.
  - assert (Hs : 10 ^ Z.of_nat (S n) = 10 ^ Z.of_nat n * 10)
      by (rewrite Nat2Z.inj_succ, Z.pow_succ_r; lia).
    assert (0 <= 10 ^ Z.of_nat n) by (apply Z.pow_nonneg; lia).
    rewrite Hs in *. simpl Nat.iter. rewrite IH by nia.
    rewrite to_int64_id by nia. lia.
Qed.

(** C7: a decimal ["D.F"] with at most six fractional digits, whose
    integer part keeps [(D + 1) * 10^6] within [int64_t], converts at scale 6
    to exactly [D * 10^6 + F * 10^(6 - |F|)], i.e. D.F in micro-units. *)
Theorem ascii_to_fixed_decimal (d f : list Z) :
  forallb is_digit d = true -> forallb is_digit f = true ->
  (length f <= 6)%nat -> (dec_val 0 d + 1) * 10 ^ 6 <= 2 ^ 63 ->
  ascii_to_fixed (d ++ 46 :: f) 6 =
  dec_val 0 d * 10 ^ 6 + dec_val 0 f * 10 ^ (6 - Z.of_nat (length f)).
Proof.
  intros Hd Hf Hlen Hb.
  assert (HnD : ~ In 0 d).
  { intros HI. rewrite forallb_forall in Hd. apply Hd, is_digit_bounds in HI. lia. }
  pose proof (dec_val_ge 0 d ltac:(lia) Hd) as HD0.
  pose proof (dec_val_ge 0 f ltac:(lia) Hf) as HF0.
  pose proof (dec_val_lt 0 f 0 ltac:(simpl; lia) ltac:(lia) Hf) as HF1.
  simpl in HF1.
  set (D := dec_val 0 d) in *. set (F := dec_val 0 f) in *.
  assert (H6 : 10 ^ 6 = 1000000) by reflexivity.
  assert (0 < 2 ^ 63) by (apply Z.pow_pos_nonneg; lia).
  assert (Hst : a2f_scan a2f_init (d ++ 46 :: f) =
                mk_a2f D F true (Z.of_nat (length f))).
  { unfold a2f_init. rewrite a2f_scan_app by exact HnD.
    rewrite (scan_int 0 0 0 d ltac:(lia) Hd) by lia.
    change (a2f_scan (a2f_char (mk_a2f D 0 false 0) 46) f =
            mk_a2f D F true (Z.of_nat (length f))).
    replace (a2f_char (mk_a2f D 0 false 0) 46) with (mk_a2f D 0 true 0) by reflexivity.
    rewrite (scan_frac D 0 0 f) by (first [exact Hf | cbn; lia]).
    rewrite Z.add_0_l. reflexivity. }
  assert (Hpad : pad_fraction (mk_a2f D F true (Z.of_nat (length f))) =
                 F * 10 ^ (6 - Z.of_nat (length f))).
  { unfold pad_fraction. cbn [fraction frac_digits].
    replace (Z.to_nat (6 - Z.of_nat (length f))) with (6 - length f)%nat by lia.
    replace (6 - Z.of_nat (length f)) with (Z.of_nat (6 - length f)) by lia.
    apply pad_iter; [lia|].
    assert (E : 10 ^ Z.of_nat (length f) * 10 ^ Z.of_nat (6 - length f) = 10 ^ 6).
    { rewrite <- Z.pow_add_r by lia. f_equal. lia. }
    assert (0 <= 10 ^ Z.of_nat (6 - length f)) by (apply Z.pow_nonneg; lia).
    nia. }
  assert (HFb : F * 10 ^ (6 - Z.of_nat (length f)) < 10 ^ 6).
  { assert (E : 10 ^ Z.of_nat (length f) * 10 ^ (6 - Z.of_nat (length f)) = 10 ^ 6).
    { rewrite <- Z.pow_add_r by lia. f_equal. lia. }
    assert (0 <= 10 ^ (6 - Z.of_nat (length f))) by (apply Z.pow_nonneg; lia).
    nia. }
  assert (0 <= 10 ^ (6 - Z.of_nat (length f))) by (apply Z.pow_nonneg; lia).
  replace (ascii_to_fixed (d ++ 46 :: f) 6)
    with (a2f_finish (a2f_scan a2f_init (d ++ 46 :: f)) 6 1).
  2:{ destruct d as [|c d']; [reflexivity|].
      simpl in Hd. apply andb_true_iff in Hd as [Hc _]. apply is_digit_bounds in Hc.
      unfold ascii_to_fixed. cbn [app].
      replace (c =? 45) with false by (symmetry; apply Z.eqb_neq; lia).
      reflexivity. }
  rewrite Hst. unfold a2f_finish. rewrite Hpad. cbn [result].
  simpl (6 =? 2). simpl (6 =? 3). cbv iota.
  rewrite Z.mul_1_r. rewrite H6 in *.
  rewrite (to_int64_id (D * 1000000 + F * 10 ^ (6 - Z.of_nat (length f)))) by lia.
  apply to_int64_id. lia.
Qed.

Lemma ascii_to_fixed_decimal_witness :
  ascii_to_fixed (bytes_of "229" ++ 46 :: bytes_of "5") 6 =
  dec_val 0 (bytes_of "229") * 10 ^ 6 +
  dec_val 0 (bytes_of "5") * 10 ^ (6 - Z.of_nat (length (bytes_of "5"))).
Proof.
  apply ascii_to_fixed_decimal;
    first [reflexivity | vm_compute; discriminate | simpl; lia].
Defined.

(** ** Text fields *)

Lemma cstr_no_nul (l : list Z) : ~ In 0 (cstr l).
Proof.
  induction l as [|c l IH]; simpl; [tauto|].
  destruct (Z.eqb_spec c 0); simpl; [tauto|].
  intros [H|H]; [congruence | exact (IH H)].
Qed.

Lemma cstr_app_nul (l r : list Z) : ~ In 0 l -> cstr (l ++ 0 :: r) = l.
Proof.
  induction l as [|c l IH]; intros Hn; [reflexivity|].
  simpl. destruct (Z.eqb_spec c 0) as [E|E].
  - exfalso. apply Hn. left. congruence.
  - f_equal. apply IH. intros H. apply Hn. right. exact H.
Qed.

Lemma not_in_firstn (x : Z) (n : nat) (l : list Z) : ~ In x l -> ~ In x (firstn n l).
Proof.
  intros Hn Hin. apply Hn. rewrite <- (firstn_skipn n l).
  apply in_or_app. left. exact Hin.
Qed.

Lemma skipn_last_cell (n : nat) (l : list Z) :
  length l = S n -> skipn n l = [nth n l 0].
Proof.
  revert l. induction n as [|n IH]; intros l Hl.
  - destruct l as [|x [|y l]]; simpl in *; congruence.
  - destruct l as [|x l]; simpl in *; [congruence|]. apply IH. lia.
Qed.

(** [strncpy(dst, src, sizeof(dst) - 1)] into a field whose last byte is
    NUL: the field keeps its size and its final NUL, and its C string is the
    source truncated to [sizeof(dst) - 1] characters. *)
Lemma strncpy_field (dst src : list Z) (n : nat) :
  field_ok dst (S n) ->
  field_ok (strncpy dst src n) (S n) /\ cstr (strncpy dst src n) = firstn n (cstr src).
Proof.
  intros [Hlen Hlast]. simpl in Hlast. rewrite Nat.sub_0_r in Hlast.
  unfold strncpy. rewrite (skipn_last_cell n dst Hlen), Hlast.
  set (s := cstr src).
  assert (Hs : ~ In 0 (firstn n s)) by (apply not_in_firstn, cstr_no_nul).
  assert (Hfl : length (firstn n s) = Nat.min n (length s)) by apply length_firstn.
  assert (Hpre : length (firstn n s ++ repeat 0 (n - length s)) = n)
    by (rewrite length_app, repeat_length; lia).
  unfold field_ok. rewrite app_assoc. split; [split|].
  - rewrite length_app, Hpre. simpl. lia.
  - simpl. rewrite Nat.sub_0_r. rewrite app_nth2 by lia. rewrite Hpre, Nat.sub_diag.
    reflexivity.
  - destruct (n - length s)%nat as [|k] eqn:E.
    + simpl. rewrite app_nil_r. apply cstr_app_nul. exact Hs.
    + simpl. rewrite <- app_assoc. simpl. apply cstr_app_nul. exact Hs.
Qed.

(** C8 (counterexample): a 20-character meter identifier is stored whole,
    not truncated to 16 characters. *)
Lemma meter_id_not_truncated_to_16 :
  length (cstr (meter_id (store_value zero_data OBIS_ID_METER_ID
                           (bytes_of "E0012345678901234567")))) = 20%nat.
Proof. vm_compute. reflexivity. Qed.

(** C8 (amended): in a record whose three text fields end in their NUL
    byte, storing a meter identifier, a timestamp or an equipment
    identifier writes only that field, keeps its size (33, 14, 33 bytes)
    and its final NUL, and leaves in it the input truncated to 32, 13 and
    32 characters. *)
Theorem text_fields_truncated (d : dsmr_data_t) (v : list Z)
    (p : dsmr_parser_t) (c0 : Z) (rest : list Z) :
  field_ok (meter_id d) METER_ID_SIZE ->
  field_ok (timestamp d) TIMESTAMP_SIZE ->
  field_ok (equipment_id d) EQUIPMENT_ID_SIZE ->
  (c0 = 47 \/ is_upper c0 = true) -> ~ In 58 (c0 :: rest) ->
  (let d' := store_value d OBIS_ID_METER_ID v in
   d' = set_meter_id d (meter_id d') /\ field_ok (meter_id d') METER_ID_SIZE /\
   cstr (meter_id d') = firstn 32 (cstr v)) /\
  (let d' := store_value d OBIS_ID_TIMESTAMP v in
   d' = set_timestamp d (timestamp d') /\ field_ok (timestamp d') TIMESTAMP_SIZE /\
   cstr (timestamp d') = firstn 13 (cstr v)) /\
  (let '(p', d') := process_line p d (c0 :: rest) in
   p' = p /\ d' = set_equipment_id d (equipment_id d') /\
   field_ok (equipment_id d') EQUIPMENT_ID_SIZE /\
   cstr (equipment_id d') = firstn 32 (cstr (c0 :: rest))).
Proof.
  intros Hm Ht He Hc0 Hcolon. split; [|split].
  - cbv zeta. unfold store_value. simpl (OBIS_ID_METER_ID =? OBIS_ID_METER_ID). cbv iota.
    destruct (strncpy_field (meter_id d) v 32 Hm) as [H1 H2].
    repeat split; first [reflexivity | apply H1 | apply H2].
  - cbv zeta. unfold store_value. simpl (OBIS_ID_TIMESTAMP =? OBIS_ID_METER_ID).
    simpl (OBIS_ID_TIMESTAMP =? OBIS_ID_TIMESTAMP). cbv iota.
    destruct (strncpy_field (timestamp d) v 13 Ht) as [H1 H2].
    repeat split; first [reflexivity | apply H1 | apply H2].
  - assert (Hcr : (c0 =? 13) = false).
    { apply Z.eqb_neq. destruct Hc0 as [->|Hu]; [lia|].
      unfold is_upper in Hu. apply andb_true_iff in Hu as [Hu _]. apply Z.leb_le in Hu. lia. }
    assert (Hsl : ((c0 =? 47) || is_upper c0) = true).
    { destruct Hc0 as [->|Hu]; [reflexivity | rewrite Hu; apply orb_true_r]. }
    assert (Hcol : existsb (Z.eqb 58) (c0 :: rest) = false).
    { apply not_true_is_false. intros Hex. apply existsb_exists in Hex as [x [Hx Ex]].
      apply Z.eqb_eq in Ex. subst x. exact (Hcolon Hx). }
    unfold process_line. cbv beta iota. rewrite Hcr, Hsl, Hcol. cbn [andb negb].
    destruct (strncpy_field (equipment_id d) (c0 :: rest) 32 He) as [H1 H2].
    repeat split; first [reflexivity | apply H1 | apply H2].
Qed.

Lemma text_fields_truncated_witness :
  let d := store_value zero_data OBIS_ID_METER_ID
             (bytes_of "E00123456789012345678901234567890123456789") in
  cstr (meter_id d) = firstn 32 (cstr (bytes_of "E00123456789012345678901234567890123456789")).
Proof.
  intros d.
  pose proof (text_fields_truncated zero_data
                (bytes_of "E00123456789012345678901234567890123456789")
                init_parser 47 (bytes_of "ISk5")
                ltac:(split; reflexivity) ltac:(split; reflexivity)
                ltac:(split; reflexivity) ltac:(left; reflexivity)
                ltac:(simpl; intuition lia)) as T.
  cbv zeta in T. destruct T as [[_ [_ H]] _]. exact H.
Defined.

(** ** The terminator line *)

Lemma is_hex_bounds (c : Z) :
  is_hex c = true -> 48 <= c <= 57 \/ 97 <= c <= 102 \/ 65 <= c <= 70.
Proof.
  unfold is_hex, hex_digit_val, in_range.
  destruct (Z.leb_spec 48 c), (Z.leb_spec c 57); simpl; try (left; lia);
  destruct (Z.leb_spec 97 c), (Z.leb_spec c 102); simpl; try (right; left; lia);
  destruct (Z.leb_spec 65 c), (Z.leb_spec c 70); simpl; try (right; right; lia);
  discriminate.
Qed.

(** [strtol] with base 16 reads a run of hex digits as their value. *)
Lemma strtol16_hex (h : list Z) :
  forallb is_hex h = true -> strtol16 h = hex_digits_val 0 h.
Proof.
  intros Hh. destruct h as [|c0 h']; [reflexivity|].
  simpl in Hh. apply andb_true_iff in Hh as [H0 Hh'].
  pose proof (is_hex_bounds c0 H0) as B0.
  assert (Hsp : is_space c0 = false).
  { unfold is_space, in_range.
    destruct (Z.eqb_spec c0 32); [lia|].
    destruct (Z.leb_spec 9 c0), (Z.leb_spec c0 13); simpl; lia. }
  unfold strtol16. cbn [skip_spaces]. rewrite Hsp.
  replace (c0 =? 45) with false by (symmetry; apply Z.eqb_neq; lia).
  replace (c0 =? 43) with false by (symmetry; apply Z.eqb_neq; lia).
  destruct h' as [|x [|c t]]; try reflexivity.
  simpl in Hh'. apply andb_true_iff in Hh' as [Hx _].
  pose proof (is_hex_bounds x Hx) as Bx.
  replace (x =? 120) with false by (symmetry; apply Z.eqb_neq; lia).
  replace (x =? 88) with false by (symmetry; apply Z.eqb_neq; lia).
  rewrite andb_false_r. simpl andb. reflexivity.
Qed.

Lemma is_hex_false (c : Z) : is_hex c = false -> hex_digit_val c = None.
Proof. unfold is_hex. destruct (hex_digit_val c); [discriminate|reflexivity]. Qed.

Lemma skip_spaces_suffix (l : list Z) : exists pre, l = pre ++ skip_spaces l.
Proof.
  induction l as [|c l [pre IH]]; [exists []; reflexivity|]. cbn [skip_spaces].
  destruct (is_space c); [exists (c :: pre); cbn [app]; rewrite <- IH; reflexivity|].
  exists []; reflexivity.
Qed.

(** [strtol] with base 16 reads 0 from characters none of which is a hex
    digit. *)
Lemma strtol16_no_hex (l : list Z) :
  forallb (fun c => negb (is_hex c)) l = true -> strtol16 l = 0.
Proof.
  intros H.
  assert (H1 : forallb (fun c => negb (is_hex c)) (skip_spaces l) = true).
  { destruct (skip_spaces_suffix l) as [pre E]. rewrite E, forallb_app in H.
    apply andb_true_iff in H as [_ H]. exact H. }
  assert (G : forall l2, forallb (fun c => negb (is_hex c)) l2 = true ->
              hex_digits_val 0
                (match l2 with
                 | c0 :: x :: ((c :: _) as t) =>
                     if (c0 =? 48) && ((x =? 120) || (x =? 88)) && is_hex c then t else l2
                 | _ => l2
                 end) = 0).
  { intros [|c0 l2] Hl2; [reflexivity|].
    cbn [forallb] in Hl2. apply andb_true_iff in Hl2 as [Hc0 _].
    apply negb_true_iff in Hc0.
    assert (Hv : hex_digits_val 0 (c0 :: l2) = 0)
      by (cbn [hex_digits_val]; rewrite (is_hex_false c0 Hc0); reflexivity).
    replace (c0 =? 48) with false
      by (symmetry; apply Z.eqb_neq; intros ->; discriminate Hc0).
    destruct l2 as [|x [|c t]]; exact Hv. }
  unfold strtol16.
  destruct (skip_spaces l) as [|c t] eqn:E; [reflexivity|].
  cbn [forallb] in H1. apply andb_true_iff in H1 as [Hc Ht].
  destruct (c =? 45); [|destruct (c =? 43)].
  - rewrite (G t Ht). reflexivity.
  - exact (G t Ht).
  - apply (G (c :: t)). cbn [forallb]. rewrite Hc, Ht. reflexivity.
Qed.

(** [process_line] on a line that starts with ['!']. *)
Lemma process_line_bang (p : dsmr_parser_t) (d : dsmr_data_t) (rest : list Z) :
  process_line p d (33 :: rest) =
  (clear_frame_active p,
   if (4 <=? length rest)%nat then
     if to_uint16 (strtol16 (firstn 4 rest)) =? crc_calculated p
     then set_frame_complete d else d
   else set_frame_complete d).
Proof.
  unfold process_line. cbv beta iota.
  replace (33 =? 13) with false by reflexivity.
  replace ((33 =? 47) || is_upper 33) with false by reflexivity.
  replace (33 =? 33) with true by reflexivity. cbn [andb].
  replace (Nat.leb 5 (length (33 :: rest))) with (4 <=? length rest)%nat by reflexivity.
  destruct (4 <=? length rest)%nat; [|reflexivity].
  destruct (to_uint16 (strtol16 (firstn 4 rest)) =? crc_calculated p); reflexivity.
Qed.

(** C3 (counterexample): a terminator line with four trailing characters
    none of which is a hex digit is not accepted unconditionally: after
    ["/A\r\n"], the line ["!zzzz"] leaves frame-complete unset. *)
Lemma bang_line_without_hex_rejected :
  forallb (fun c => negb (is_hex c)) (bytes_of "zzzz") = true /\
  frame_complete (feed_data (bytes_of "/A" ++ CRLF ++ bytes_of "!zzzz" ++ CRLF)) = false.
Proof. vm_compute. split; reflexivity. Qed.

(** C3 (amended): a completed line starting with ['!'] clears
    [frame_active]; when at least four characters follow the ['!'], the
    first four are read by [strtol] in base 16 (four hex digits give their
    hex value), truncated to 16 bits and compared with the accumulated CRC:
    on equality frame-complete is set, otherwise the record is left as it
    was; when fewer than four characters follow, frame-complete is set
    without any comparison. Four characters none of which is a hex digit
    are compared as the value 0: frame-complete is then set exactly when the
    accumulated CRC is 0. *)
Theorem bang_line_checked (p : dsmr_parser_t) (d : dsmr_data_t) (rest : list Z) :
  let '(p', d') := process_line p d (33 :: rest) in
  p' = clear_frame_active p /\
  ((4 <= length rest)%nat -> to_uint16 (strtol16 (firstn 4 rest)) = crc_calculated p ->
   d' = set_frame_complete d) /\
  ((4 <= length rest)%nat -> to_uint16 (strtol16 (firstn 4 rest)) <> crc_calculated p ->
   d' = d) /\
  ((length rest < 4)%nat -> d' = set_frame_complete d) /\
  (forallb is_hex (firstn 4 rest) = true ->
   strtol16 (firstn 4 rest) = hex_digits_val 0 (firstn 4 rest)) /\
  ((4 <= length rest)%nat -> forallb (fun c => negb (is_hex c)) (firstn 4 rest) = true ->
   strtol16 (firstn 4 rest) = 0 /\
   d' = if crc_calculated p =? 0 then set_frame_complete d else d).
Proof.
  rewrite process_line_bang. split; [reflexivity|].
  split; [|split; [|split; [|split]]].
  - intros Hl He. apply Nat.leb_le in Hl. rewrite Hl. apply Z.eqb_eq in He.
    rewrite He. reflexivity.
  - intros Hl He. apply Nat.leb_le in Hl. rewrite Hl. apply Z.eqb_neq in He.
    rewrite He. reflexivity.
  - intros Hl. apply Nat.leb_gt in Hl. rewrite Hl. reflexivity.
  - apply strtol16_hex.
  - intros Hl Hn. apply Nat.leb_le in Hl. rewrite Hl, (strtol16_no_hex _ Hn).
    split; [reflexivity|]. rewrite Z.eqb_sym. reflexivity.
Qed.

(** C10: a terminator line with one to three characters after the ['!']
    sets frame-complete with no comparison, whatever the characters and
    whatever the accumulated CRC. *)
Theorem short_bang_line_accepted (p : dsmr_parser_t) (d : dsmr_data_t) (rest : list Z) :
  (1 <= length rest <= 3)%nat ->
  process_line p d (33 :: rest) = (clear_frame_active p, set_frame_complete d).
Proof.
  intros Hl. rewrite process_line_bang.
  replace (4 <=? length rest)%nat with false by (symmetry; apply Nat.leb_gt; lia).
  reflexivity.
Qed.

Lemma short_bang_line_accepted_witness :
  process_line (mk_parser [] true 12345 true) zero_data (33 :: bytes_of "zz") =
  (clear_frame_active (mk_parser [] true 12345 true), set_frame_complete zero_data).
Proof. apply short_bang_line_accepted. simpl. lia. Defined.

(** ** A ['/'] in the middle of a frame *)

(** C4 (counterexample): after ["/AB"], a second ['/'] does not restart the
    frame: the line buffer holds ["/AB/"] and the CRC is not reseeded; and a
    partial frame ["/AB\r\n"] before ["/X\r\n!"] stays under the checksum,
    so the frame completes only when the trailing CRC covers it. *)
Lemma slash_mid_frame_keeps_partial_frame :
  (let '(p, _, _) := feed init_parser zero_data (bytes_of "/AB/") in
   line_buffer p = bytes_of "/AB/" /\ crc_calculated p <> crc16_update 0 47) /\
  frame_complete (feed_data (telegram (bytes_of "/AB" ++ CRLF ++ bytes_of "/X" ++ CRLF)))
    = true /\
  crc16 (bytes_of "/AB" ++ CRLF ++ bytes_of "/X" ++ CRLF ++ [33]) <>
  crc16 (bytes_of "/X" ++ CRLF ++ [33]).
Proof. vm_compute. repeat split; discriminate. Qed.

(** C4 (amended): a ['/'] consumed while [frame_active] is set is handled
    like any other byte of the frame: it is hashed when the CRC is still
    open and appended to the line buffer when room is left; neither the line
    buffer nor the CRC is reset, and the record is not touched. *)
Theorem slash_mid_frame_no_resync (p : dsmr_parser_t) (d : dsmr_data_t) :
  frame_active p = true ->
  dsmr_parse_byte p d 47 =
  (mk_parser (if (length (line_buffer p) <? LINE_BUFFER_SIZE - 1)%nat
              then line_buffer p ++ [47] else line_buffer p)
             true
             (if crc_done p then crc_calculated p
              else crc16_update (crc_calculated p) 47)
             (crc_done p),
   d, 0).
Proof.
  intros Ha. unfold dsmr_parse_byte. rewrite Ha. cbn [negb].
  replace (47 =? 10) with false by reflexivity.
  replace (47 =? 13) with false by reflexivity.
  destruct p as [lb fa crc cd]. cbn [frame_active] in Ha. subst fa.
  destruct cd; cbn [crc_done line_buffer frame_active crc_calculated];
    destruct (length lb <? LINE_BUFFER_SIZE - 1)%nat; reflexivity.
Qed.

Lemma slash_mid_frame_no_resync_witness :
  dsmr_parse_byte (mk_parser (bytes_of "/AB") true (crc16 (bytes_of "/AB")) false)
                  zero_data 47 =
  (mk_parser (bytes_of "/AB/") true (crc16 (bytes_of "/AB/")) false, zero_data, 0).
Proof.
  rewrite (slash_mid_frame_no_resync
             (mk_parser (bytes_of "/AB") true (crc16 (bytes_of "/AB")) false)
             zero_data eq_refl).
  vm_compute. reflexivity.
Defined.

(** ** Publishing to the last good record *)

Lemma store_value_frame_complete (d : dsmr_data_t) (t : Z) (v : list Z) :
  frame_complete (store_value d t v) = frame_complete d.
Proof.
  unfold store_value.
  destruct (t =? OBIS_ID_METER_ID); [reflexivity|].
  destruct (t =? OBIS_ID_TIMESTAMP); [reflexivity|].
  destruct (in_range OBIS_ID_VOLTAGE_L1 OBIS_ID_VOLTAGE_L3 t);
  [|destruct (in_range OBIS_ID_CURRENT_L1 OBIS_ID_CURRENT_L3 t);
    [|destruct (in_range OBIS_ID_PF_TOTAL OBIS_ID_PF_L3 t)]];
  destruct (store_target t) as [[[f cast] []]|]; reflexivity.
Qed.

(** Only a line starting with ['!'] sets frame-complete. *)
Lemma process_line_frame_complete (p : dsmr_parser_t) (d : dsmr_data_t) (line : list Z)
  (p2 : dsmr_parser_t) (d2 : dsmr_data_t) :
  process_line p d line = (p2, d2) -> frame_complete d2 = true ->
  frame_complete d = true \/ exists rest, line = 33 :: rest.
Proof.
  intros E Hf. destruct line as [|c0 rest].
  { injection E as _ <-. left; exact Hf. }
  unfold process_line in E.
  destruct (c0 =? 13).
  { injection E as _ <-. left; exact Hf. }
  destruct (((c0 =? 47) || is_upper c0) && negb (existsb (Z.eqb 58) (c0 :: rest))).
  { injection E as _ <-. left; exact Hf. }
  destruct (Z.eqb_spec c0 33) as [->|_].
  { right. exists rest. reflexivity. }
  left. destruct (index_of 40 (c0 :: rest)) as [i|].
  2: { injection E as _ <-. exact Hf. }
  destruct (match_obis_code (firstn i (c0 :: rest)) =? OBIS_ID_NONE).
  { injection E as _ <-. exact Hf. }
  destruct (extract_value (c0 :: rest)) as [v|];
    injection E as _ <-; [rewrite store_value_frame_complete in Hf|]; exact Hf.
Qed.

(** [dsmr_parse_byte] returns 1 only on a ['\n'] that completes a line
    starting with ['!'], when the record was not complete before. *)
Lemma parse_byte_frame_complete (p : dsmr_parser_t) (d : dsmr_data_t) (c : Z)
  (p1 : dsmr_parser_t) (d1 : dsmr_data_t) (r : Z) :
  dsmr_parse_byte p d c = (p1, d1, r) -> frame_complete d = false ->
  (r = 0 /\ frame_complete d1 = false) \/
  (r = 1 /\ c = 10 /\ frame_complete d1 = true /\
   exists rest, cstr (line_buffer p) = 33 :: rest).
Proof.
  intros E Hd. unfold dsmr_parse_byte in E.
  destruct (frame_active p) eqn:Ha; cbn [negb] in E.
  - cbv zeta in E.
    assert (Hlb : line_buffer (if crc_done p then p
                               else mk_parser (line_buffer p) true
                                      (crc16_update (crc_calculated p) c) (c =? 33))
                  = line_buffer p) by (destruct (crc_done p); reflexivity).
    rewrite Hlb in E.
    destruct (Z.eqb_spec c 10) as [Hc|Hc].
    + destruct (process_line _ d (cstr (line_buffer p))) as [p2 d2] eqn:P.
      injection E as _ <- <-.
      destruct (frame_complete d2) eqn:F.
      * right. destruct (process_line_frame_complete _ _ _ _ _ P F) as [F'|F'];
          [congruence|]. repeat split; assumption.
      * left. split; reflexivity.
    + destruct (c =? 13);
      [|destruct (length (line_buffer p) <? LINE_BUFFER_SIZE - 1)%nat];
      injection E as _ <- <-; left; split; [reflexivity|exact Hd|reflexivity|exact Hd
                                            |reflexivity|exact Hd].
  - destruct (is_frame_start c); injection E as _ <- <-; left; split;
      [reflexivity|exact Hd|reflexivity|exact Hd].
Qed.

Lemma processDataByte_not_complete (g : globals) (c : Z) :
  frame_complete (dsmr_data g) = false ->
  frame_complete (dsmr_data (processDataByte g c)) = false.
Proof.
  intros Hg. unfold processDataByte.
  destruct (dsmr_parse_byte (dsmr_parser g) (dsmr_data g) c) as [[p1 d1] r] eqn:E.
  destruct (parse_byte_frame_complete _ _ _ _ _ _ E Hg) as [[-> Hf]|[-> _]].
  - exact Hf.
  - reflexivity.
Qed.

(** The working record of the globals is never complete between bytes. *)
Lemma run_globals_not_complete (bs : list Z) :
  frame_complete (dsmr_data (run_globals init_globals bs)) = false.
Proof.
  unfold run_globals.
  assert (G : forall g, frame_complete (dsmr_data g) = false ->
              frame_complete (dsmr_data (fold_left processDataByte bs g)) = false).
  { induction bs as [|c bs IH]; intros g Hg; [exact Hg|].
    apply IH, processDataByte_not_complete, Hg. }
  apply G. reflexivity.
Qed.

(** [dsmr_parse_byte] on ['\n'] in an active frame. *)
Lemma parse_byte_newline (p : dsmr_parser_t) (d : dsmr_data_t) :
  frame_active p = true ->
  dsmr_parse_byte p d 10 =
  (let p1 := if crc_done p then p
             else mk_parser (line_buffer p) true (crc16_update (crc_calculated p) 10) false in
   let '(p2, d2) := process_line p1 d (cstr (line_buffer p)) in
   (mk_parser [] (frame_active p2) (crc_calculated p2) (crc_done p2), d2,
    if frame_complete d2 then 1 else 0)).
Proof.
  intros Ha. unfold dsmr_parse_byte. rewrite Ha.
  destruct p as [lb fa crc cd]; cbn [frame_active] in Ha; subst fa.
  destruct cd; reflexivity.
Qed.

(** C9: a frame reported ready whose record has an empty meter id is not
    published: the last good record is kept, and the parser and the working
    record are reset. *)
Theorem empty_meter_id_not_published (g : globals) (c : Z)
  (p1 : dsmr_parser_t) (d1 : dsmr_data_t) (r : Z) :
  dsmr_parse_byte (dsmr_parser g) (dsmr_data g) c = (p1, d1, r) ->
  r <> 0 -> nth 0 (meter_id d1) 0 = 0 ->
  processDataByte g c = mk_globals init_parser zero_data (dsmr_last_good g).
Proof.
  intros E Hr Hm. unfold processDataByte. rewrite E.
  destruct (Z.eqb_spec r 0) as [Hr0|_]; [contradiction|].
  rewrite Hm. reflexivity.
Qed.

Lemma empty_meter_id_not_published_witness :
  let g := run_globals init_globals (bytes_of "/A" ++ CRLF ++ [33]) in
  snd (dsmr_parse_byte (dsmr_parser g) (dsmr_data g) 10) = 1 /\
  processDataByte g 10 = mk_globals init_parser zero_data (dsmr_last_good g).
Proof.
  intros g. split; [vm_compute; reflexivity|].
  apply (empty_meter_id_not_published g 10
           (fst (fst (dsmr_parse_byte (dsmr_parser g) (dsmr_data g) 10)))
           (snd (fst (dsmr_parse_byte (dsmr_parser g) (dsmr_data g) 10)))
           (snd (dsmr_parse_byte (dsmr_parser g) (dsmr_data g) 10))).
  - destruct (dsmr_parse_byte (dsmr_parser g) (dsmr_data g) 10) as [[a b] e].
    reflexivity.
  - vm_compute. discriminate.
  - vm_compute. reflexivity.
Defined.

(** C5: from any state the globals reach, one byte changes the last good
    record only when [dsmr_parse_byte] signals a ready frame on the ['\n']
    that ends the ['!'] line, with frame-complete set, and the record
    published is the working record of that moment; and when that line
    carries four characters whose value differs from the accumulated CRC,
    the parser signals nothing and the last good record is left unchanged. *)
Theorem last_good_only_on_complete_frame (bs : list Z) (c : Z) :
  let g := run_globals init_globals bs in
  let '(p1, d1, r) := dsmr_parse_byte (dsmr_parser g) (dsmr_data g) c in
  (dsmr_last_good (processDataByte g c) = dsmr_last_good g \/
   (r = 1 /\ c = 10 /\ frame_complete d1 = true /\
    dsmr_last_good (processDataByte g c) = d1 /\
    exists rest, cstr (line_buffer (dsmr_parser g)) = 33 :: rest)) /\
  (forall rest, c = 10 -> cstr (line_buffer (dsmr_parser g)) = 33 :: rest ->
   (4 <= length rest)%nat -> to_uint16 (strtol16 (firstn 4 rest)) <> crc_calculated p1 ->
   r = 0 /\ dsmr_last_good (processDataByte g c) = dsmr_last_good g).
Proof.
  intros g. pose proof (run_globals_not_complete bs) as Hinv. fold g in Hinv.
  destruct (dsmr_parse_byte (dsmr_parser g) (dsmr_data g) c) as [[q1 d1] r] eqn:E.
  assert (Hpd : processDataByte g c =
                if r =? 0 then mk_globals q1 d1 (dsmr_last_good g)
                else mk_globals init_parser zero_data
                       (if negb (nth 0 (meter_id d1) 0 =? 0) && frame_complete d1
                        then d1 else dsmr_last_good g))
    by (unfold processDataByte; rewrite E; reflexivity).
  rewrite Hpd. split.
  - destruct (parse_byte_frame_complete _ _ _ _ _ _ E Hinv) as [[-> _]|[-> [Hc [Hf Hl]]]].
    + left. reflexivity.
    + cbn [Z.eqb]. rewrite Hf, andb_true_r.
      destruct (nth 0 (meter_id d1) 0 =? 0); cbn [negb dsmr_last_good].
      * left. reflexivity.
      * right. repeat split; assumption.
  - intros rest Hc Hline Hlen Hneq. subst c.
    assert (Hr : r = 0).
    { destruct (frame_active (dsmr_parser g)) eqn:Ha.
      - rewrite (parse_byte_newline _ _ Ha) in E. cbv zeta in E.
        rewrite Hline, process_line_bang in E.
        replace (4 <=? length rest)%nat with true in E
          by (symmetry; apply Nat.leb_le; exact Hlen).
        match type of E with
        | context [if ?b then set_frame_complete _ else _] =>
            destruct (Z.eqb_spec (to_uint16 (strtol16 (firstn 4 rest)))
                        (crc_calculated (if crc_done (dsmr_parser g) then dsmr_parser g
                                         else mk_parser (line_buffer (dsmr_parser g)) true
                                                (crc16_update (crc_calculated (dsmr_parser g)) 10)
                                                false))) as [Heq|Hne]
        end.
        + exfalso. injection E as <- _ _. cbn [crc_calculated clear_frame_active] in Hneq.
          contradiction.
        + injection E as _ <- <-. rewrite Hinv. reflexivity.
      - unfold dsmr_parse_byte in E. rewrite Ha in E.
        replace (is_frame_start 10) with false in E by reflexivity.
        injection E as _ _ <-. reflexivity. }
    subst r. split; reflexivity.
Qed.

(** ** The checksum of a telegram *)

(** The CRC is linear: one step of the inner loop commutes with [xor]. *)
Lemma crc_bit_step_lxor (a b : Z) :
  crc_bit_step (Z.lxor a b) = Z.lxor (crc_bit_step a) (crc_bit_step b).
Proof.
  unfold crc_bit_step.
  assert (Ho : Z.odd (Z.lxor a b) = xorb (Z.odd a) (Z.odd b))
    by (rewrite <- !Z.bit0_odd, Z.lxor_spec; reflexivity).
  rewrite Ho, Z.shiftr_lxor.
  destruct (Z.odd a), (Z.odd b); cbn [xorb];
    apply Z.bits_inj'; intros n _; rewrite ?Z.lxor_spec;
    destruct (Z.testbit (Z.shiftr a 1) n), (Z.testbit (Z.shiftr b 1) n),
             (Z.testbit 40961 n); reflexivity.
Qed.

Lemma iter_step_lxor (n : nat) (a b : Z) :
  Nat.iter n crc_bit_step (Z.lxor a b) =
  Z.lxor (Nat.iter n crc_bit_step a) (Nat.iter n crc_bit_step b).
Proof.
  induction n as [|n IH]; [reflexivity|].
  rewrite !Nat.iter_succ, IH. apply crc_bit_step_lxor.
Qed.

Lemma crc16_update_lxor (c x e : Z) :
  crc16_update c (Z.lxor x e) = Z.lxor (crc16_update c x) (Nat.iter 8 crc_bit_step e).
Proof. unfold crc16_update. rewrite <- Z.lxor_assoc. apply iter_step_lxor. Qed.

(** A difference [b] in the accumulator is carried through the bytes that
    follow as 8 inner-loop steps per byte. *)
Lemma crc16_from_lxor (a b : Z) (l : list Z) :
  crc16_from (Z.lxor a b) l =
  Z.lxor (crc16_from a l) (Nat.iter (8 * length l) crc_bit_step b).
Proof.
  unfold crc16_from. revert a b. induction l as [|x l IH]; intros a b; [reflexivity|].
  cbn [fold_left length].
  assert (U : crc16_update (Z.lxor a b) x =
              Z.lxor (crc16_update a x) (Nat.iter 8 crc_bit_step b)).
  { unfold crc16_update. rewrite <- iter_step_lxor. f_equal.
    rewrite !Z.lxor_assoc, (Z.lxor_comm b x). reflexivity. }
  rewrite U, IH.
  replace (8 * S (length l))%nat with (8 * length l + 8)%nat by lia.
  rewrite Nat.iter_add. reflexivity.
Qed.

Lemma lxor_lt_pow2 (a b n : Z) :
  0 <= a < 2 ^ n -> 0 <= b < 2 ^ n -> 0 <= Z.lxor a b < 2 ^ n.
Proof.
  intros [Ha0 Ha] [Hb0 Hb].
  destruct (Z.ltb_spec n 0) as [Hn|Hn]; [rewrite Z.pow_neg_r in Ha; lia|].
  split; [apply Z.lxor_nonneg; tauto|].
  rewrite <- (Z.mod_small a (2 ^ n)), <- (Z.mod_small b (2 ^ n)) by lia.
  rewrite <- !Z.land_ones by lia.
  assert (D : forall x y z, Z.lxor (Z.land x z) (Z.land y z) = Z.land (Z.lxor x y) z).
  { intros x y z. apply Z.bits_inj'. intros m _.
    rewrite Z.lxor_spec, !Z.land_spec, Z.lxor_spec.
    destruct (Z.testbit x m), (Z.testbit y m), (Z.testbit z m); reflexivity. }
  rewrite D.
  rewrite Z.land_ones by lia. apply Z.mod_pos_bound.
  apply Z.pow_pos_nonneg; lia.
Qed.

(** On 16-bit values, a step maps a nonzero accumulator to a nonzero one. *)
Lemma crc_bit_step_nonzero (v : Z) :
  0 <= v < 65536 -> v <> 0 ->
  0 <= crc_bit_step v < 65536 /\ crc_bit_step v <> 0.
Proof.
  intros Hv Hnz. unfold crc_bit_step.
  rewrite Z.shiftr_div_pow2 by lia. change (2 ^ 1) with 2.
  destruct (Z.odd v) eqn:Ho.
  - apply Z.odd_spec in Ho as [m ->].
    replace ((2 * m + 1) / 2) with m by (Z.div_mod_to_equations; lia).
    split.
    + change 65536 with (2 ^ 16). apply lxor_lt_pow2; change (2 ^ 16) with 65536; lia.
    + intros H. rewrite Z.lxor_eq_0_iff in H. lia.
  - rewrite <- Z.negb_even in Ho. apply negb_false_iff, Z.even_spec in Ho as [m ->].
    rewrite Z.mul_comm, Z.div_mul by lia. lia.
Qed.

Lemma iter_step_nonzero (n : nat) (v : Z) :
  0 <= v < 65536 -> v <> 0 ->
  0 <= Nat.iter n crc_bit_step v < 65536 /\ Nat.iter n crc_bit_step v <> 0.
Proof.
  intros Hv Hnz. induction n as [|n IH]; [split; assumption|].
  rewrite Nat.iter_succ. destruct IH as [IH1 IH2]. apply crc_bit_step_nonzero; assumption.
Qed.

(** A single flipped bit changes the CRC16 of the bytes up to the ['!']. *)
Lemma crc16_flip_bit (l : list Z) (i : nat) (k : Z) :
  (i < length l)%nat -> 0 <= k < 8 ->
  crc16 (flip_bit l i k ++ [33]) <> crc16 (l ++ [33]).
Proof.
  intros Hi Hk.
  destruct (skipn i l) as [|x post] eqn:Hs.
  { apply (f_equal (@length Z)) in Hs. rewrite length_skipn in Hs. cbn in Hs. lia. }
  assert (Hpost : skipn (S i) l = post).
  { replace (S i) with (1 + i)%nat by lia. rewrite <- skipn_skipn, Hs. reflexivity. }
  assert (Hl : l = firstn i l ++ x :: post) by (rewrite <- Hs; symmetry; apply firstn_skipn).
  unfold flip_bit. rewrite Hs, Hpost. cbn [firstn map].
  rewrite Hl at 2.
  unfold crc16, crc16_from. rewrite <- !app_assoc, !fold_left_app. cbn [app fold_left].
  set (c := fold_left crc16_update (firstn i l) 0).
  rewrite crc16_update_lxor.
  assert (F : forall a, crc16_update (fold_left crc16_update post a) 33 =
                        crc16_from a (post ++ [33]))
    by (intros a; unfold crc16_from; rewrite fold_left_app; reflexivity).
  rewrite !F, crc16_from_lxor.
  set (A := crc16_from (crc16_update c x) (post ++ [33])).
  rewrite <- Nat.iter_add.
  assert (Hp : 0 < 2 ^ k < 65536).
  { split; [apply Z.pow_pos_nonneg; lia|].
    apply Z.lt_le_trans with (2 ^ 8); [apply Z.pow_lt_mono_r; lia|].
    change (2 ^ 8) with 256; lia. }
  destruct (iter_step_nonzero (8 * length (post ++ [33]) + 8) (2 ^ k)) as [_ Hnz];
    [lia|lia|].
  set (E := Nat.iter _ crc_bit_step (2 ^ k)) in *.
  intros H. apply Hnz.
  assert (HE : E = Z.lxor A (Z.lxor A E))
    by (rewrite <- Z.lxor_assoc, Z.lxor_nilpotent, Z.lxor_0_l; reflexivity).
  rewrite H, Z.lxor_nilpotent in HE. exact HE.
Qed.

Lemma cstr_incl (x : Z) (l : list Z) : In x (cstr l) -> In x l.
Proof.
  induction l as [|c l IH]; [intros []|]. cbn [cstr].
  destruct (c =? 0); [intros []|]. intros [H|H]; [left; exact H|right; apply IH, H].
Qed.

Lemma not_in_of_existsb (x : Z) (l : list Z) : existsb (Z.eqb x) l = false -> ~ In x l.
Proof.
  intros H Hin. assert (E : existsb (Z.eqb x) l = true)
    by (apply existsb_exists; exists x; split; [exact Hin|apply Z.eqb_refl]).
  rewrite H in E. discriminate.
Qed.

(** A line that does not start with ['!'] leaves the parser as it is and
    does not touch frame-complete. *)
Lemma process_line_not_bang (p : dsmr_parser_t) (d : dsmr_data_t) (line : list Z) :
  (forall rest, line <> 33 :: rest) ->
  fst (process_line p d line) = p /\
  frame_complete (snd (process_line p d line)) = frame_complete d.
Proof.
  intros Hn. destruct line as [|c0 rest]; [split; reflexivity|].
  unfold process_line.
  destruct (c0 =? 13); [split; reflexivity|].
  destruct (((c0 =? 47) || is_upper c0) && negb (existsb (Z.eqb 58) (c0 :: rest)));
    [split; reflexivity|].
  destruct (Z.eqb_spec c0 33) as [->|_]; [exfalso; exact (Hn rest eq_refl)|].
  destruct (index_of 40 (c0 :: rest)) as [i|]; [|split; reflexivity].
  destruct (match_obis_code (firstn i (c0 :: rest)) =? OBIS_ID_NONE); [split; reflexivity|].
  destruct (extract_value (c0 :: rest)) as [v|]; [|split; reflexivity].
  split; [reflexivity|apply store_value_frame_complete].
Qed.

(** One byte other than ['!'] inside a frame whose CRC is still open. *)
Lemma parse_byte_open (p : dsmr_parser_t) (d : dsmr_data_t) (c : Z) :
  frame_active p = true -> crc_done p = false -> ~ In 33 (line_buffer p) ->
  frame_complete d = false -> c <> 33 ->
  let '(p1, d1, r) := dsmr_parse_byte p d c in
  frame_active p1 = true /\ crc_done p1 = false /\
  crc_calculated p1 = crc16_update (crc_calculated p) c /\
  ~ In 33 (line_buffer p1) /\ frame_complete d1 = false /\ r = 0 /\
  (c = 10 -> line_buffer p1 = []).
Proof.
  intros Ha Hd Hlb Hf Hc.
  destruct p as [lb fa crc cd]; cbn [frame_active crc_done line_buffer] in *; subst fa cd.
  unfold dsmr_parse_byte. cbn [negb frame_active crc_done line_buffer crc_calculated].
  replace (c =? 33) with false by (symmetry; apply Z.eqb_neq; exact Hc).
  destruct (Z.eqb_spec c 10) as [->|Hn].
  - pose proof (process_line_not_bang (mk_parser lb true (crc16_update crc 10) false) d
                  (cstr lb)) as [H1 H2].
    { intros rest Hr. apply Hlb, cstr_incl. rewrite Hr. left; reflexivity. }
    destruct (process_line (mk_parser lb true (crc16_update crc 10) false) d (cstr lb))
      as [p2 d2].
    cbn [fst snd] in H1, H2. subst p2. rewrite H2, Hf.
    cbn [frame_active crc_done crc_calculated line_buffer].
    repeat split; intros [].
  - destruct (c =? 13); [|destruct (length lb <? LINE_BUFFER_SIZE - 1)%nat];
      cbn [frame_active crc_done crc_calculated line_buffer];
      repeat split; try exact Hf; try exact Hlb; try (intros E; contradiction).
    rewrite in_app_iff. intros [H|[H|[]]]; [exact (Hlb H)|exact (Hc H)].
Qed.

Lemma last_cons_cons (x y : Z) (l : list Z) : last (x :: y :: l) 0 = last (y :: l) 0.
Proof. reflexivity. Qed.

(** The bytes of a frame before its ['!']. *)
Lemma feed_open (p : dsmr_parser_t) (d : dsmr_data_t) (l : list Z) :
  frame_active p = true -> crc_done p = false -> ~ In 33 (line_buffer p) ->
  frame_complete d = false -> ~ In 33 l ->
  let '(p', d', _) := feed p d l in
  frame_active p' = true /\ crc_done p' = false /\
  crc_calculated p' = crc16_from (crc_calculated p) l /\
  ~ In 33 (line_buffer p') /\ frame_complete d' = false /\
  (l <> [] -> last l 0 = 10 -> line_buffer p' = []).
Proof.
  revert p d. induction l as [|x l IH]; intros p d Ha Hd Hlb Hf Hl.
  - cbn [feed]. repeat split; try assumption; try (intros H; contradiction).
  - assert (Hx : x <> 33) by (intros E; apply Hl; left; exact E).
    assert (Hl' : ~ In 33 l) by (intros H; apply Hl; right; exact H).
    pose proof (parse_byte_open p d x Ha Hd Hlb Hf Hx) as S.
    cbn [feed]. destruct (dsmr_parse_byte p d x) as [[p1 d1] r].
    destruct S as [Ha1 [Hd1 [Hc1 [Hlb1 [Hf1 [_ Hn1]]]]]].
    pose proof (IH p1 d1 Ha1 Hd1 Hlb1 Hf1 Hl') as T.
    destruct (feed p1 d1 l) as [[p2 d2] rs] eqn:F.
    destruct T as [Ha2 [Hd2 [Hc2 [Hlb2 [Hf2 Hn2]]]]].
    repeat split; try assumption.
    + rewrite Hc2, Hc1. reflexivity.
    + intros _ Hlast. destruct l as [|y l].
      * cbn [feed] in F. injection F as <- <- _. apply Hn1. exact Hlast.
      * apply Hn2; [discriminate|]. rewrite <- last_cons_cons with (x := x). exact Hlast.
Qed.

(** One byte after the ['!']: the CRC is closed, the byte is buffered. *)
Lemma parse_byte_done (p : dsmr_parser_t) (d : dsmr_data_t) (c : Z) :
  frame_active p = true -> crc_done p = true -> c <> 10 -> c <> 13 ->
  (length (line_buffer p) < 79)%nat ->
  dsmr_parse_byte p d c = (mk_parser (line_buffer p ++ [c]) true (crc_calculated p) true, d, 0).
Proof.
  intros Ha Hd H10 H13 Hlen.
  destruct p as [lb fa crc cd]; cbn [frame_active crc_done line_buffer] in *; subst fa cd.
  unfold dsmr_parse_byte. cbn [negb frame_active crc_done line_buffer crc_calculated].
  replace (c =? 10) with false by (symmetry; apply Z.eqb_neq; exact H10).
  replace (c =? 13) with false by (symmetry; apply Z.eqb_neq; exact H13).
  replace (length lb <? LINE_BUFFER_SIZE - 1)%nat with true
    by (symmetry; apply Nat.ltb_lt; unfold LINE_BUFFER_SIZE; cbn; lia).
  reflexivity.
Qed.

Lemma feed_data_step (p : dsmr_parser_t) (d : dsmr_data_t) (c : Z) (bs : list Z)
  (p1 : dsmr_parser_t) (d1 : dsmr_data_t) (r : Z) :
  dsmr_parse_byte p d c = (p1, d1, r) ->
  snd (fst (feed p d (c :: bs))) = snd (fst (feed p1 d1 bs)).
Proof.
  intros E. cbn [feed]. rewrite E. destruct (feed p1 d1 bs) as [[p2 d2] rs]. reflexivity.
Qed.

Lemma feed_data_app (p : dsmr_parser_t) (d : dsmr_data_t) (l1 l2 : list Z) :
  snd (fst (feed p d (l1 ++ l2))) =
  let '(p1, d1, _) := feed p d l1 in snd (fst (feed p1 d1 l2)).
Proof.
  revert p d. induction l1 as [|x l1 IH]; intros p d; [reflexivity|].
  cbn [app]. destruct (dsmr_parse_byte p d x) as [[p1 d1] r] eqn:E.
  rewrite (feed_data_step _ _ _ _ _ _ _ E), IH.
  cbn [feed]. rewrite E. destruct (feed p1 d1 l1) as [[p2 d2] rs]. reflexivity.
Qed.

Lemma hex_digit_val_is_hex (c : Z) :
  is_hex c = true -> exists v, hex_digit_val c = Some v /\ 0 <= v <= 15.
Proof.
  unfold is_hex. destruct (hex_digit_val c) as [v|] eqn:E; [|discriminate].
  intros _. exists v. split; [reflexivity|].
  unfold hex_digit_val, in_range in E.
  destruct (Z.leb_spec 48 c), (Z.leb_spec c 57); cbn [andb] in E;
    try (injection E as <-; lia);
  destruct (Z.leb_spec 97 c), (Z.leb_spec c 102); cbn [andb] in E;
    try (injection E as <-; lia);
  destruct (Z.leb_spec 65 c), (Z.leb_spec c 70); cbn [andb] in E;
    try (injection E as <-; lia); discriminate.
Qed.

Lemma feed_data_done_step (p : dsmr_parser_t) (d : dsmr_data_t) (c : Z) (bs : list Z) :
  frame_active p = true -> crc_done p = true -> c <> 10 -> c <> 13 ->
  (length (line_buffer p) < 79)%nat ->
  snd (fst (feed p d (c :: bs))) =
  snd (fst (feed (mk_parser (line_buffer p ++ [c]) true (crc_calculated p) true) d bs)).
Proof.
  intros Ha Hd H10 H13 Hlen. apply feed_data_step with (r := 0).
  apply parse_byte_done; assumption.
Qed.

(** The ['!'] line of a frame: ['!'], four hex digits, CR LF. *)
Lemma feed_bang_line (p : dsmr_parser_t) (d : dsmr_data_t) (h : list Z) :
  frame_active p = true -> crc_done p = false -> line_buffer p = [] ->
  frame_complete d = false -> length h = 4%nat -> forallb is_hex h = true ->
  frame_complete (snd (fst (feed p d (33 :: h ++ CRLF)))) =
  (hex_digits_val 0 h =? crc16_update (crc_calculated p) 33).
Proof.
  intros Ha Hd Hlb Hf Hlen Hh.
  destruct h as [|h1 [|h2 [|h3 [|h4 [|h5 t]]]]]; try discriminate.
  cbn [forallb] in Hh. rewrite !andb_true_iff in Hh.
  destruct Hh as [H1 [H2 [H3 [H4 _]]]].
  destruct (hex_digit_val_is_hex h1 H1) as [v1 [E1 B1]].
  destruct (hex_digit_val_is_hex h2 H2) as [v2 [E2 B2]].
  destruct (hex_digit_val_is_hex h3 H3) as [v3 [E3 B3]].
  destruct (hex_digit_val_is_hex h4 H4) as [v4 [E4 B4]].
  pose proof (is_hex_bounds h1 H1). pose proof (is_hex_bounds h2 H2).
  pose proof (is_hex_bounds h3 H3). pose proof (is_hex_bounds h4 H4).
  destruct p as [lb fa crc cd]; cbn [frame_active crc_done line_buffer crc_calculated] in *.
  subst lb fa cd.
  set (crc1 := crc16_update crc 33).
  assert (S0 : dsmr_parse_byte (mk_parser [] true crc false) d 33 =
               (mk_parser [33] true crc1 true, d, 0)) by reflexivity.
  rewrite (feed_data_step _ _ _ _ _ _ _ S0). cbn [app CRLF].
  rewrite !feed_data_done_step by (cbn [frame_active crc_done line_buffer app length]; first [reflexivity | lia]).
  cbn [line_buffer crc_calculated app].
  set (P := mk_parser [33; h1; h2; h3; h4] true crc1 true).
  unfold CRLF.
  assert (S13 : dsmr_parse_byte P d 13 = (P, d, 0)) by reflexivity.
  rewrite (feed_data_step _ _ _ _ _ _ _ S13).
  cbn [feed fst snd].
  rewrite (parse_byte_newline P d eq_refl). cbv zeta.
  replace (crc_done P) with true by reflexivity.
  assert (Hc : cstr (line_buffer P) = 33 :: [h1; h2; h3; h4]).
  { unfold P. cbn [line_buffer cstr].
    replace (33 =? 0) with false by reflexivity.
    replace (h1 =? 0) with false by (symmetry; apply Z.eqb_neq; lia).
    replace (h2 =? 0) with false by (symmetry; apply Z.eqb_neq; lia).
    replace (h3 =? 0) with false by (symmetry; apply Z.eqb_neq; lia).
    replace (h4 =? 0) with false by (symmetry; apply Z.eqb_neq; lia).
    reflexivity. }
  rewrite Hc, process_line_bang.
  replace (4 <=? length [h1; h2; h3; h4])%nat with true by reflexivity.
  cbn [firstn].
  rewrite strtol16_hex by (cbn [forallb]; rewrite H1, H2, H3, H4; reflexivity).
  assert (Hv : hex_digits_val 0 [h1; h2; h3; h4] = ((v1 * 16 + v2) * 16 + v3) * 16 + v4)
    by (cbn [hex_digits_val]; rewrite E1, E2, E3, E4; reflexivity).
  rewrite Hv.
  replace (to_uint16 (((v1 * 16 + v2) * 16 + v3) * 16 + v4))
    with (((v1 * 16 + v2) * 16 + v3) * 16 + v4)
    by (unfold to_uint16; symmetry; apply Z.mod_small; change (2 ^ 16) with 65536; lia).
  replace (crc_calculated P) with crc1 by reflexivity.
  destruct (((v1 * 16 + v2) * 16 + v3) * 16 + v4 =? crc1);
    cbn [snd fst frame_complete set_frame_complete]; [reflexivity|exact Hf].
Qed.

Lemma feed_data_fst (bs : list Z) :
  feed_data bs = snd (fst (feed init_parser zero_data bs)).
Proof. unfold feed_data. destruct (feed init_parser zero_data bs) as [[p d] rs]. reflexivity. Qed.

(** A body from its leading ['/'] to the CR LF before the ['!'], with no
    ['!'] in it, then ['!'], four hex digits and CR LF: the frame is
    complete exactly when the digits give the CRC16 of the body and ['!']. *)
Lemma feed_body (b h : list Z) :
  nth 0 b 0 = 47 -> ~ In 33 b -> last b 0 = 10 ->
  length h = 4%nat -> forallb is_hex h = true ->
  frame_complete (feed_data (b ++ [33] ++ h ++ CRLF)) =
  (hex_digits_val 0 h =? crc16 (b ++ [33])).
Proof.
  intros Hb0 Hb Hlast Hlen Hh.
  destruct b as [|b0 b']; [discriminate|]. cbn [nth] in Hb0. subst b0.
  destruct b' as [|y b'']; [discriminate|].
  rewrite feed_data_fst. cbn [app].
  set (P1 := mk_parser [47] true (crc16_update 0 47) false).
  rewrite (feed_data_step init_parser zero_data 47 _ P1 zero_data 0 eq_refl).
  change (y :: b'' ++ 33 :: h ++ CRLF) with ((y :: b'') ++ 33 :: h ++ CRLF).
  rewrite (feed_data_app P1 zero_data (y :: b'') (33 :: h ++ CRLF)).
  assert (H47 : ~ In 33 (line_buffer P1)) by (intros [E|[]]; discriminate).
  assert (Hb' : ~ In 33 (y :: b'')) by (intros E; apply Hb; right; exact E).
  pose proof (feed_open P1 zero_data (y :: b'') eq_refl eq_refl H47 eq_refl Hb') as T.
  destruct (feed P1 zero_data (y :: b'')) as [[p2 d2] rs].
  destruct T as [Ha2 [Hd2 [Hc2 [_ [Hf2 Hn2]]]]].
  rewrite (feed_bang_line p2 d2 h Ha2 Hd2 (Hn2 ltac:(discriminate) Hlast) Hf2 Hlen Hh).
  rewrite Hc2. f_equal.
  unfold crc16, crc16_from. cbn [app fold_left]. rewrite fold_left_app. reflexivity.
Qed.

Lemma skipn_cons_nth (l : list Z) (i : nat) :
  (i < length l)%nat -> skipn i l = nth i l 0 :: skipn (S i) l.
Proof.
  revert i. induction l as [|x l IH]; intros i Hi; [cbn in Hi; lia|].
  destruct i as [|i]; [reflexivity|].
  cbn [skipn nth]. apply IH. cbn in Hi. lia.
Qed.

Lemma flip_bit_eq (l : list Z) (i : nat) (k : Z) :
  (i < length l)%nat ->
  flip_bit l i k = firstn i l ++ Z.lxor (nth i l 0) (2 ^ k) :: skipn (S i) l.
Proof. intros Hi. unfold flip_bit. rewrite (skipn_cons_nth l i Hi). reflexivity. Qed.

Lemma last_app_cons (l1 l2 : list Z) (x : Z) :
  last (l1 ++ x :: l2) 0 = last (x :: l2) 0.
Proof.
  induction l1 as [|y l1 IH]; [reflexivity|].
  cbn [app]. rewrite <- IH.
  destruct (l1 ++ x :: l2) as [|z t] eqn:E; [destruct l1; discriminate|reflexivity].
Qed.

Lemma last_skipn (l : list Z) (n : nat) :
  (n < length l)%nat -> last (skipn n l) 0 = last l 0.
Proof.
  revert n. induction l as [|x l IH]; intros n H; [cbn in H; lia|].
  destruct n as [|n]; [reflexivity|].
  cbn [skipn]. rewrite IH by (cbn in H; lia).
  destruct l as [|y l]; [cbn in H; lia|reflexivity].
Qed.

Lemma not_in_skipn (x : Z) (n : nat) (l : list Z) : ~ In x l -> ~ In x (skipn n l).
Proof.
  intros H Hin. apply H. rewrite <- (firstn_skipn n l). apply in_or_app. right. exact Hin.
Qed.

(** A flipped bit strictly inside the body that does not produce a ['!']
    keeps the shape of the body. *)
Lemma flip_bit_shape (b : list Z) (i : nat) (k : Z) :
  nth 0 b 0 = 47 -> ~ In 33 b -> last b 0 = 10 ->
  (0 < i < length b - 1)%nat -> Z.lxor (nth i b 0) (2 ^ k) <> 33 ->
  nth 0 (flip_bit b i k) 0 = 47 /\ ~ In 33 (flip_bit b i k) /\
  last (flip_bit b i k) 0 = 10.
Proof.
  intros Hb0 Hb Hlast Hi Hx.
  rewrite (flip_bit_eq b i k) by lia.
  split; [|split].
  - destruct b as [|b0 b']; [cbn in Hi; lia|].
    destruct i as [|i]; [lia|]. exact Hb0.
  - rewrite in_app_iff. intros [H|[H|H]].
    + exact (not_in_firstn 33 i b Hb H).
    + exact (Hx H).
    + exact (not_in_skipn 33 (S i) b Hb H).
  - rewrite last_app_cons, (skipn_cons_nth b (S i)) by lia.
    rewrite last_cons_cons, <- (skipn_cons_nth b (S i)) by lia.
    rewrite last_skipn by lia. exact Hlast.
Qed.

(** One byte inside a frame, other than ['\n'], keeps the first byte of a
    non-empty line buffer and leaves the record as it is. *)
Lemma parse_byte_keeps_head (p : dsmr_parser_t) (d : dsmr_data_t) (c y : Z) (r : list Z) :
  frame_active p = true -> c <> 10 -> line_buffer p = y :: r ->
  let '(p1, d1, res) := dsmr_parse_byte p d c in
  (exists r', line_buffer p1 = y :: r') /\ frame_active p1 = true /\ d1 = d /\ res = 0.
Proof.
  intros Ha Hc Hb. unfold dsmr_parse_byte. rewrite Ha. cbn [negb].
  set (p1 := if crc_done p then p else _).
  assert (Hp1 : line_buffer p1 = y :: r /\ frame_active p1 = true)
    by (unfold p1; destruct (crc_done p); cbn; auto).
  destruct Hp1 as [Hb1 Ha1].
  destruct (Z.eqb_spec c 10) as [E|_]; [exfalso; exact (Hc E)|].
  destruct (c =? 13); [split; [exists r; exact Hb1|auto]|].
  destruct (length (line_buffer p1) <? LINE_BUFFER_SIZE - 1)%nat;
    cbn [line_buffer frame_active].
  - rewrite Hb1. split; [exists (r ++ [c]); reflexivity|auto].
  - split; [exists r; exact Hb1|auto].
Qed.

(** The first byte of a line inside a frame, other than ['\n'], CR and
    ['!'], when the buffer holds no ['!']: afterwards the buffer starts with
    a byte other than ['!']. *)
Lemma parse_byte_line_head (p : dsmr_parser_t) (d : dsmr_data_t) (c : Z) :
  frame_active p = true -> c <> 10 -> c <> 13 -> c <> 33 -> ~ In 33 (line_buffer p) ->
  let '(p1, d1, _) := dsmr_parse_byte p d c in
  (exists y r, line_buffer p1 = y :: r /\ y <> 33) /\ frame_active p1 = true /\ d1 = d.
Proof.
  intros Ha H10 H13 H33 Hn. unfold dsmr_parse_byte. rewrite Ha. cbn [negb].
  set (p1 := if crc_done p then p else _).
  assert (Hp1 : line_buffer p1 = line_buffer p /\ frame_active p1 = true)
    by (unfold p1; destruct (crc_done p); cbn; auto).
  destruct Hp1 as [Hb1 Ha1].
  destruct (Z.eqb_spec c 10) as [E|_]; [exfalso; exact (H10 E)|].
  destruct (Z.eqb_spec c 13) as [E|_]; [exfalso; exact (H13 E)|].
  rewrite Hb1. unfold LINE_BUFFER_SIZE.
  destruct (line_buffer p) as [|y r] eqn:E.
  - cbn [length Nat.ltb Nat.leb]. cbn [line_buffer frame_active app].
    split; [exists c, []; split; [reflexivity|exact H33]|auto].
  - assert (Hy : y <> 33) by (intros Ey; apply Hn; left; exact Ey).
    destruct (length (y :: r) <? 80 - 1)%nat; cbn [line_buffer frame_active app].
    + split; [exists y, (r ++ [c]); split; [reflexivity|exact Hy]|auto].
    + split; [exists y, r; split; [exact Hb1|exact Hy]|auto].
Qed.

Lemma feed_keeps_head (p : dsmr_parser_t) (d : dsmr_data_t) (t : list Z) (y : Z) (r : list Z) :
  frame_active p = true -> line_buffer p = y :: r -> ~ In 10 t ->
  let '(p', d', _) := feed p d t in
  (exists r', line_buffer p' = y :: r') /\ frame_active p' = true /\ d' = d.
Proof.
  revert p r. induction t as [|c t IH]; intros p r Ha Hb Hn.
  - cbn [feed]. split; [exists r; exact Hb|auto].
  - cbn [feed].
    assert (Hc : c <> 10) by (intros E; apply Hn; left; rewrite E; reflexivity).
    assert (Hn' : ~ In 10 t) by (intros H; apply Hn; right; exact H).
    pose proof (parse_byte_keeps_head p d c y r Ha Hc Hb) as S.
    destruct (dsmr_parse_byte p d c) as [[p1 d1] res].
    destruct S as [[r1 Hb1] [Ha1 [-> _]]].
    pose proof (IH p1 r1 Ha1 Hb1 Hn') as T.
    destruct (feed p1 d t) as [[p2 d2] rs]. exact T.
Qed.

(** The rest of a line whose buffered first byte is not ['!'], up to its
    ['\n'], leaves frame-complete unset. *)
Lemma feed_line_not_bang (p : dsmr_parser_t) (d : dsmr_data_t) (t : list Z) (y : Z)
    (r : list Z) :
  frame_active p = true -> line_buffer p = y :: r -> y <> 33 -> frame_complete d = false ->
  ~ In 10 t ->
  frame_complete (snd (fst (feed p d (t ++ [10])))) = false.
Proof.
  intros Ha Hb Hy Hf Hn.
  rewrite feed_data_app.
  pose proof (feed_keeps_head p d t y r Ha Hb Hn) as T.
  destruct (feed p d t) as [[p1 d1] rs].
  destruct T as [[r1 Hb1] [Ha1 ->]].
  cbn [feed]. rewrite (parse_byte_newline p1 d Ha1). cbv zeta.
  assert (NB : forall rest, cstr (line_buffer p1) <> 33 :: rest).
  { rewrite Hb1. cbn [cstr]. destruct (y =? 0); [discriminate|].
    intros rest E. injection E as E _. exact (Hy E). }
  set (p2 := if crc_done p1 then p1 else _).
  destruct (process_line_not_bang p2 d _ NB) as [_ Hfc].
  destruct (process_line p2 d (cstr (line_buffer p1))) as [p3 d3].
  cbn [snd fst] in *. rewrite Hfc. exact Hf.
Qed.

(** A body prefix from its leading ['/'] without ['!'], a byte other than
    ['\n'], CR and ['!'], then bytes without ['\n'] and a final ['\n']: no
    completed line starts with ['!'], so frame-complete stays unset. *)
Lemma feed_no_bang_line (q t : list Z) (x : Z) :
  nth 0 q 0 = 47 -> ~ In 33 q -> x <> 10 -> x <> 13 -> x <> 33 -> ~ In 10 t ->
  frame_complete (feed_data (q ++ x :: t ++ [10])) = false.
Proof.
  intros Hq0 Hq Hx10 Hx13 Hx33 Ht.
  destruct q as [|q0 q']; [discriminate|]. cbn [nth] in Hq0. subst q0.
  rewrite feed_data_fst. cbn [app].
  set (P1 := mk_parser [47] true (crc16_update 0 47) false).
  rewrite (feed_data_step init_parser zero_data 47 _ P1 zero_data 0 eq_refl).
  rewrite (feed_data_app P1 zero_data q' (x :: t ++ [10])).
  assert (H47 : ~ In 33 (line_buffer P1)) by (intros [E|[]]; discriminate).
  assert (Hq' : ~ In 33 q') by (intros E; apply Hq; right; exact E).
  pose proof (feed_open P1 zero_data q' eq_refl eq_refl H47 eq_refl Hq') as T.
  destruct (feed P1 zero_data q') as [[p2 d2] rs].
  destruct T as [Ha2 [_ [_ [Hlb2 [Hf2 _]]]]].
  pose proof (parse_byte_line_head p2 d2 x Ha2 Hx10 Hx13 Hx33 Hlb2) as S.
  destruct (dsmr_parse_byte p2 d2 x) as [[p3 d3] r3] eqn:E.
  destruct S as [[y [r [Hb3 Hy]]] [Ha3 ->]].
  rewrite (feed_data_step _ _ _ _ _ _ _ E).
  exact (feed_line_not_bang p3 d2 t y r Ha3 Hb3 Hy Hf2 Ht).
Qed.

Lemma flip_bit_app_l (a rest : list Z) (i : nat) (k : Z) :
  (i < length a)%nat -> flip_bit (a ++ rest) i k = flip_bit a i k ++ rest.
Proof.
  intros Hi. rewrite (flip_bit_eq (a ++ rest)) by (rewrite length_app; lia).
  rewrite (flip_bit_eq a) by exact Hi.
  rewrite app_nth1 by exact Hi.
  rewrite firstn_app. replace (i - length a)%nat with 0%nat by lia.
  rewrite skipn_app. replace (S i - length a)%nat with 0%nat by lia.
  cbn [firstn skipn]. rewrite app_nil_r, <- !app_assoc. reflexivity.
Qed.

Lemma flip_bit_at_length (a rest : list Z) (c k : Z) :
  flip_bit (a ++ c :: rest) (length a) k = a ++ Z.lxor c (2 ^ k) :: rest.
Proof.
  rewrite flip_bit_eq by (rewrite length_app; cbn [length]; lia).
  rewrite app_nth2 by lia. rewrite Nat.sub_diag. cbn [nth].
  rewrite firstn_app, Nat.sub_diag, firstn_all. cbn [firstn]. rewrite app_nil_r.
  f_equal. f_equal. induction a as [|x a IH]; [reflexivity|exact IH].
Qed.

Lemma lxor_pow2_not (c k : Z) :
  (c = 10 \/ c = 33) -> 0 <= k < 8 ->
  Z.lxor c (2 ^ k) <> 10 /\ Z.lxor c (2 ^ k) <> 13 /\ Z.lxor c (2 ^ k) <> 33.
Proof.
  intros Hc Hk.
  assert (K : k = 0 \/ k = 1 \/ k = 2 \/ k = 3 \/ k = 4 \/ k = 5 \/ k = 6 \/ k = 7) by lia.
  destruct Hc as [-> | ->];
    repeat (destruct K as [-> | K]; [vm_compute; repeat split; discriminate|]);
    subst k; vm_compute; repeat split; discriminate.
Qed.

Lemma hex_not_newline (h : list Z) : forallb is_hex h = true -> ~ In 10 h.
Proof.
  intros Hh Hin. rewrite forallb_forall in Hh.
  pose proof (is_hex_bounds 10 (Hh 10 Hin)). lia.
Qed.

(** C2 (counterexample): two single-bit flips of a correctly checksummed
    telegram that are still accepted.  First, a telegram whose body contains
    the bytes ["1-0:2.7.0("] right after a prefix whose CRC16 with ['!'] is 0
    is accepted, and so is the stream with bit 4 of the byte at index 41 (the
    ['1'] that starts the third line) flipped: the line becomes
    ["!-0:2.7.0(...)"], whose first four characters read as 0 by [strtol].
    Second, a telegram whose header starts with ["/eg[s"], a prefix of CRC16
    0, is accepted with bit 0 of the leading ['/'] flipped: the parser skips
    [".eg[s"], none of which starts a frame, starts the frame at ['I'], and
    the CRC16 of the rest is unchanged. *)
Lemma single_bit_flip_accepted :
  let B := bytes_of "/ISk5\2MT382-1KRX" ++ CRLF ++ bytes_of "1-0:1.7.0(00.424*kW)" ++ CRLF ++
           bytes_of "1-0:2.7.0(00.000*kW)" ++ CRLF in
  let B2 := bytes_of "/eg[sISk5\2MT382-1000" ++ CRLF ++ bytes_of "1-0:1.7.0(00.424*kW)" ++
            CRLF ++ bytes_of "1-0:2.7.0(00.000*kW)" ++ CRLF in
  ((41 < length B)%nat /\ nth 41 B 0 = 49 /\
   frame_complete (feed_data (telegram B)) = true /\
   frame_complete (feed_data (flip_bit (telegram B) 41 4)) = true) /\
  (nth 0 B2 0 = 47 /\
   frame_complete (feed_data (telegram B2)) = true /\
   frame_complete (feed_data (flip_bit (telegram B2) 0 0)) = true).
Proof.
  intros B B2. split.
  - split; [apply Nat.ltb_lt; vm_compute; reflexivity|].
    vm_compute. repeat split; reflexivity.
  - vm_compute. repeat split; reflexivity.
Qed.

(** C2 (amended): take a body that starts with ['/'], contains no ['!'] and
    ends with ['\n'], followed by ['!'], four hex digits and CR LF. Feeding
    it to a fresh parser sets frame-complete exactly when the hex value of
    the digits equals the CRC16 (polynomial 0xA001, initial value 0) of the
    body and the ['!']. When they are equal, flipping one bit of any byte
    after the leading ['/'] up to and including the ['!'] terminator, where
    the flipped byte is not ['!'], leaves frame-complete unset. *)
Theorem telegram_crc_checked (b h : list Z) :
  nth 0 b 0 = 47 -> ~ In 33 b -> last b 0 = 10 ->
  length h = 4%nat -> forallb is_hex h = true ->
  frame_complete (feed_data (b ++ [33] ++ h ++ CRLF)) =
  (hex_digits_val 0 h =? crc16 (b ++ [33])) /\
  (forall (i : nat) (k : Z),
   (0 < i <= length b)%nat -> 0 <= k < 8 ->
   Z.lxor (nth i (b ++ [33]) 0) (2 ^ k) <> 33 ->
   hex_digits_val 0 h = crc16 (b ++ [33]) ->
   frame_complete (feed_data (flip_bit (b ++ [33] ++ h ++ CRLF) i k)) = false).
Proof.
  intros Hb0 Hb Hlast Hlen Hh. split.
  - apply feed_body; assumption.
  - intros i k Hi Hk Hx Hv.
    assert (Hnh : ~ In 10 (h ++ [13])).
    { rewrite in_app_iff. intros [H|[H|[]]]; [exact (hex_not_newline h Hh H)|discriminate]. }
    replace (h ++ CRLF) with ((h ++ [13]) ++ [10]) by (rewrite <- app_assoc; reflexivity).
    destruct (Nat.lt_ge_cases i (length b - 1)) as [Hlt|Hge].
    + (* a byte strictly inside the body *)
      rewrite flip_bit_app_l by lia. rewrite app_nth1 in Hx by lia.
      replace ((h ++ [13]) ++ [10]) with (h ++ CRLF) by (rewrite <- app_assoc; reflexivity).
      destruct (flip_bit_shape b i k Hb0 Hb Hlast ltac:(lia) Hx) as [F0 [F1 F2]].
      rewrite feed_body by assumption. rewrite Hv.
      apply Z.eqb_neq. intros E.
      apply (crc16_flip_bit b i k); [lia|exact Hk|]. symmetry. exact E.
    + destruct (Nat.eq_dec i (length b)) as [->|Hne].
      * (* the '!' terminator *)
        destruct (lxor_pow2_not 33 k ltac:(right; reflexivity) Hk) as [X10 [X13 X33]].
        cbn [app]. rewrite flip_bit_at_length.
        exact (feed_no_bang_line b (h ++ [13]) _ Hb0 Hb X10 X13 X33 Hnh).
      * (* the final '\n' of the body *)
        assert (Hbne : b <> []) by (intros E; subst b; discriminate).
        destruct (exists_last Hbne) as [b' [y Eb]]. subst b.
        rewrite last_last in Hlast. subst y.
        rewrite length_app in Hi, Hge, Hne. cbn [length] in Hi, Hge, Hne.
        assert (Hib : i = length b') by lia. subst i.
        destruct (lxor_pow2_not 10 k ltac:(left; reflexivity) Hk) as [X10 [X13 X33]].
        assert (Hb'0 : nth 0 b' 0 = 47).
        { destruct b' as [|z b'']; [discriminate|]. exact Hb0. }
        assert (Hb' : ~ In 33 b') by (intros H; apply Hb, in_or_app; left; exact H).
        rewrite <- !app_assoc. cbn [app]. rewrite flip_bit_at_length.
        assert (Ht : ~ In 10 (33 :: h ++ [13])) by (intros [E|H]; [discriminate|exact (Hnh H)]).
        replace (h ++ [13; 10]) with ((h ++ [13]) ++ [10]) by (rewrite <- app_assoc; reflexivity).
        exact (feed_no_bang_line b' (33 :: h ++ [13]) _ Hb'0 Hb' X10 X13 X33 Ht).
Qed.

Lemma telegram_crc_checked_witness :
  frame_complete (feed_data sample_telegram) = true /\
  frame_complete (feed_data (flip_bit sample_telegram 5 0)) = false.
Proof.
  destruct (telegram_crc_checked sample_body (hex4 (crc16 (sample_body ++ [33])))
              eq_refl
              ltac:(apply not_in_of_existsb; vm_compute; reflexivity)
              eq_refl
              ltac:(vm_compute; reflexivity)
              ltac:(vm_compute; reflexivity)) as [A B].
  split.
  - unfold sample_telegram, telegram. rewrite A. vm_compute. reflexivity.
  - unfold sample_telegram, telegram. apply B.
    + split; [lia|apply Nat.leb_le; vm_compute; reflexivity].
    + lia.
    + vm_compute. discriminate.
    + vm_compute. reflexivity.
Defined.

(* ------------------------------------------------------------------------- *)
(** ** The RAW frame capture *)

(** A byte that is not ['/'] and does not complete a frame. *)
Lemma raw_step_plain (s : raw_state) (c : Z) :
  c <> 47 -> (c <> 10 \/ (frameEndDetected s = false /\ c <> 33)) ->
  raw_step s c =
  if (MAX_FRAME_SIZE <=? length (tempBuffer s))%nat
  then mk_raw [c] true (c =? 33) (lastFrameBuffer s)
  else mk_raw (tempBuffer s ++ [c]) (tempOverflowed s)
              (frameEndDetected s || (c =? 33)) (lastFrameBuffer s).
Proof.
  intros H47 Hc. unfold raw_step. cbv zeta.
  apply Z.eqb_neq in H47. rewrite H47.
  destruct (MAX_FRAME_SIZE <=? length (tempBuffer s))%nat; cbn;
    destruct (c =? 33) eqn:E33; cbn;
    destruct Hc as [H10|[Hf H33]];
    try (apply Z.eqb_neq in H10; rewrite H10);
    try (apply Z.eqb_neq in H33; congruence);
    try rewrite Hf; rewrite ?andb_false_r, ?orb_true_r, ?orb_false_r;
    try reflexivity; destruct s; reflexivity.
Qed.

Lemma run_raw_segment (s : raw_state) (l : list Z) :
  ~ In 47 l -> (~ In 10 l \/ (frameEndDetected s = false /\ ~ In 33 l)) ->
  (length (tempBuffer s) <= MAX_FRAME_SIZE)%nat ->
  let s' := run_raw s l in
  lastFrameBuffer s' = lastFrameBuffer s /\
  (length (tempBuffer s') <= MAX_FRAME_SIZE)%nat /\
  tempOverflowed s' =
    tempOverflowed s || (MAX_FRAME_SIZE <? length (tempBuffer s) + length l)%nat /\
  (tempOverflowed s' = false ->
   tempBuffer s' = tempBuffer s ++ l /\
   frameEndDetected s' = frameEndDetected s || existsb (Z.eqb 33) l).
Proof.
  revert s. induction l as [|c l IH]; intros s H47 Hc Hlen.
  - unfold run_raw. cbn [fold_left length existsb].
    rewrite Nat.add_0_r, app_nil_r, orb_false_r.
    destruct (Nat.ltb_spec MAX_FRAME_SIZE (length (tempBuffer s))); [lia|].
    rewrite orb_false_r. repeat split; auto.
  - assert (Hc47 : c <> 47) by (intros ->; apply H47; left; reflexivity).
    assert (Hl47 : ~ In 47 l) by (intros H; apply H47; right; exact H).
    assert (Hstep : c <> 10 \/ (frameEndDetected s = false /\ c <> 33)).
    { destruct Hc as [H|[Hf H]]; [left|right]; [intros ->; apply H; left; reflexivity|].
      split; [exact Hf|intros ->; apply H; left; reflexivity]. }
    unfold run_raw. cbn [fold_left]. fold (run_raw (raw_step s c) l).
    rewrite (raw_step_plain s c Hc47 Hstep).
    destruct (Nat.leb_spec MAX_FRAME_SIZE (length (tempBuffer s))) as [Hge|Hlt].
    + set (s1 := mk_raw [c] true (c =? 33) (lastFrameBuffer s)).
      assert (H1 : ~ In 10 l \/ (frameEndDetected s1 = false /\ ~ In 33 l)).
      { destruct Hc as [H|[Hf H]]; [left|right]; [intros Hin; apply H; right; exact Hin|].
        split; [|intros Hin; apply H; right; exact Hin].
        cbn. apply Z.eqb_neq. intros ->. apply H. left. reflexivity. }
      assert (H2 : (length (tempBuffer s1) <= MAX_FRAME_SIZE)%nat)
        by (cbn; unfold MAX_FRAME_SIZE; lia).
      pose proof (IH s1 Hl47 H1 H2) as R. cbv zeta in R. destruct R as [A [B [C D]]].
      cbn in A, C. split; [exact A|]. split; [exact B|]. split.
      * rewrite C. destruct (Nat.ltb_spec MAX_FRAME_SIZE (length (tempBuffer s) + length (c :: l)));
          [rewrite orb_true_r; reflexivity|cbn in *; lia].
      * rewrite C. discriminate.
    + set (s1 := mk_raw (tempBuffer s ++ [c]) (tempOverflowed s)
                        (frameEndDetected s || (c =? 33)) (lastFrameBuffer s)).
      assert (H1 : ~ In 10 l \/ (frameEndDetected s1 = false /\ ~ In 33 l)).
      { destruct Hc as [H|[Hf H]]; [left|right]; [intros Hin; apply H; right; exact Hin|].
        split; [|intros Hin; apply H; right; exact Hin].
        cbn. rewrite Hf. apply Z.eqb_neq. intros ->. apply H. left. reflexivity. }
      assert (H2 : (length (tempBuffer s1) <= MAX_FRAME_SIZE)%nat)
        by (cbn; rewrite length_app; cbn; lia).
      pose proof (IH s1 Hl47 H1 H2) as R. cbv zeta in R. destruct R as [A [B [C D]]].
      unfold s1 in *. cbn [lastFrameBuffer tempOverflowed tempBuffer frameEndDetected] in A, C, D.
      rewrite length_app in C. cbn [length] in C.
      split; [exact A|]. split; [exact B|]. split.
      * rewrite C. cbn [length]. do 2 f_equal. lia.
      * intros E. destruct (D E) as [D1 D2]. split.
        -- rewrite D1, <- app_assoc. reflexivity.
        -- rewrite D2. cbn [existsb].
           rewrite (Z.eqb_sym 33 c), orb_assoc. reflexivity.
Qed.

Lemma raw_step_overflowed (s : raw_state) (c : Z) :
  tempOverflowed s = true -> c <> 47 ->
  lastFrameBuffer (raw_step s c) = lastFrameBuffer s.
Proof.
  intros Ho H47. unfold raw_step. cbv zeta.
  apply Z.eqb_neq in H47. rewrite H47.
  destruct (MAX_FRAME_SIZE <=? length (tempBuffer s))%nat; cbn;
    destruct (c =? 33); cbn; rewrite ?Ho;
    destruct (frameEndDetected s); cbn; destruct (c =? 10); reflexivity.
Qed.

(** X: the RAW buffer never holds more than [MAX_FRAME_SIZE] bytes, and
    [lastFrameBuffer] only ever changes on a ['\n'], to a buffer of at most
    [MAX_FRAME_SIZE] bytes that ends with that ['\n']. *)
Theorem raw_step_bounded (s : raw_state) (c : Z) :
  (length (tempBuffer (raw_step s c)) <= MAX_FRAME_SIZE)%nat /\
  (lastFrameBuffer (raw_step s c) = lastFrameBuffer s \/
   (c = 10 /\ (length (lastFrameBuffer (raw_step s c)) <= MAX_FRAME_SIZE)%nat /\
    last (lastFrameBuffer (raw_step s c)) 0 = 10)).
Proof.
  unfold raw_step. cbv zeta.
  set (s1 := if c =? 47 then mk_raw [] false false (lastFrameBuffer s) else s).
  assert (L1 : lastFrameBuffer s1 = lastFrameBuffer s)
    by (unfold s1; destruct (c =? 47); reflexivity).
  set (s2 := if (MAX_FRAME_SIZE <=? length (tempBuffer s1))%nat
             then mk_raw [] true false (lastFrameBuffer s1) else s1).
  assert (L2 : lastFrameBuffer s2 = lastFrameBuffer s)
    by (unfold s2; destruct (MAX_FRAME_SIZE <=? length (tempBuffer s1))%nat; exact L1).
  assert (T2 : (length (tempBuffer s2) < MAX_FRAME_SIZE)%nat).
  { unfold s2. destruct (Nat.leb_spec MAX_FRAME_SIZE (length (tempBuffer s1)));
      cbn; unfold MAX_FRAME_SIZE in *; lia. }
  clearbody s1 s2.
  assert (T3 : (length (tempBuffer s2 ++ [c]) <= MAX_FRAME_SIZE)%nat)
    by (rewrite length_app; cbn; lia).
  destruct (c =? 33); destruct (frameEndDetected s2); destruct (c =? 10) eqn:E10;
    destruct (tempOverflowed s2) eqn:Eo;
    cbn [andb orb frameEndDetected tempOverflowed tempBuffer lastFrameBuffer];
    solve [ split; [exact T3|left; exact L2]
          | split; [cbn [length]; unfold MAX_FRAME_SIZE; lia|left; exact L2]
          | split; [cbn [length]; unfold MAX_FRAME_SIZE; lia|];
            right; apply Z.eqb_eq in E10; subst c;
            split; [reflexivity|split; [exact T3|apply last_last]] ].
Qed.

Lemma raw_step_slash (s : raw_state) :
  raw_step s 47 = mk_raw [47] false false (lastFrameBuffer s).
Proof. reflexivity. Qed.

Lemma raw_step_newline (s : raw_state) :
  raw_step s 10 =
  if (MAX_FRAME_SIZE <=? length (tempBuffer s))%nat
  then mk_raw [10] true false (lastFrameBuffer s)
  else if frameEndDetected s
       then mk_raw [] false false
                   (if tempOverflowed s then lastFrameBuffer s else tempBuffer s ++ [10])
       else mk_raw (tempBuffer s ++ [10]) (tempOverflowed s) false (lastFrameBuffer s).
Proof.
  unfold raw_step. cbv zeta. change (10 =? 47) with false. change (10 =? 33) with false.
  change (10 =? 10) with true.
  destruct s as [tb ov fe lfb]. cbn [tempBuffer tempOverflowed frameEndDetected lastFrameBuffer].
  destruct (MAX_FRAME_SIZE <=? length tb)%nat; [reflexivity|].
  destruct fe, ov; reflexivity.
Qed.

(** The bytes of a frame from its ['/'] up to the byte before its final
    ['\n']. *)
Lemma run_raw_frame_body (s : raw_state) (m t : list Z) :
  ~ In 47 m -> ~ In 33 m -> ~ In 47 t -> ~ In 10 t ->
  let s2 := run_raw s (47 :: m ++ 33 :: t) in
  lastFrameBuffer s2 = lastFrameBuffer s /\
  tempOverflowed s2 = (MAX_FRAME_SIZE <? 2 + length m + length t)%nat /\
  (tempOverflowed s2 = false ->
   tempBuffer s2 = 47 :: m ++ 33 :: t /\ frameEndDetected s2 = true).
Proof.
  intros Hm47 Hm33 Ht47 Ht10. cbv zeta.
  unfold run_raw. cbn [fold_left]. rewrite raw_step_slash, fold_left_app.
  fold (run_raw (mk_raw [47] false false (lastFrameBuffer s)) m).
  set (s0 := mk_raw [47] false false (lastFrameBuffer s)).
  destruct (run_raw_segment s0 m Hm47 (or_intror (conj eq_refl Hm33)))
    as [A1 [B1 [C1 D1]]]; [cbn; unfold MAX_FRAME_SIZE; lia|].
  fold (run_raw (run_raw s0 m) (33 :: t)).
  set (s1 := run_raw s0 m) in *.
  assert (H47 : ~ In 47 (33 :: t)) by (intros [H|H]; [discriminate|exact (Ht47 H)]).
  assert (H10 : ~ In 10 (33 :: t)) by (intros [H|H]; [discriminate|exact (Ht10 H)]).
  destruct (run_raw_segment s1 (33 :: t) H47 (or_introl H10) B1) as [A2 [_ [C2 D2]]].
  unfold s0 in A1, C1, D1.
  cbn [tempOverflowed tempBuffer lastFrameBuffer frameEndDetected length orb] in A1, C1, D1.
  split; [rewrite A2, A1; reflexivity|].
  destruct (tempOverflowed s1) eqn:O1.
  - rewrite C2. cbn [orb]. split; [|discriminate].
    symmetry. apply Nat.ltb_lt. symmetry in C1. apply Nat.ltb_lt in C1. lia.
  - destruct (D1 eq_refl) as [T1 F1]. rewrite T1 in C2. cbn [app length orb] in C2.
    split.
    + rewrite C2. f_equal. lia.
    + intros O2. destruct (D2 O2) as [T2 F2]. rewrite T2, T1, F2. split; [reflexivity|].
      cbn [existsb]. rewrite Z.eqb_refl. cbn [orb]. apply orb_true_r.
Qed.

(** X: a frame ['/' m '!' t '\n'] with no ['/'] after its first byte, no
    ['!'] before the one ending its data and no ['\n'] after it, of at most
    [MAX_FRAME_SIZE] bytes, is captured whole into [lastFrameBuffer]
    whatever came before it, and the capture state is reset. *)
Theorem raw_frame_captured (s : raw_state) (m t : list Z) :
  ~ In 47 m -> ~ In 33 m -> ~ In 47 t -> ~ In 10 t ->
  Nat.le (length (47 :: m ++ 33 :: t ++ [10])) MAX_FRAME_SIZE ->
  run_raw s (47 :: m ++ 33 :: t ++ [10]) =
  mk_raw [] false false (47 :: m ++ 33 :: t ++ [10]).
Proof.
  intros Hm47 Hm33 Ht47 Ht10 Hlen.
  destruct (run_raw_frame_body s m t Hm47 Hm33 Ht47 Ht10) as [_ [C D]].
  replace (47 :: m ++ 33 :: t ++ [10]) with ((47 :: m ++ 33 :: t) ++ [10])
    by (cbn; rewrite <- app_assoc; reflexivity).
  unfold run_raw at 1. rewrite fold_left_app. fold (run_raw s (47 :: m ++ 33 :: t)).
  cbn [fold_left].
  set (s2 := run_raw s (47 :: m ++ 33 :: t)) in *.
  cbn [length] in Hlen. rewrite !length_app in Hlen. cbn [length] in Hlen.
  rewrite ?length_app in Hlen. cbn [length] in Hlen.
  assert (O : tempOverflowed s2 = false) by (rewrite C; apply Nat.ltb_ge; lia).
  destruct (D O) as [T F].
  rewrite raw_step_newline, T, F, O.
  assert (L : Nat.leb MAX_FRAME_SIZE (length (47 :: m ++ 33 :: t)) = false).
  { apply Nat.leb_gt. cbn [length]. rewrite length_app. cbn [length]. lia. }
  rewrite L. reflexivity.
Qed.

Lemma raw_frame_captured_witness :
  run_raw init_raw sample_telegram = mk_raw [] false false sample_telegram.
Proof.
  apply (raw_frame_captured init_raw
           (skipn 1 sample_body) (hex4 (crc16 (sample_body ++ [33])) ++ [13])).
  - apply not_in_of_existsb. vm_compute. reflexivity.
  - apply not_in_of_existsb. vm_compute. reflexivity.
  - apply not_in_of_existsb. vm_compute. reflexivity.
  - apply not_in_of_existsb. vm_compute. reflexivity.
  - apply Nat.leb_le. vm_compute. reflexivity.
Defined.

(** X: a frame of the same shape longer than [MAX_FRAME_SIZE] bytes is
    never captured: [lastFrameBuffer] keeps what it held before. *)
Theorem raw_oversized_frame_dropped (s : raw_state) (m t : list Z) :
  ~ In 47 m -> ~ In 33 m -> ~ In 47 t -> ~ In 10 t ->
  Nat.lt MAX_FRAME_SIZE (length (47 :: m ++ 33 :: t ++ [10])) ->
  lastFrameBuffer (run_raw s (47 :: m ++ 33 :: t ++ [10])) = lastFrameBuffer s.
Proof.
  intros Hm47 Hm33 Ht47 Ht10 Hlen.
  destruct (run_raw_frame_body s m t Hm47 Hm33 Ht47 Ht10) as [A [C D]].
  replace (47 :: m ++ 33 :: t ++ [10]) with ((47 :: m ++ 33 :: t) ++ [10])
    by (cbn; rewrite <- app_assoc; reflexivity).
  unfold run_raw at 1. rewrite fold_left_app. fold (run_raw s (47 :: m ++ 33 :: t)).
  cbn [fold_left].
  set (s2 := run_raw s (47 :: m ++ 33 :: t)) in *.
  destruct (tempOverflowed s2) eqn:O.
  - rewrite raw_step_overflowed by (assumption || discriminate). exact A.
  - destruct (D eq_refl) as [T F].
    cbn [length] in Hlen. rewrite !length_app in Hlen. cbn [length] in Hlen.
    rewrite ?length_app in Hlen. cbn [length] in Hlen.
    symmetry in C. apply Nat.ltb_ge in C.
    assert (L : (MAX_FRAME_SIZE <=? length (tempBuffer s2))%nat = true).
    { apply Nat.leb_le. rewrite T. cbn [length]. rewrite length_app. cbn [length].
      unfold MAX_FRAME_SIZE in *. lia. }
    rewrite raw_step_newline, L. exact A.
Qed.

Lemma raw_oversized_frame_dropped_witness :
  lastFrameBuffer (run_raw init_raw (47 :: repeat 65 1500 ++ 33 :: [10])) =
  bytes_of "Waiting for P1 Data...".
Proof.
  apply (raw_oversized_frame_dropped init_raw (repeat 65 1500) []).
  - intros H. apply repeat_spec in H. discriminate.
  - intros H. apply repeat_spec in H. discriminate.
  - intros [].
  - intros [].
  - cbn [length]. rewrite length_app, repeat_length. cbn [length]. unfold MAX_FRAME_SIZE. lia.
Defined.

Lemma run_raw57_plain (tb lfb b : list Z) :
  ~ In 33 b -> (length tb + length b <= MAX_FRAME_SIZE)%nat ->
  run_raw57 (tb, lfb) b = (tb ++ b, lfb).
Proof.
  revert tb. induction b as [|c b IH]; intros tb Hb Hlen.
  - rewrite app_nil_r. reflexivity.
  - unfold run_raw57. cbn [fold_left]. fold (run_raw57 (raw57_step (tb, lfb) c) b).
    unfold raw57_step.
    destruct (Nat.leb_spec MAX_FRAME_SIZE (length tb)) as [H|_]; [cbn [length] in Hlen; lia|].
    assert (Hc : (c =? 33) = false)
      by (apply Z.eqb_neq; intros ->; apply Hb; left; reflexivity).
    rewrite Hc, IH.
    + rewrite <- app_assoc. reflexivity.
    + intros H. apply Hb. right. exact H.
    + rewrite length_app. cbn [length] in *. lia.
Qed.

Lemma run_raw57_bang (tb lfb b : list Z) :
  ~ In 33 b -> (length tb + length b < MAX_FRAME_SIZE)%nat ->
  run_raw57 (tb, lfb) (b ++ [33]) = ([], tb ++ b ++ [33]).
Proof.
  intros Hb Hlen. unfold run_raw57. rewrite fold_left_app.
  fold (run_raw57 (tb, lfb) b). rewrite run_raw57_plain by (assumption || lia).
  cbn [fold_left raw57_step].
  destruct (Nat.leb_spec MAX_FRAME_SIZE (length (tb ++ b))) as [H|_];
    [rewrite length_app in H; lia|].
  rewrite <- app_assoc. reflexivity.
Qed.

Lemma run_raw57_app (s : list Z * list Z) (a b : list Z) :
  run_raw57 s (a ++ b) = run_raw57 (run_raw57 s a) b.
Proof. unfold run_raw57. apply fold_left_app. Qed.

Lemma hex4_no_bang (v : Z) : ~ In 33 (hex4 v).
Proof.
  assert (Hc : forall x, hex_char (x mod 16) <> 33).
  { intros x. pose proof (Z.mod_pos_bound x 16 ltac:(lia)).
    unfold hex_char. destruct (x mod 16 <? 10); lia. }
  unfold hex4. intros [H|[H|[H|[H|[]]]]]; exact (Hc _ H).
Qed.

(** X: in the older v5.7.0 sketch the RAW buffer is cut at every ['!']:
    after two telegrams, [lastFrameBuffer] starts with the CRC digits and
    CR LF of the first telegram and ends at the ['!'] of the second, without
    its own CRC. *)
Theorem raw57_frame_starts_with_previous_crc (s : list Z * list Z) (b1 b2 : list Z) :
  ~ In 33 b1 -> ~ In 33 b2 ->
  (length (fst s) + length b1 < MAX_FRAME_SIZE)%nat ->
  (length b2 + 6 < MAX_FRAME_SIZE)%nat ->
  snd (run_raw57 s (telegram b1 ++ telegram b2)) =
  hex4 (crc16 (b1 ++ [33])) ++ CRLF ++ b2 ++ [33].
Proof.
  intros H1 H2 L1 L2. destruct s as [tb lfb]. cbn [fst] in L1.
  assert (NC : forall v, ~ In 33 (hex4 v ++ CRLF)).
  { intros v H. apply in_app_or in H as [H|H];
      [exact (hex4_no_bang v H)|destruct H as [H|[H|[]]]; discriminate]. }
  assert (LC : forall v, length (hex4 v ++ CRLF) = 6%nat) by reflexivity.
  unfold telegram.
  replace ((b1 ++ [33] ++ hex4 (crc16 (b1 ++ [33])) ++ CRLF) ++
           b2 ++ [33] ++ hex4 (crc16 (b2 ++ [33])) ++ CRLF)
    with ((b1 ++ [33]) ++ (hex4 (crc16 (b1 ++ [33])) ++ CRLF) ++ (b2 ++ [33]) ++
          (hex4 (crc16 (b2 ++ [33])) ++ CRLF))
    by (rewrite <- !app_assoc; reflexivity).
  set (c1 := hex4 (crc16 (b1 ++ [33])) ++ CRLF).
  set (c2 := hex4 (crc16 (b2 ++ [33])) ++ CRLF).
  rewrite (run_raw57_app _ (b1 ++ [33])), run_raw57_bang by assumption.
  rewrite (run_raw57_app _ c1), run_raw57_plain
    by (unfold c1; first [apply NC|cbn [length]; rewrite LC; unfold MAX_FRAME_SIZE in *; lia]).
  rewrite (run_raw57_app _ (b2 ++ [33])), run_raw57_bang
    by (first [assumption|cbn [app]; unfold c1; rewrite LC; unfold MAX_FRAME_SIZE in *; lia]).
  rewrite run_raw57_plain by (unfold c2; first [apply NC|cbn [length]; rewrite LC; unfold MAX_FRAME_SIZE in *; lia]).
  unfold c1. cbn [snd app]. rewrite <- !app_assoc. reflexivity.
Qed.

Lemma raw57_frame_starts_with_previous_crc_witness :
  snd (run_raw57 ([], bytes_of "Waiting for P1 Data...") (sample_telegram ++ sample_telegram)) =
  hex4 (crc16 (sample_body ++ [33])) ++ CRLF ++ sample_body ++ [33].
Proof.
  apply raw57_frame_starts_with_previous_crc.
  - apply not_in_of_existsb. vm_compute. reflexivity.
  - apply not_in_of_existsb. vm_compute. reflexivity.
  - apply Nat.ltb_lt. vm_compute. reflexivity.
  - apply Nat.ltb_lt. vm_compute. reflexivity.
Defined.

(* ------------------------------------------------------------------------- *)
(** ** The software watchdog *)





(** X: the boot grace period of the WiFi watchdog comes back every [2^32]
    milliseconds: during the first [BOOT_GRACE_PERIOD] milliseconds of each
    wrap of [millis()] after boot, a lost WiFi connection never causes a
    reboot, and the WiFi timer is restarted from the current time. *)
Theorem wifi_watchdog_grace_recurs (w : wd_timers) (B k e ac : Z) :
  bootTime w = ulong B -> 0 <= e <= BOOT_GRACE_PERIOD ->
  let now := ulong (B + k * 2 ^ 32 + e) in
  fst (watchdog now false ac w) <> Some wifi_lost /\
  lastWiFiCheck (snd (watchdog now false ac w)) = now.
Proof.
  intros Hb He. cbv zeta.
  assert (G : ulong (ulong (B + k * 2 ^ 32 + e) - bootTime w) = e).
  { rewrite Hb. unfold ulong.
    rewrite Zminus_mod_idemp_l, Zminus_mod_idemp_r.
    replace (B + k * 2 ^ 32 + e - B) with (e + k * 2 ^ 32) by ring.
    rewrite Z.mod_add by lia. apply Z.mod_small. unfold BOOT_GRACE_PERIOD in He. lia. }
  unfold watchdog. cbv zeta. rewrite G.
  destruct (Z.ltb_spec BOOT_GRACE_PERIOD e) as [H|_]; [lia|].
  cbn [andb negb]. cbn [lastDataReceived lastClientCheck lastWiFiCheck bootTime].
  destruct (_ <? _); [split; [discriminate|reflexivity]|].
  destruct (_ && _); [split; [discriminate|reflexivity]|].
  destruct (0 <? ac); split; (discriminate || reflexivity).
Qed.

Lemma wifi_watchdog_grace_recurs_witness :
  fst (watchdog (ulong (1000 + 1 * 2 ^ 32 + 200000)) false 1 (mk_timers (ulong 1000) 0 0 0))
    <> Some wifi_lost /\
  lastWiFiCheck (snd (watchdog (ulong (1000 + 1 * 2 ^ 32 + 200000)) false 1
                                 (mk_timers (ulong 1000) 0 0 0)))
    = ulong (1000 + 1 * 2 ^ 32 + 200000).
Proof.
  apply (wifi_watchdog_grace_recurs (mk_timers (ulong 1000) 0 0 0) 1000 1 200000 1);
    [reflexivity|unfold BOOT_GRACE_PERIOD; lia].
Defined.

(* ------------------------------------------------------------------------- *)
(** ** [formatUptime] *)

Lemma dec_val_app (acc : Z) (a b : list Z) : dec_val acc (a ++ b) = dec_val (dec_val acc a) b.
Proof. revert acc. induction a as [|x a IH]; intros acc; [reflexivity|apply IH]. Qed.

Lemma dec_digits_spec (f : nat) (n : Z) (acc : list Z) :
  0 <= n < 10 ^ Z.of_nat f ->
  exists ds, dec_digits (S f) n acc = ds ++ acc /\ ds <> [] /\
             forallb is_digit ds = true /\ dec_val 0 ds = n.
Proof.
  revert n acc. induction f as [|f IH]; intros n acc Hn;
    cbn [dec_digits]; pose proof (Z.mod_pos_bound n 10 ltac:(lia)) as Hm;
    (assert (Hd : is_digit (48 + n mod 10) = true)
      by (unfold is_digit; apply andb_true_iff; split; apply Z.leb_le; lia)).
  - cbn in Hn. destruct (Z.ltb_spec n 10) as [Hlt|Hge]; [|lia].
    exists [48 + n mod 10]. split; [reflexivity|]. split; [discriminate|].
    split; [cbn [forallb]; rewrite Hd; reflexivity|].
    cbn [dec_val]. rewrite Z.mod_small by lia. lia.
  - destruct (Z.ltb_spec n 10) as [Hlt|Hge].
    + exists [48 + n mod 10]. split; [reflexivity|]. split; [discriminate|].
      split; [cbn [forallb]; rewrite Hd; reflexivity|].
      cbn [dec_val]. rewrite Z.mod_small by lia. lia.
    + destruct (IH (n / 10) ((48 + n mod 10) :: acc)) as [ds [E [Hne [Hds Hv]]]].
      { split; [apply Z.div_pos; lia|].
        rewrite Nat2Z.inj_succ, Z.pow_succ_r in Hn by lia.
        apply Z.div_lt_upper_bound; lia. }
      exists (ds ++ [48 + n mod 10]). cbn [dec_digits] in E. rewrite E, <- app_assoc.
      split; [reflexivity|].
      split; [destruct ds; [contradiction|discriminate]|].
      split; [rewrite forallb_app, Hds; cbn [forallb]; rewrite Hd; reflexivity|].
      rewrite dec_val_app, Hv. cbn [dec_val]. pose proof (Z.div_mod n 10 ltac:(lia)). lia.
Qed.

Lemma dec_string_spec (n : Z) :
  0 <= n < 2 ^ 32 ->
  dec_string n <> [] /\ forallb is_digit (dec_string n) = true /\ dec_val 0 (dec_string n) = n.
Proof.
  intros Hn. destruct (dec_digits_spec 19 n [] ltac:(cbn; lia)) as [ds [E H]].
  unfold dec_string. rewrite E, app_nil_r. exact H.
Qed.

(** X: the uptime text of the dashboard is four decimal numbers followed by
    ["d "], ["h "], ["m "] and ["s"]; read back, they give the whole seconds
    since boot ([millis() / 1000]) with hours below 24 and minutes and
    seconds below 60.  Since [millis()] is a 32-bit [unsigned long], the
    day count never exceeds 49. *)
Theorem formatUptime_round_trip (ms : Z) :
  0 <= ms < 2 ^ 32 ->
  exists d h m s,
    formatUptime ms = d ++ bytes_of "d " ++ h ++ bytes_of "h " ++
                      m ++ bytes_of "m " ++ s ++ bytes_of "s" /\
    forallb is_digit (d ++ h ++ m ++ s) = true /\
    d <> [] /\ h <> [] /\ m <> [] /\ s <> [] /\
    dec_val 0 d * 86400 + dec_val 0 h * 3600 + dec_val 0 m * 60 + dec_val 0 s = ms / 1000 /\
    dec_val 0 h < 24 /\ dec_val 0 m < 60 /\ dec_val 0 s < 60 /\ dec_val 0 d <= 49.
Proof.
  intros Hms.
  set (t := ms / 1000).
  change (2 ^ 32) with 4294967296 in Hms.
  assert (Ht : 0 <= t < 4294968) by (unfold t; split; [apply Z.div_pos|apply Z.div_lt_upper_bound]; lia).
  destruct (dec_string_spec (t / 86400)) as [Nd [Dd Vd]]; [split; [apply Z.div_pos|apply Z.div_lt_upper_bound]; lia|].
  pose proof (Z.mod_pos_bound t 86400 ltac:(lia)).
  pose proof (Z.mod_pos_bound t 3600 ltac:(lia)).
  pose proof (Z.mod_pos_bound t 60 ltac:(lia)).
  destruct (dec_string_spec ((t mod 86400) / 3600)) as [Nh [Dh Vh]];
    [split; [apply Z.div_pos|apply Z.div_lt_upper_bound]; lia|].
  destruct (dec_string_spec ((t mod 3600) / 60)) as [Nm [Dm Vm]];
    [split; [apply Z.div_pos|apply Z.div_lt_upper_bound]; lia|].
  destruct (dec_string_spec (t mod 60)) as [Ns [Ds Vs]]; [lia|].
  exists (dec_string (t / 86400)), (dec_string ((t mod 86400) / 3600)),
         (dec_string ((t mod 3600) / 60)), (dec_string (t mod 60)).
  split; [reflexivity|].
  split; [rewrite !forallb_app, Dd, Dh, Dm, Ds; reflexivity|].
  do 4 (split; [assumption|]).
  rewrite Vd, Vh, Vm, Vs. fold t.
  split; [|split; [|split; [|split]]].
  - Z.div_mod_to_equations. lia.
  - apply Z.div_lt_upper_bound; lia.
  - apply Z.div_lt_upper_bound; lia.
  - lia.
  - assert (t / 86400 < 50) by (apply Z.div_lt_upper_bound; lia). lia.
Qed.

Lemma formatUptime_round_trip_witness :
  exists d h m s,
    formatUptime 4294967295 = d ++ bytes_of "d " ++ h ++ bytes_of "h " ++
                      m ++ bytes_of "m " ++ s ++ bytes_of "s" /\
    forallb is_digit (d ++ h ++ m ++ s) = true /\
    d <> [] /\ h <> [] /\ m <> [] /\ s <> [] /\
    dec_val 0 d * 86400 + dec_val 0 h * 3600 + dec_val 0 m * 60 + dec_val 0 s =
      4294967295 / 1000 /\
    dec_val 0 h < 24 /\ dec_val 0 m < 60 /\ dec_val 0 s < 60 /\ dec_val 0 d <= 49.
Proof. apply formatUptime_round_trip. lia. Defined.

(* ------------------------------------------------------------------------- *)
(** ** [customUrlEncode] *)

Lemma hex_char_range (n : Z) :
  0 <= n < 16 -> (48 <= hex_char n <= 57 \/ 65 <= hex_char n <= 70).
Proof. intros Hn. unfold hex_char. destruct (Z.ltb_spec n 10); lia. Qed.

Lemma hex_char_inj (a b : Z) :
  0 <= a < 16 -> 0 <= b < 16 -> hex_char a = hex_char b -> a = b.
Proof.
  intros Ha Hb. unfold hex_char.
  destruct (Z.ltb_spec a 10), (Z.ltb_spec b 10); lia.
Qed.

Lemma url_escape_digits (c : Z) :
  0 <= c mod 256 / 16 < 16 /\ 0 <= c mod 256 mod 16 < 16.
Proof.
  pose proof (Z.mod_pos_bound c 256 ltac:(lia)).
  split; [split; [apply Z.div_pos|apply Z.div_lt_upper_bound]; lia|].
  apply Z.mod_pos_bound. lia.
Qed.

(** X: [customUrlEncode] only ever outputs letters, digits and ['%'] (so
    the SSID it encodes cannot end the quoted [location='...'] it is placed
    in), and every other character of the input becomes exactly three
    characters. *)
Theorem customUrlEncode_alphabet (str : list Z) :
  forallb (fun c => is_alnum c || (c =? 37)) (customUrlEncode str) = true /\
  length (customUrlEncode str) =
    (length str + 2 * length (filter (fun c => negb (is_alnum c)) str))%nat.
Proof.
  induction str as [|c str [IH1 IH2]]; [split; reflexivity|].
  unfold customUrlEncode in *. cbn [flat_map filter]. rewrite forallb_app, length_app, IH1, IH2.
  destruct (is_alnum c) eqn:Ha; cbn.
  - rewrite Ha. split; reflexivity.
  - split; [|lia].
    destruct (url_escape_digits c) as [H1 H2].
    assert (Hx : forall n, 0 <= n < 16 -> is_alnum (hex_char n) = true).
    { intros n Hn. unfold is_alnum, is_digit, is_upper.
      destruct (hex_char_range n Hn) as [R|R].
      - assert (E1 : (48 <=? hex_char n) = true) by (apply Z.leb_le; lia).
        assert (E2 : (hex_char n <=? 57) = true) by (apply Z.leb_le; lia).
        rewrite E1, E2. reflexivity.
      - assert (E1 : (65 <=? hex_char n) = true) by (apply Z.leb_le; lia).
        assert (E2 : (hex_char n <=? 90) = true) by (apply Z.leb_le; lia).
        rewrite E1, E2. cbn [andb]. rewrite orb_true_r. reflexivity. }
    rewrite (Hx _ H1), (Hx _ H2). reflexivity.
Qed.

(** X: [customUrlEncode] is injective on byte strings: two different SSIDs
    never give the same encoded text. *)
Theorem customUrlEncode_injective (a b : list Z) :
  Forall (fun c => 0 <= c < 256) a -> Forall (fun c => 0 <= c < 256) b ->
  customUrlEncode a = customUrlEncode b -> a = b.
Proof.
  assert (N37 : is_alnum 37 = false) by reflexivity.
  revert b. induction a as [|x a IH]; intros b Ha Hb E.
  - destruct b as [|y b]; [reflexivity|].
    unfold customUrlEncode in E. cbn [flat_map] in E.
    destruct (is_alnum y); discriminate.
  - destruct b as [|y b].
    + unfold customUrlEncode in E. cbn [flat_map] in E. destruct (is_alnum x); discriminate.
    + inversion Ha as [|? ? Hx Ha']. inversion Hb as [|? ? Hy Hb']. subst.
      unfold customUrlEncode in E. cbn [flat_map] in E.
      fold (customUrlEncode a) in E. fold (customUrlEncode b) in E.
      destruct (is_alnum x) eqn:Ex, (is_alnum y) eqn:Ey; cbn [app] in E.
      * injection E as -> E. f_equal. apply IH; assumption.
      * injection E as -> E. rewrite N37 in Ex. discriminate.
      * injection E as <- E. rewrite N37 in Ey. discriminate.
      * unfold url_escape in E. cbn [app] in E. injection E as E1 E2 E.
        destruct (url_escape_digits x) as [X1 X2]. destruct (url_escape_digits y) as [Y1 Y2].
        apply hex_char_inj in E1; [|assumption|assumption].
        apply hex_char_inj in E2; [|assumption|assumption].
        rewrite (Z.mod_small x 256), (Z.mod_small y 256) in E1, E2 by lia.
        assert (x = y) as ->.
        { rewrite (Z.div_mod x 16), (Z.div_mod y 16) by lia. lia. }
        f_equal. apply IH; assumption.
Qed.

Lemma customUrlEncode_injective_witness : bytes_of "My Net" = bytes_of "My Net".
Proof.
  apply (customUrlEncode_injective (bytes_of "My Net") (bytes_of "My Net"));
    [repeat constructor; lia|repeat constructor; lia|reflexivity].
Defined.

(* ------------------------------------------------------------------------- *)
(** ** The configuration handlers *)

Lemma strncpy_field_ok (dst src : list Z) (n : nat) :
  field_ok dst (S n) -> field_ok (strncpy dst src n) (S n).
Proof. intros H. apply (strncpy_field dst src n H). Qed.

Lemma handle_request_ok (cfg : AppConfig) (rq : request) :
  config_ok cfg -> 0 < tcpServerPort cfg < 65536 ->
  config_ok (handle_request cfg rq) /\ 0 < tcpServerPort (handle_request cfg rq) < 65536.
Proof.
  intros Hc Hp. pose proof Hc as (H1 & H2 & H3 & H4 & H5 & H6 & H7 & H8).
  destruct rq as [arg|auth arg|auth arg]; cbn [handle_request].
  - split.
    + unfold config_ok; cbn [wifiSsid wifiPass wwwUser wwwPass staticIP gateway subnet
                             dataSourceHost].
      refine (conj _ (conj _ (conj _ (conj _ (conj _ (conj _ (conj _ _)))))));
        first [apply strncpy_field_ok; assumption|assumption].
    + cbn [tcpServerPort]. unfold to_uint16.
      pose proof (Z.mod_pos_bound (toInt (arg "srv_port"%string)) (2 ^ 16) ltac:(lia)).
      destruct (Z.eqb_spec (toInt (arg "srv_port"%string) mod 2 ^ 16) 0); lia.
  - destruct auth; cbn [negb]; [|split; [exact Hc|exact Hp]].
    split; [|exact Hp].
    unfold config_ok; cbn [wifiSsid wifiPass wwwUser wwwPass staticIP gateway subnet
                           dataSourceHost].
    refine (conj _ (conj _ (conj _ (conj _ (conj _ (conj _ (conj _ _)))))));
      try (destruct (0 <? length (arg "pass"%string))%nat);
      first [apply strncpy_field_ok; assumption|assumption].
  - destruct auth; cbn [negb]; [|split; [exact Hc|exact Hp]].
    split; [|exact Hp].
    unfold config_ok; cbn [wifiSsid wifiPass wwwUser wwwPass staticIP gateway subnet
                           dataSourceHost].
    refine (conj _ (conj _ (conj _ (conj _ (conj _ (conj _ (conj _ _)))))));
      first [apply strncpy_field_ok; assumption|assumption].
Qed.

(** X: from the factory defaults written by [setup], any sequence of
    [/saveConfig], [/savePass] and [/saveSource] requests leaves every text
    field of the configuration NUL-terminated inside its [char] array, and
    the TCP server port between 1 and 65535. *)
Theorem config_fields_terminated (rqs : list request) :
  let cfg := fold_left handle_request rqs factory_config in
  config_ok cfg /\ 0 < tcpServerPort cfg < 65536.
Proof.
  cbv zeta.
  assert (G : forall c, config_ok c -> 0 < tcpServerPort c < 65536 ->
              config_ok (fold_left handle_request rqs c) /\
              0 < tcpServerPort (fold_left handle_request rqs c) < 65536).
  { induction rqs as [|rq rqs IH]; intros c Hc Hp; [split; assumption|].
    cbn [fold_left]. destruct (handle_request_ok c rq Hc Hp) as [A B]. apply IH; assumption. }
  apply G; [|cbn; lia].
  unfold config_ok, field_ok. vm_compute. repeat split.
Qed.

(* ------------------------------------------------------------------------- *)
(** ** [extract_value] and [match_obis_code] *)

Lemma index_of_notin (x : Z) (l : list Z) : ~ In x l -> index_of x l = None.
Proof.
  induction l as [|c l IH]; intros H; [reflexivity|]. cbn.
  destruct (Z.eqb_spec c x) as [->|_]; [exfalso; apply H; left; reflexivity|].
  rewrite IH; [reflexivity|]. intros Hin. apply H. right. exact Hin.
Qed.

Lemma index_of_app (x : Z) (a b : list Z) :
  ~ In x a -> index_of x (a ++ b) = option_map (Nat.add (length a)) (index_of x b).
Proof.
  induction a as [|c a IH]; intros H.
  - cbn. destruct (index_of x b); reflexivity.
  - cbn. destruct (Z.eqb_spec c x) as [->|_]; [exfalso; apply H; left; reflexivity|].
    rewrite IH by (intros Hin; apply H; right; exact Hin).
    destruct (index_of x b); reflexivity.
Qed.

Lemma index_of_some (x : Z) (l : list Z) (j : nat) :
  index_of x l = Some j -> (j < length l)%nat /\ nth j l 0 = x /\ ~ In x (firstn j l).
Proof.
  revert j. induction l as [|c l IH]; intros j H; [discriminate|]. cbn in H.
  destruct (Z.eqb_spec c x) as [->|Hc].
  - injection H as <-. cbn. split; [lia|]. split; [reflexivity|intros []].
  - destruct (index_of x l) as [j'|]; [|discriminate]. injection H as <-.
    destruct (IH j' eq_refl) as [A [B C]]. cbn. split; [lia|]. split; [exact B|].
    intros [H|H]; [exact (Hc H)|exact (C H)].
Qed.

Lemma in_firstn_in (x : Z) (l : list Z) (i : nat) : In x (firstn i l) -> In x l.
Proof.
  intros H. rewrite <- (firstn_skipn i l). apply in_or_app. left. exact H.
Qed.

Lemma index_of_none (x : Z) (l : list Z) : index_of x l = None -> ~ In x l.
Proof.
  induction l as [|c l IH]; intros H Hin; [exact Hin|]. cbn in H.
  destruct (Z.eqb_spec c x) as [->|Hc]; [discriminate|].
  destruct (index_of x l); [discriminate|].
  destruct Hin as [Hin|Hin]; [exact (Hc Hin)|exact (IH eq_refl Hin)].
Qed.

Lemma not_in_prefix (x : Z) (l : list Z) (i : nat) :
  (index_of x l = None \/ exists j, index_of x l = Some j /\ (i <= j)%nat) ->
  ~ In x (firstn i l).
Proof.
  intros [H|[j [H Hij]]] Hin.
  - exact (index_of_none x l H (in_firstn_in x l i Hin)).
  - destruct (index_of_some x l j H) as [_ [_ C]]. apply C.
    replace (firstn i l) with (firstn i (firstn j l)) in Hin
      by (rewrite firstn_firstn, Nat.min_l by exact Hij; reflexivity).
    exact (in_firstn_in x _ i Hin).
Qed.

Lemma skipn_S_length_app (a b : list Z) (c : Z) : skipn (S (length a)) (a ++ c :: b) = b.
Proof. induction a as [|x a IH]; [reflexivity|exact IH]. Qed.

Lemma firstn_min_app (v x : list Z) :
  firstn (Nat.min (length v) 79) (v ++ x) = firstn 79 v.
Proof.
  rewrite firstn_app. replace (Nat.min (length v) 79 - length v)%nat with 0%nat by lia.
  rewrite app_nil_r. destruct (Nat.le_ge_cases (length v) 79) as [H|H].
  - rewrite Nat.min_l by exact H. rewrite firstn_all, firstn_all2 by exact H. reflexivity.
  - rewrite Nat.min_r by exact H. reflexivity.
Qed.

(** The value of a line [pre ( v t rest] whose value [v] is closed by a
    ')' or a '*'. *)
Lemma extract_value_at (pre v rest : list Z) (t : Z) :
  ~ In 40 pre -> ~ In 41 v -> ~ In 42 v -> (t = 41 \/ t = 42) ->
  extract_value (pre ++ 40 :: v ++ t :: rest) = Some (firstn 79 v).
Proof.
  intros Hpre H41 H42 Ht. unfold extract_value.
  rewrite (index_of_app 40 pre) by exact Hpre. cbn [index_of option_map].
  rewrite Z.eqb_refl. cbn [option_map]. rewrite Nat.add_0_r, skipn_S_length_app.
  rewrite (index_of_app 42 v) by exact H42. rewrite (index_of_app 41 v) by exact H41.
  cbn [index_of].
  destruct Ht as [-> | ->]; cbn [Z.eqb Pos.eqb].
  - destruct (index_of 42 rest) as [u|]; cbn [option_map].
    + destruct (Nat.ltb_spec (length v + S u) (length v + 0)) as [E|E]; [lia|].
      rewrite Nat.add_0_r. f_equal. apply firstn_min_app.
    + rewrite Nat.add_0_r. f_equal. apply firstn_min_app.
  - destruct (index_of 41 rest) as [e|]; cbn [option_map].
    + destruct (Nat.ltb_spec (length v + 0) (length v + S e)) as [E|E]; [|lia].
      rewrite Nat.add_0_r. f_equal. apply firstn_min_app.
    + rewrite Nat.add_0_r. f_equal. apply firstn_min_app.
Qed.

Lemma strcmp_P_safe_true (s p : list Z) : strcmp_P_safe s p = true <-> s = p.
Proof.
  revert p. induction s as [|c s IH]; intros [|c' p]; cbn; split; intros H;
    try discriminate; try reflexivity.
  - apply andb_true_iff in H as [H1 H2]. apply Z.eqb_eq in H1. apply IH in H2.
    subst. reflexivity.
  - injection H as <- <-. rewrite Z.eqb_refl. cbn. apply IH. reflexivity.
Qed.

Lemma match_obis_in_sound (obis : list Z) (tbl : list (string * Z)) :
  match_obis_in obis tbl <> OBIS_ID_NONE ->
  exists name, In (name, match_obis_in obis tbl) tbl /\ obis = bytes_of name.
Proof.
  induction tbl as [|[s id] tbl IH]; cbn; intros H; [exfalso; exact (H eq_refl)|].
  destruct (strcmp_P_safe obis (bytes_of s)) eqn:E.
  - exists s. split; [left; reflexivity|]. apply strcmp_P_safe_true. exact E.
  - destruct (IH H) as [name [Hin Hb]]. exists name. split; [right; exact Hin|exact Hb].
Qed.

(** Every entry of the OBIS table is found by [match_obis_code] under its
    own id (no entry is shadowed by an earlier one), has a non-zero id, starts
    with a digit and holds no '('. *)
Lemma obis_table_entries (name : string) (id : Z) :
  In (name, id) OBIS_TABLE ->
  id <> OBIS_ID_NONE /\ match_obis_code (bytes_of name) = id /\
  (exists c0 r, bytes_of name = c0 :: r /\ is_digit c0 = true) /\
  ~ In 40 (bytes_of name).
Proof.
  intros H.
  repeat (destruct H as [H|H];
    [injection H as <- <-;
     split; [discriminate|];
     split; [vm_compute; reflexivity|];
     split; [do 2 eexists; split; [reflexivity|reflexivity]|];
     apply not_in_of_existsb; vm_compute; reflexivity|]).
  destruct H.
Qed.

Lemma process_line_digit (p : dsmr_parser_t) (d : dsmr_data_t) (c0 : Z) (rest : list Z) :
  is_digit c0 = true ->
  process_line p d (c0 :: rest) =
  match index_of 40 (c0 :: rest) with
  | None => (p, d)
  | Some i =>
      let obis_type := match_obis_code (firstn i (c0 :: rest)) in
      if obis_type =? OBIS_ID_NONE then (p, d)
      else match extract_value (c0 :: rest) with
           | Some v => (p, store_value d obis_type v)
           | None => (p, d)
           end
  end.
Proof.
  intros Hd. apply is_digit_bounds in Hd.
  unfold process_line.
  destruct (Z.eqb_spec c0 13) as [E|_]; [lia|].
  destruct (Z.eqb_spec c0 47) as [E|_]; [lia|].
  replace (is_upper c0) with false
    by (unfold is_upper; symmetry; apply andb_false_iff; left; apply Z.leb_gt; lia).
  cbn [orb andb].
  destruct (Z.eqb_spec c0 33) as [E|_]; [lia|].
  reflexivity.
Qed.

(** [extract_value] never returns more than 79 characters (the 80-byte
    [value_buf] with its terminator) and the value it returns holds neither
    ')' nor '*': it stops at the first of the two. *)
Theorem extract_value_bounds (line v : list Z) :
  extract_value line = Some v ->
  (length v <= 79)%nat /\ ~ In 41 v /\ ~ In 42 v.
Proof.
  unfold extract_value. destruct (index_of 40 line) as [i|]; [|discriminate].
  set (start := skipn (S i) line).
  destruct (index_of 42 start) as [u|] eqn:E42, (index_of 41 start) as [e|] eqn:E41;
    [destruct (Nat.ltb_spec u e) as [L|L]| | |discriminate];
    intros H; injection H as <-;
    (split; [rewrite length_firstn; lia|]);
    split; apply not_in_prefix;
    first [left; assumption
          |right; eexists; split; [eassumption|lia]].
Qed.

Lemma extract_value_bounds_witness :
  (length (bytes_of "000123.456") <= 79)%nat /\ ~ In 41 (bytes_of "000123.456") /\
  ~ In 42 (bytes_of "000123.456").
Proof.
  apply (extract_value_bounds (bytes_of "1-0:1.8.1(000123.456*kWh)")).
  vm_compute. reflexivity.
Defined.

(** [match_obis_code] returns a non-zero id exactly for the OBIS codes of the
    table that carry that id, compared as whole strings (no prefix match). *)
Theorem match_obis_code_exact (s : list Z) (id : Z) :
  id <> OBIS_ID_NONE ->
  (match_obis_code s = id <-> exists name, In (name, id) OBIS_TABLE /\ s = bytes_of name).
Proof.
  intros Hid. split.
  - intros H. rewrite <- H in Hid |- *. exact (match_obis_in_sound s OBIS_TABLE Hid).
  - intros [name [Hin ->]]. exact (proj1 (proj2 (obis_table_entries name id Hin))).
Qed.

Lemma match_obis_code_exact_witness :
  match_obis_code (bytes_of "1-0:21.7.0") = OBIS_ID_POWER_L1.
Proof.
  apply (match_obis_code_exact (bytes_of "1-0:21.7.0") OBIS_ID_POWER_L1);
    [discriminate|].
  exists "1-0:21.7.0"%string. split; [cbn; tauto|reflexivity].
Defined.

(** A data line [code(value)...] or [code(value*unit)...] whose code is in the
    OBIS table stores the value, cut to 79 characters, under that code's id,
    and leaves the parser unchanged. *)
Theorem process_line_data_line (p : dsmr_parser_t) (d : dsmr_data_t)
    (name : string) (id : Z) (v rest : list Z) (t : Z) :
  In (name, id) OBIS_TABLE -> ~ In 41 v -> ~ In 42 v -> (t = 41 \/ t = 42) ->
  process_line p d (bytes_of name ++ 40 :: v ++ t :: rest) =
  (p, store_value d id (firstn 79 v)).
Proof.
  intros Hin H41 H42 Ht.
  destruct (obis_table_entries name id Hin) as [Hid [Hm [[c0 [r [Hb Hd]]] H40]]].
  rewrite Hb. cbn [app]. rewrite (process_line_digit p d c0 _ Hd).
  change (c0 :: r ++ 40 :: v ++ t :: rest) with ((c0 :: r) ++ 40 :: v ++ t :: rest).
  rewrite <- Hb. rewrite Hb in H40.
  rewrite (index_of_app 40 (bytes_of name)) by (rewrite Hb; exact H40).
  cbn [index_of]. rewrite Z.eqb_refl. cbn [option_map]. rewrite Nat.add_0_r.
  rewrite firstn_app, Nat.sub_diag, firstn_all. cbn [firstn]. rewrite app_nil_r.
  rewrite Hm. destruct (Z.eqb_spec id OBIS_ID_NONE) as [E|_]; [exfalso; exact (Hid E)|].
  rewrite (extract_value_at (bytes_of name) v rest t) by (try rewrite Hb; assumption).
  reflexivity.
Qed.

Lemma process_line_data_line_witness :
  process_line init_parser zero_data (bytes_of "1-0:1.7.0(01.193*kW)") =
  (init_parser, store_value zero_data OBIS_ID_CURRENT_POWER (bytes_of "01.193")).
Proof.
  apply (process_line_data_line _ _ "1-0:1.7.0" OBIS_ID_CURRENT_POWER
           (bytes_of "01.193") (bytes_of "kW)") 42).
  - cbn. tauto.
  - apply not_in_of_existsb. vm_compute. reflexivity.
  - apply not_in_of_existsb. vm_compute. reflexivity.
  - right. reflexivity.
Defined.

Lemma store_target_range (t : Z) (x : num_field * (Z -> Z) * bool) :
  store_target t = Some x -> 3 <= t <= 25.
Proof.
  destruct t as [|p|p]; try discriminate.
  repeat (destruct p as [p|p|]; try discriminate); intros _; lia.
Qed.

Lemma in_range_false (lo hi x : Z) : x < lo \/ hi < x -> in_range lo hi x = false.
Proof.
  intros H. unfold in_range. apply andb_false_iff.
  destruct H; [left|right]; apply Z.leb_gt; lia.
Qed.

Lemma store_value_out_of_range (d : dsmr_data_t) (t : Z) (v : list Z) :
  t < 1 \/ 25 < t -> store_value d t v = d.
Proof.
  intros H. unfold store_value.
  destruct (Z.eqb_spec t OBIS_ID_METER_ID) as [E|_]; [unfold OBIS_ID_METER_ID in E; lia|].
  destruct (Z.eqb_spec t OBIS_ID_TIMESTAMP) as [E|_]; [unfold OBIS_ID_TIMESTAMP in E; lia|].
  rewrite !in_range_false by (unfold OBIS_ID_VOLTAGE_L1, OBIS_ID_VOLTAGE_L3,
    OBIS_ID_CURRENT_L1, OBIS_ID_CURRENT_L3, OBIS_ID_PF_TOTAL, OBIS_ID_PF_L3; lia).
  destruct (store_target t) as [x|] eqn:E; [apply store_target_range in E; lia|].
  reflexivity.
Qed.

Ltac store_value_case :=
  unfold store_value, store_target, in_range;
  cbn -[ascii_to_fixed strncpy to_int16 to_int32 to_uint64 Z.quot];
  split;
  [ intros g Hg;
    first [ reflexivity
          | match goal with
            | |- (if num_field_beq g ?f then _ else _) = _ =>
                destruct (num_field_beq g f) eqn:Ef;
                [ apply internal_num_field_dec_bl in Ef; subst g;
                  exfalso; eapply Hg; reflexivity
                | reflexivity ]
            end ]
  | repeat split;
    try (intros Hne; exfalso; apply Hne; reflexivity);
    try (intros ?; lia);
    try (rewrite ?orb_false_r, ?orb_true_r; reflexivity) ].

(** [store_value] changes nothing but what the id stands for: only the numeric
    field of the id's target changes, the meter id only for id 1, the timestamp
    only for id 2; the equipment id and the frame-complete flag never; the
    three-phase flag is set (never cleared) by the L2 and L3 power, voltage and
    current ids, the power-factor flag by ids 22 to 25; an id outside 1..25
    leaves the record as it is. *)
Theorem store_value_frame (d : dsmr_data_t) (t : Z) (v : list Z) :
  let d' := store_value d t v in
  (forall g, (forall cast three, store_target t <> Some (g, cast, three)) ->
             nums d' g = nums d g) /\
  (t <> OBIS_ID_METER_ID -> meter_id d' = meter_id d) /\
  (t <> OBIS_ID_TIMESTAMP -> timestamp d' = timestamp d) /\
  equipment_id d' = equipment_id d /\
  frame_complete d' = frame_complete d /\
  is_3phase d' = is_3phase d || existsb (Z.eqb t) [11; 12; 17; 18; 20; 21] /\
  has_pf_data d' = has_pf_data d || in_range 22 25 t /\
  (t < 1 \/ 25 < t -> d' = d).
Proof.
  cbv zeta.
  destruct (Z.lt_ge_cases t 1) as [Hr|Hr]; [|destruct (Z.lt_ge_cases 25 t) as [Hr'|Hr']].
  1,2:
    assert (Hout : t < 1 \/ 25 < t) by lia;
    rewrite (store_value_out_of_range d t v Hout);
    replace (existsb (Z.eqb t) [11; 12; 17; 18; 20; 21]) with false
      by (symmetry; apply not_true_is_false; intros X;
          apply existsb_exists in X as [x [Hx Ex]]; apply Z.eqb_eq in Ex;
          cbn in Hx; lia);
    rewrite (in_range_false 22 25 t) by lia;
    rewrite !orb_false_r;
    repeat split; intros; reflexivity.
  assert (Ht : t = 1 \/ t = 2 \/ t = 3 \/ t = 4 \/ t = 5 \/ t = 6 \/ t = 7 \/ t = 8 \/
               t = 9 \/ t = 10 \/ t = 11 \/ t = 12 \/ t = 13 \/ t = 14 \/ t = 15 \/
               t = 16 \/ t = 17 \/ t = 18 \/ t = 19 \/ t = 20 \/ t = 21 \/ t = 22 \/
               t = 23 \/ t = 24 \/ t = 25) by lia.
  repeat (destruct Ht as [Ht|Ht]; [subst t; store_value_case|]).
  subst t. store_value_case.
Qed.

(* ------------------------------------------------------------------------- *)
(** ** The line buffer of [dsmr_parse_byte] *)

Lemma firstn_firstn_app (n : nat) (a b : list Z) :
  firstn n (firstn n a ++ b) = firstn n (a ++ b).
Proof.
  rewrite !firstn_app, firstn_firstn, Nat.min_id, length_firstn.
  destruct (Nat.le_ge_cases n (length a)) as [H|H].
  - rewrite Nat.min_l by exact H.
    replace (n - n)%nat with 0%nat by lia. replace (n - length a)%nat with 0%nat by lia.
    reflexivity.
  - rewrite Nat.min_r by exact H. reflexivity.
Qed.

Lemma parse_byte_in_line (p : dsmr_parser_t) (d : dsmr_data_t) (c : Z) :
  frame_active p = true -> c <> 10 -> (length (line_buffer p) <= 79)%nat ->
  let '(p1, d1, r) := dsmr_parse_byte p d c in
  line_buffer p1 = firstn 79 (line_buffer p ++ (if c =? 13 then [] else [c])) /\
  frame_active p1 = true /\ d1 = d /\ r = 0.
Proof.
  intros Ha Hc Hl. unfold dsmr_parse_byte. rewrite Ha. cbn [negb].
  set (p1 := if crc_done p then p else _).
  assert (Hp1 : line_buffer p1 = line_buffer p /\ frame_active p1 = true)
    by (unfold p1; destruct (crc_done p); cbn; auto).
  destruct Hp1 as [Hb Ha1].
  destruct (Z.eqb_spec c 10) as [E|_]; [exfalso; exact (Hc E)|].
  destruct (Z.eqb_spec c 13) as [_|_].
  - rewrite app_nil_r, firstn_all2 by exact Hl. auto.
  - unfold LINE_BUFFER_SIZE. rewrite Hb.
    destruct (Nat.ltb_spec (length (line_buffer p)) (80 - 1)) as [L|L]; cbn [line_buffer frame_active].
    + rewrite firstn_all2 by (rewrite length_app; cbn; lia). auto.
    + rewrite firstn_app. replace (79 - length (line_buffer p))%nat with 0%nat by lia.
      rewrite firstn_all2 by exact Hl. cbn. rewrite app_nil_r. auto.
Qed.

(** Inside a frame, the bytes of a line before its '\n' are only buffered:
    carriage returns are dropped, the line is cut to its first 79 bytes (the
    80-byte [line_buffer] with its terminator), nothing is decoded and every
    call returns 0. *)
Theorem line_bytes_buffered (p : dsmr_parser_t) (d : dsmr_data_t) (l : list Z) :
  frame_active p = true -> (length (line_buffer p) <= 79)%nat -> ~ In 10 l ->
  let '(p', d', rs) := feed p d l in
  line_buffer p' = firstn 79 (line_buffer p ++ filter (fun c => negb (c =? 13)) l) /\
  frame_active p' = true /\ d' = d /\ rs = repeat 0 (length l).
Proof.
  revert p. induction l as [|c l IH]; intros p Ha Hl Hn.
  - cbn [feed filter length repeat]. rewrite app_nil_r, firstn_all2 by exact Hl. auto.
  - cbn [feed].
    assert (Hc : c <> 10) by (intros E; apply Hn; left; rewrite E; reflexivity).
    assert (Hn' : ~ In 10 l) by (intros H; apply Hn; right; exact H).
    pose proof (parse_byte_in_line p d c Ha Hc Hl) as S.
    destruct (dsmr_parse_byte p d c) as [[p1 d1] r].
    destruct S as (Hb1 & Ha1 & -> & ->).
    assert (Hl1 : (length (line_buffer p1) <= 79)%nat)
      by (rewrite Hb1, length_firstn; lia).
    pose proof (IH p1 Ha1 Hl1 Hn') as R.
    destruct (feed p1 d l) as [[p2 d2] rs].
    destruct R as (Hb2 & Ha2 & -> & ->).
    split; [|split; [exact Ha2|split; reflexivity]].
    rewrite Hb2, Hb1, firstn_firstn_app, <- app_assoc. cbn [filter].
    destruct (c =? 13); reflexivity.
Qed.

Lemma line_bytes_buffered_witness :
  let '(p', d', rs) := feed (mk_parser [] true 0 false) zero_data (bytes_of "1-0:1.8.1(0") in
  line_buffer p' = firstn 79 ([] ++ filter (fun c => negb (c =? 13)) (bytes_of "1-0:1.8.1(0")) /\
  frame_active p' = true /\ d' = zero_data /\ rs = repeat 0 (length (bytes_of "1-0:1.8.1(0")).
Proof.
  apply (line_bytes_buffered (mk_parser [] true 0 false) zero_data (bytes_of "1-0:1.8.1(0")).
  - reflexivity.
  - cbn. lia.
  - apply not_in_of_existsb. vm_compute. reflexivity.
Defined.

Lemma parse_byte_bound (p : dsmr_parser_t) (d : dsmr_data_t) (c : Z) :
  (length (line_buffer p) <= 79)%nat ->
  let '(p1, _, _) := dsmr_parse_byte p d c in (length (line_buffer p1) <= 79)%nat.
Proof.
  intros Hl. unfold dsmr_parse_byte, LINE_BUFFER_SIZE.
  destruct (frame_active p), (crc_done p); cbn [negb];
    [| |destruct (is_frame_start c); cbn; lia..];
    (destruct (c =? 10); [destruct (process_line _ _ _); cbn; lia|]);
    (destruct (c =? 13); [cbn; lia|]);
    cbn [line_buffer];
    (destruct (Nat.ltb_spec (length (line_buffer p)) (80 - 1)); cbn [line_buffer];
     [rewrite length_app; cbn; lia|lia]).
Qed.

Lemma processDataByte_bound (g : globals) (c : Z) :
  (length (line_buffer (dsmr_parser g)) <= 79)%nat ->
  (length (line_buffer (dsmr_parser (processDataByte g c))) <= 79)%nat.
Proof.
  intros Hl. unfold processDataByte.
  pose proof (parse_byte_bound (dsmr_parser g) (dsmr_data g) c Hl) as B.
  destruct (dsmr_parse_byte (dsmr_parser g) (dsmr_data g) c) as [[p1 d1] r].
  destruct (r =? 0); cbn; lia.
Qed.

(** Whatever bytes arrive on the serial line, the parser's line buffer never
    holds more than 79 bytes, so the 80-byte C array always has room for the
    terminating NUL. *)
Theorem line_buffer_bounded (bs : list Z) :
  (length (line_buffer (dsmr_parser (run_globals init_globals bs))) <= 79)%nat.
Proof.
  unfold run_globals.
  assert (G : forall g, (length (line_buffer (dsmr_parser g)) <= 79)%nat ->
              (length (line_buffer (dsmr_parser (fold_left processDataByte bs g))) <= 79)%nat).
  { induction bs as [|c bs IH]; intros g Hg; [exact Hg|].
    cbn [fold_left]. apply IH. apply processDataByte_bound. exact Hg. }
  apply G. cbn. lia.
Qed.

(* ------------------------------------------------------------------------- *)
(** ** [crc16_update] *)

Lemma crc_bit_step_range (v : Z) : 0 <= v < 65536 -> 0 <= crc_bit_step v < 65536.
Proof.
  intros Hv. destruct (Z.eq_dec v 0) as [->|Hnz]; [cbn; lia|].
  apply crc_bit_step_nonzero; assumption.
Qed.

Lemma crc16_update_range (c b : Z) :
  0 <= c < 65536 -> 0 <= b < 256 -> 0 <= crc16_update c b < 65536.
Proof.
  intros Hc Hb. unfold crc16_update.
  assert (X : 0 <= Z.lxor c b < 65536)
    by (change 65536 with (2 ^ 16); apply lxor_lt_pow2; change (2 ^ 16) with 65536; lia).
  generalize (Z.lxor c b) X. generalize 8%nat. intros n x Hx.
  induction n as [|n IH]; [exact Hx|]. rewrite Nat.iter_succ. apply crc_bit_step_range, IH.
Qed.

Lemma crc16_from_range (a : Z) (l : list Z) :
  0 <= a < 65536 -> Forall (fun b => 0 <= b < 256) l -> 0 <= crc16_from a l < 65536.
Proof.
  unfold crc16_from. revert a. induction l as [|x l IH]; intros a Ha Hl; [exact Ha|].
  inversion Hl as [|? ? Hx Hl']; subst. cbn [fold_left].
  apply IH; [apply crc16_update_range|]; assumption.
Qed.

Lemma iter_step_shiftl (n : nat) (y : Z) :
  Nat.iter n crc_bit_step (Z.shiftl y (Z.of_nat n)) = y.
Proof.
  revert y. induction n as [|n IH]; intros y.
  - cbn. apply Z.shiftl_0_r.
  - rewrite Nat.iter_succ_r. unfold crc_bit_step at 2.
    rewrite <- Z.bit0_odd, Z.shiftl_spec_low by lia.
    rewrite Z.shiftr_shiftl_l by lia.
    replace (Z.of_nat (S n) - 1) with (Z.of_nat n) by lia. apply IH.
Qed.

Lemma lxor_low_byte (c : Z) : Z.lxor c (Z.land c 255) = Z.shiftl (Z.shiftr c 8) 8.
Proof.
  apply Z.bits_inj'. intros m Hm.
  rewrite Z.lxor_spec, Z.land_spec, Z.shiftl_spec by exact Hm.
  change 255 with (Z.ones 8). rewrite Z.testbit_ones by lia.
  rewrite (proj2 (Z.leb_le 0 m) Hm). cbn [andb].
  destruct (Z.ltb_spec m 8) as [L|L].
  - rewrite (Z.testbit_neg_r (Z.shiftr c 8) (m - 8)) by lia. destruct (Z.testbit c m); reflexivity.
  - rewrite Z.shiftr_spec by lia. replace (m - 8 + 8) with m by lia.
    destruct (Z.testbit c m); reflexivity.
Qed.

(** The CRC16 of bytes is a 16-bit value, and appending it low byte first
    brings the CRC to 0: [crc16_update] is the reflected CRC-16 with
    polynomial 0xA001. *)
Theorem crc16_residue (l : list Z) :
  Forall (fun b => 0 <= b < 256) l ->
  0 <= crc16 l < 65536 /\
  crc16 (l ++ [Z.land (crc16 l) 255; Z.shiftr (crc16 l) 8]) = 0.
Proof.
  intros Hl. split; [apply crc16_from_range; [lia|exact Hl]|].
  unfold crc16 at 1. unfold crc16_from at 1. rewrite fold_left_app. cbn [fold_left].
  fold (crc16_from 0 l). fold (crc16 l). set (c := crc16 l).
  unfold crc16_update at 2. rewrite lxor_low_byte.
  change 8%nat with (Z.to_nat 8) at 1. rewrite <- (Z2Nat.id 8) at 2 by lia.
  rewrite iter_step_shiftl.
  unfold crc16_update. rewrite Z.lxor_nilpotent. reflexivity.
Qed.

Lemma crc16_residue_witness :
  0 <= crc16 (bytes_of "1-0:1.8.1") < 65536 /\
  crc16 (bytes_of "1-0:1.8.1" ++
         [Z.land (crc16 (bytes_of "1-0:1.8.1")) 255; Z.shiftr (crc16 (bytes_of "1-0:1.8.1")) 8]) = 0.
Proof.
  apply (crc16_residue (bytes_of "1-0:1.8.1")). repeat constructor; lia.
Defined.

(** Flipping any one bit of any byte changes the CRC16 of a byte sequence. *)
Theorem crc16_detects_bit_flip (l : list Z) (i : nat) (k : Z) :
  (i < length l)%nat -> 0 <= k < 8 -> crc16 (flip_bit l i k) <> crc16 l.
Proof.
  intros Hi Hk H. apply (crc16_flip_bit l i k Hi Hk).
  unfold crc16, crc16_from. rewrite !fold_left_app. cbn [fold_left].
  fold (crc16_from 0 (flip_bit l i k)). fold (crc16_from 0 l). fold (crc16 l).
  fold (crc16 (flip_bit l i k)). rewrite H. reflexivity.
Qed.

Lemma crc16_detects_bit_flip_witness : crc16 (flip_bit [1; 2; 3] 1 3) <> crc16 [1; 2; 3].
Proof. apply (crc16_detects_bit_flip [1; 2; 3] 1 3); [cbn; lia|lia]. Defined.

(** Outside a frame, bytes that cannot start one (anything but '/', an
    upper-case letter or a digit) are ignored: the parser and the record stay
    as they are and every call returns 0. *)
Theorem bytes_outside_frame_ignored (p : dsmr_parser_t) (d : dsmr_data_t) (l : list Z) :
  frame_active p = false -> forallb (fun c => negb (is_frame_start c)) l = true ->
  feed p d l = (p, d, repeat 0 (length l)).
Proof.
  intros Ha. induction l as [|c l IH]; intros Hl; [reflexivity|].
  cbn [forallb] in Hl. apply andb_true_iff in Hl as [Hc Hl].
  cbn [feed]. unfold dsmr_parse_byte at 1. rewrite Ha. cbn [negb].
  apply negb_true_iff in Hc. rewrite Hc. rewrite (IH Hl). reflexivity.
Qed.

Lemma bytes_outside_frame_ignored_witness :
  feed init_parser zero_data [13; 10; 33; 32] = (init_parser, zero_data, [0; 0; 0; 0]).
Proof. apply (bytes_outside_frame_ignored init_parser zero_data [13; 10; 33; 32]); reflexivity. Defined.

(* ------------------------------------------------------------------------- *)
(** ** A telegram that fails its checksum *)

Lemma feed_app (p : dsmr_parser_t) (d : dsmr_data_t) (l1 l2 : list Z) :
  feed p d (l1 ++ l2) =
  let '(p1, d1, rs1) := feed p d l1 in
  let '(p2, d2, rs2) := feed p1 d1 l2 in (p2, d2, rs1 ++ rs2).
Proof.
  revert p d. induction l1 as [|x l1 IH]; intros p d.
  - cbn. destruct (feed p d l2) as [[p2 d2] rs2]. reflexivity.
  - cbn [app feed]. destruct (dsmr_parse_byte p d x) as [[p1 d1] r].
    rewrite IH. destruct (feed p1 d1 l1) as [[p3 d3] rs3].
    destruct (feed p3 d3 l2) as [[p2 d2] rs2]. reflexivity.
Qed.

(** Through bytes for which [dsmr_parse_byte] returns 0, [processDataByte]
    only passes the parser and the record along. *)
Lemma run_globals_feed (g : globals) (bs : list Z) :
  let '(p', d', rs) := feed (dsmr_parser g) (dsmr_data g) bs in
  forallb (Z.eqb 0) rs = true -> run_globals g bs = mk_globals p' d' (dsmr_last_good g).
Proof.
  revert g. induction bs as [|c bs IH]; intros g.
  - cbn. intros _. destruct g; reflexivity.
  - cbn [feed]. unfold run_globals. cbn [fold_left].
    unfold processDataByte at 2.
    destruct (dsmr_parse_byte (dsmr_parser g) (dsmr_data g) c) as [[p1 d1] r].
    specialize (IH (mk_globals p1 d1 (dsmr_last_good g))). cbn [dsmr_parser dsmr_data dsmr_last_good] in IH.
    destruct (feed p1 d1 bs) as [[p2 d2] rs].
    cbn [forallb]. intros H. apply andb_true_iff in H as [Hr Hrs].
    apply Z.eqb_eq in Hr. subst r. cbn [Z.eqb]. exact (IH Hrs).
Qed.

Lemma feed_open_returns (p : dsmr_parser_t) (d : dsmr_data_t) (l : list Z) :
  frame_active p = true -> crc_done p = false -> ~ In 33 (line_buffer p) ->
  frame_complete d = false -> ~ In 33 l ->
  let '(_, _, rs) := feed p d l in forallb (Z.eqb 0) rs = true.
Proof.
  revert p d. induction l as [|x l IH]; intros p d Ha Hd Hlb Hf Hl; [reflexivity|].
  assert (Hx : x <> 33) by (intros E; apply Hl; left; exact E).
  assert (Hl' : ~ In 33 l) by (intros H; apply Hl; right; exact H).
  pose proof (parse_byte_open p d x Ha Hd Hlb Hf Hx) as S.
  cbn [feed]. destruct (dsmr_parse_byte p d x) as [[p1 d1] r].
  destruct S as [Ha1 [Hd1 [_ [Hlb1 [Hf1 [-> _]]]]]].
  pose proof (IH p1 d1 Ha1 Hd1 Hlb1 Hf1 Hl') as T.
  destruct (feed p1 d1 l) as [[p2 d2] rs]. exact T.
Qed.

(** The ['!'] line of a frame whose four hex digits differ from the CRC:
    the record is left as it is, the parser leaves the frame and every call
    returns 0. *)
Lemma feed_bang_line_mismatch (p : dsmr_parser_t) (d : dsmr_data_t) (h : list Z) :
  frame_active p = true -> crc_done p = false -> line_buffer p = [] ->
  frame_complete d = false -> length h = 4%nat -> forallb is_hex h = true ->
  hex_digits_val 0 h <> crc16_update (crc_calculated p) 33 ->
  feed p d (33 :: h ++ CRLF) =
  (mk_parser [] false (crc16_update (crc_calculated p) 33) true, d, repeat 0 7).
Proof.
  intros Ha Hd Hlb Hf Hlen Hh Hne.
  destruct h as [|h1 [|h2 [|h3 [|h4 [|h5 t]]]]]; try discriminate.
  cbn [forallb] in Hh. rewrite !andb_true_iff in Hh.
  destruct Hh as [H1 [H2 [H3 [H4 _]]]].
  destruct (hex_digit_val_is_hex h1 H1) as [v1 [E1 B1]].
  destruct (hex_digit_val_is_hex h2 H2) as [v2 [E2 B2]].
  destruct (hex_digit_val_is_hex h3 H3) as [v3 [E3 B3]].
  destruct (hex_digit_val_is_hex h4 H4) as [v4 [E4 B4]].
  pose proof (is_hex_bounds h1 H1). pose proof (is_hex_bounds h2 H2).
  pose proof (is_hex_bounds h3 H3). pose proof (is_hex_bounds h4 H4).
  destruct p as [lb fa crc cd]; cbn [frame_active crc_done line_buffer crc_calculated] in *.
  subst lb fa cd.
  set (crc1 := crc16_update crc 33) in *.
  assert (S0 : dsmr_parse_byte (mk_parser [] true crc false) d 33 =
               (mk_parser [33] true crc1 true, d, 0)) by reflexivity.
  cbn [app CRLF feed]. rewrite S0. cbv beta iota.
  rewrite (parse_byte_done (mk_parser [33] true crc1 true) d h1) by (cbn; first [reflexivity|lia]).
  cbv beta iota. cbn [line_buffer crc_calculated app].
  rewrite (parse_byte_done (mk_parser [33; h1] true crc1 true) d h2) by (cbn; first [reflexivity|lia]).
  cbv beta iota. cbn [line_buffer crc_calculated app].
  rewrite (parse_byte_done (mk_parser [33; h1; h2] true crc1 true) d h3) by (cbn; first [reflexivity|lia]).
  cbv beta iota. cbn [line_buffer crc_calculated app].
  rewrite (parse_byte_done (mk_parser [33; h1; h2; h3] true crc1 true) d h4) by (cbn; first [reflexivity|lia]).
  cbv beta iota. cbn [line_buffer crc_calculated app].
  set (P := mk_parser [33; h1; h2; h3; h4] true crc1 true).
  assert (S13 : dsmr_parse_byte P d 13 = (P, d, 0)) by reflexivity.
  rewrite S13. cbv beta iota.
  rewrite (parse_byte_newline P d eq_refl). cbv zeta.
  replace (crc_done P) with true by reflexivity.
  assert (Hc : cstr (line_buffer P) = 33 :: [h1; h2; h3; h4]).
  { unfold P. cbn [line_buffer cstr].
    replace (33 =? 0) with false by reflexivity.
    replace (h1 =? 0) with false by (symmetry; apply Z.eqb_neq; lia).
    replace (h2 =? 0) with false by (symmetry; apply Z.eqb_neq; lia).
    replace (h3 =? 0) with false by (symmetry; apply Z.eqb_neq; lia).
    replace (h4 =? 0) with false by (symmetry; apply Z.eqb_neq; lia).
    reflexivity. }
  rewrite Hc, process_line_bang.
  replace (4 <=? length [h1; h2; h3; h4])%nat with true by reflexivity.
  cbn [firstn].
  rewrite strtol16_hex by (cbn [forallb]; rewrite H1, H2, H3, H4; reflexivity).
  assert (Hv : hex_digits_val 0 [h1; h2; h3; h4] = ((v1 * 16 + v2) * 16 + v3) * 16 + v4)
    by (cbn [hex_digits_val]; rewrite E1, E2, E3, E4; reflexivity).
  rewrite Hv in Hne |- *.
  replace (to_uint16 (((v1 * 16 + v2) * 16 + v3) * 16 + v4))
    with (((v1 * 16 + v2) * 16 + v3) * 16 + v4)
    by (unfold to_uint16; symmetry; apply Z.mod_small; change (2 ^ 16) with 65536; lia).
  replace (crc_calculated P) with crc1 by reflexivity.
  replace (((v1 * 16 + v2) * 16 + v3) * 16 + v4 =? crc1) with false
    by (symmetry; apply Z.eqb_neq; exact Hne).
  cbn [feed]. rewrite Hf. reflexivity.
Qed.

(** A telegram that fails its checksum (a body from ['/'] to ['\n'] without
    ['!'], then ['!'], four hex digits other than the CRC16, CR LF), fed
    through [processDataByte] outside a frame: the last good record is kept,
    the parser is left outside a frame, and the working record is not reset:
    it is the record the parser built from the failed telegram, on top of
    which the next telegram is decoded. *)
Theorem failed_telegram_not_cleared (g : globals) (b h : list Z) :
  frame_active (dsmr_parser g) = false -> frame_complete (dsmr_data g) = false ->
  nth 0 b 0 = 47 -> ~ In 33 b -> last b 0 = 10 ->
  length h = 4%nat -> forallb is_hex h = true ->
  hex_digits_val 0 h <> crc16 (b ++ [33]) ->
  let g' := run_globals g (b ++ [33] ++ h ++ CRLF) in
  dsmr_last_good g' = dsmr_last_good g /\
  frame_active (dsmr_parser g') = false /\
  dsmr_data g' = snd (fst (feed (dsmr_parser g) (dsmr_data g) (b ++ [33] ++ h ++ CRLF))).
Proof.
  intros Ha Hf Hb0 Hb Hlast Hlen Hh Hne. cbv zeta.
  destruct b as [|b0 b']; [discriminate|]. cbn [nth] in Hb0. subst b0.
  destruct b' as [|y b'']; [discriminate|].
  set (P1 := mk_parser [47] true (crc16_update 0 47) false).
  assert (S0 : dsmr_parse_byte (dsmr_parser g) (dsmr_data g) 47 = (P1, dsmr_data g, 0))
    by (unfold dsmr_parse_byte; rewrite Ha; reflexivity).
  assert (H47 : ~ In 33 (line_buffer P1)) by (intros [E|[]]; discriminate).
  assert (Hb' : ~ In 33 (y :: b'')) by (intros E; apply Hb; right; exact E).
  pose proof (feed_open P1 (dsmr_data g) (y :: b'') eq_refl eq_refl H47 Hf Hb') as T.
  pose proof (feed_open_returns P1 (dsmr_data g) (y :: b'') eq_refl eq_refl H47 Hf Hb') as TR.
  pose proof (run_globals_feed g ((47 :: y :: b'') ++ [33] ++ h ++ CRLF)) as RG.
  replace ((47 :: y :: b'') ++ [33] ++ h ++ CRLF)
    with ([47] ++ (y :: b'') ++ (33 :: h ++ CRLF)) in RG |- * by reflexivity.
  assert (F47 : feed (dsmr_parser g) (dsmr_data g) [47] = (P1, dsmr_data g, [0]))
    by (cbn [feed]; rewrite S0; reflexivity).
  rewrite feed_app, F47 in RG |- *. cbv beta iota in RG |- *.
  rewrite feed_app in RG |- *.
  destruct (feed P1 (dsmr_data g) (y :: b'')) as [[p2 d2] rs].
  destruct T as [Ha2 [Hd2 [Hc2 [_ [Hf2 Hn2]]]]].
  assert (Hlb2 : line_buffer p2 = []) by (apply Hn2; [discriminate|exact Hlast]).
  assert (Hcrc : hex_digits_val 0 h <> crc16_update (crc_calculated p2) 33).
  { rewrite Hc2. intros E. apply Hne. rewrite E.
    unfold crc16, crc16_from. cbn [app fold_left]. rewrite fold_left_app. reflexivity. }
  rewrite (feed_bang_line_mismatch p2 d2 h Ha2 Hd2 Hlb2 Hf2 Hlen Hh Hcrc) in RG |- *.
  cbv beta iota in RG |- *.
  rewrite RG.
  - cbn [dsmr_last_good dsmr_parser dsmr_data frame_active fst snd].
    split; [reflexivity|split; reflexivity].
  - change ([0] ++ rs ++ repeat 0 7) with (0 :: rs ++ repeat 0 7). cbn [forallb].
    rewrite forallb_app. apply andb_true_iff; split; [reflexivity|].
    apply andb_true_iff; split; [exact TR|reflexivity].
Qed.

Lemma failed_telegram_not_cleared_witness :
  let g' := run_globals init_globals (sample_body ++ [33] ++ bytes_of "0000" ++ CRLF) in
  dsmr_last_good g' = zero_data /\
  frame_active (dsmr_parser g') = false /\
  dsmr_data g' = snd (fst (feed init_parser zero_data (sample_body ++ [33] ++ bytes_of "0000" ++ CRLF))).
Proof.
  apply (failed_telegram_not_cleared init_globals sample_body (bytes_of "0000")).
  - reflexivity.
  - reflexivity.
  - reflexivity.
  - apply not_in_of_existsb. vm_compute. reflexivity.
  - vm_compute. reflexivity.
  - reflexivity.
  - vm_compute. reflexivity.
  - vm_compute. discriminate.
Defined.
